(* ===== verification/_CoqProject ===== *)
-Q . S2P
Prelude.v
Trace.v
PyInt.v
Binary64.v
PyValue.v
Json.v
FloatRepr.v
Compass.v
UnixTime.v
Http.v
Handler.v
HandlerProps.v
HandlerInv.v
UrlQuote.v
Provision.v
