(* ===== verification/Prelude.v ===== *)
(** * A verification development of the CloudLabItisTasks weather bot

    The repository holds two Python scripts.

    - [src/tgbot_weather/spr23-21-tgbot-weather.py] is a Yandex Cloud
      Function that serves as the webhook of a Telegram bot.  Its entry point
      [handler(event, context)] parses the Telegram [Update] carried in the
      HTTP body, classifies the message by payload tag (text, then voice,
      then location), performs a short chain of outbound HTTP calls
      (OpenWeatherMap, Telegram [getFile] and file download, Yandex
      SpeechKit STT and TTS, Yandex Object Storage through boto3) and
      answers with one [sendMessage] or [sendVoice] call.  It always means
      to return [FUNC_RESPONSE = {'statusCode': 200, 'body': ''}].
      Two pure helpers format the answer: [degToCompass] (wind direction)
      and [convertUnixToTime] (sunrise and sunset in Moscow time).
    - [src/task.py] is a one-shot provisioning script for an Object Storage
      bucket: it creates the bucket, uploads objects, prints their URLs with
      the key percent-encoded by [urllib.parse.quote], and configures static
      web-site hosting.

    ** Layout of the development (files in dependency order)

    - [Prelude] (this file): the result type [outcome] and the
      state-and-exception monad [stm] that every Python function of the bot
      is translated into, with their notations in [py_scope]; Python's
      substring test [str_contains] with its reflection lemma; string
      lemmas; the shared tactics and the hint databases [py], [py_rw].
    - [Trace]: a program logic for computations whose state is a trace of
      events: [has_post] (a postcondition on the outcome and the appended
      events) and [spec] (a budget of abstract items read from the events,
      a predicate on each, a postcondition on the result), with rules
      along [sbind].
    - [PyInt]: [int(s)] on a [str] as CPython's [PyLong_FromUnicodeObject]
      with base 10 ([int_of_str]: white space, sign, digits with single
      underscores between them).
    - [Binary64]: IEEE 754 binary64 rounding ([b64_round], ties to even;
      [to_double]), with the bounds of the rounded mantissa.
    - [PyValue]: the Python values the handler manipulates, i.e. what
      [json.loads] returns ([pyval]: None, bool, int, float, str, list,
      dict), Python's exceptions ([exc]) and the built-in operations the
      code applies to them: [x in y], [x[k]], [str(x)], [int(x)], [x > y];
      the interface [PyLib] of the two library functions the code calls
      on text and numbers, [json.loads] and [repr] of a float.
    - [Json]: CPython's JSON decoder (the C scanner of [json.loads], also
      behind [Response.json()]) on UTF-8 byte strings: [jstring] with its
      escapes and surrogate pairs, [jnumber] (a float is the nearest
      double), [jliteral], objects and arrays by the mutually recursive
      [jvalue], [jmembers], [jarray_tail] with fuel, and [json_decode],
      which refuses trailing data.
    - [FloatRepr]: [repr] of a float: the digit loop of [_Py_dg_dtoa] in
      mode 0 ([dtoa_digit], [dtoa_loop], [shortest]) and the layout of
      [format_float_short] ([repr_layout]); [cpython], the instance of
      [PyLib] with [json_decode] and this [repr].
    - [Compass]: [degToCompass] (lines 26-29).
    - [UnixTime]: [convertUnixToTime] (lines 32-39), with the host time zone
      and the Europe/Moscow zone as offset functions.
    - [Http]: the outbound side.  The network is an interface (the class
      [Net]): a partial function from HTTP requests to responses, [None]
      meaning that [requests] raised.  Every attempted request is appended
      to the trace, the state of the monad.  Module-level configuration
      (lines 11-24) and the helpers [get_weather_from_text],
      [get_weather_from_location], [get_file], [send_message], [send_voice]
      (lines 42-99).
    - [Handler]: [handler] (lines 102-239), branch by branch: [dispatch]
      composes [text_branch], [voice_branch] (with [speak]) and
      [location_branch] in the code's order.
    - [HandlerProps]: each branch of [handler] as an exact run; the module
      [Demo] runs the handler with [cpython] on JSON texts (written by its
      [dumps] from the test values) over a scripted network, one concrete
      run per theorem.
    - [HandlerInv]: the dispatcher's contract on every run: the calls read
      as Bot API replies by [reply_of], the contract's reply relation
      [reply_spec] (spec sections 3 and 4.1), the specs of the helpers and
      branches in the logic of [Trace], and the classification by
      priority [first_tag].
    - [UrlQuote]: [urllib.parse.quote] as used by [src/task.py] lines 60 and
      73 to build object URLs, and its inverse.
    - [Provision]: [src/task.py] as a list of operations [op] run by
      [run] on an account state [world] (buckets as stdpp [gmap]s from keys
      to objects, local files, printed lines); the download of line 15 may
      fail.

    ** What the theorems show (claim ids as in PROJECT.json)

    - [HandlerInv] (C1-C6, C34), over all inputs and every network: at
      most one reply per invocation, earlier calls kept (C1); every reply
      addressed to [message['chat']['id']] and threaded to
      [message['message_id']] (C2); every reply's content the one the
      contract assigns to the message's first payload tag (C3, a refinement
      of the spec's dispatcher); every normal return is the
      acknowledgement (C4); on a network that answers and a weather service
      whose answers format, every text message and every location message
      is answered exactly once (C5; a voice message is not, C16);
      [dispatch]'s [if]-chain is the classification by priority (C6); the
      limit of C5: a 200 answer whose data the report cannot be formatted
      from makes the handler raise before any reply (C34).
    - [HandlerProps] (C7-C20): every branch of [handler] as an exact run,
      i.e. the outcome (acknowledgement or exception) and the exact list of
      outbound calls appended to the trace: no call without a token (C7),
      without a [message] (C8) or for an untagged message (C9, where the
      code's comment promises a warning); only the fixed help / greeting
      text for [/help] and [/start] (C10, C11); the "place not found" reply
      and the report for a known place (C12, C13); the 30-second cutoff
      (C14); the STT-failure reply with no weather or TTS call (C15); the
      location branch (C18, C19).  Behaviour the spec does not expect is
      proved as such: a successful TTS response makes the handler raise
      [AttributeError] before any upload or reply, and a report with a
      surrogate raises [UnicodeEncodeError] before the TTS call (C16); a
      TTS failure answers with the stored [speech.ogg] (C17); a body that
      is not JSON raises [JSONDecodeError] (C20).
    - [Compass] (C21-C23): [degToCompass] never raises on a number but only
      returns the first eight labels, is periodic with period 90 degrees,
      and at the centre of every one of the spec's sixteen sectors returns
      the label of sector [2k mod 8], which is the spec's only for north.
    - [UnixTime] (C24-C27): [HH:MM] reads back as hour and minute; on a UTC
      host the result is Moscow time (UTC+3 since 2014-10-26); on a host
      with offset [o] it is shifted by [o]; the exceptions for timestamps
      out of range: [OverflowError], [OSError], [ValueError] (also on the
      first day of year 1, from the fold probe) and [OverflowError] from
      [astimezone] at the end of year 9999.
    - [UrlQuote] (C28, C29): [unquote (quote s) = s] (C28); quoted keys are
      plain ASCII without spaces (C29).  The URLs [task.py] prints are
      computed in [task_object_urls], and [send_voice_keys_need_no_quoting]
      shows that the bot's unquoted voice URLs are the quoted ones for its
      two keys.
    - [Provision] (C30-C32): [task.py] on an account without the bucket
      (final bucket, printed lines in S3's key order); its failure when run
      a second time; every URL is printed when it is live.
    - [Http] (C33): importing the module needs [API_KEY] and
      [API_KEY_VOICE]; a missing bot token is accepted as [None].
    - Library lemmas without a claim: [Json.jvalue_terminates] (the
      decoder's fuel is enough and more changes nothing),
      [Binary64.b64_round_bounds] and [FloatRepr.shortest_some] (the digit
      loop of [repr] ends within 18 digits for every double).

    ** Modelling choices

    - Python [str] is modelled by its UTF-8 encoding, a Rocq [string]
      (a list of bytes); [s.encode('utf-8')] is the identity except on a
      surrogate code point (the three-byte form a lone [\uD8xx] escape
      decodes to), where it raises [UnicodeEncodeError].  The substring
      test on code points and on UTF-8 bytes agree for valid UTF-8.
    - A Python [float] is the exact rational value of a binary64 double:
      the JSON decoder stores the double nearest to the literal
      ([Binary64.to_double]), [int], comparisons and [repr] read that
      value; [repr] is CPython's shortest round-trip string.  Arithmetic in
      [degToCompass] ([num / 11.25 + .5]) is computed exactly, where CPython
      rounds each operation to a double (a difference only within an ulp
      of a sector boundary).  A JSON literal beyond the largest double
      (an infinity for CPython) keeps its exact value; [-0.0], NaN and the
      infinities are otherwise outside the model.  [str] of a float and
      [json.loads] are the fields [float_repr] and [json_loads] of the
      class [PyLib] (library code, not code of the repository): the
      theorems about the handler hold for every instance, and [cpython] is
      the modelled one.
    - The network and the external services are the [Net] interface; the
      theorems hold for every implementation of it, and the witnesses use
      concrete ones.  [resp.ok] is [requests]': false exactly for a status
      from 400 to 599.
    - The program's own functions are straight-line code and their models
      are structurally recursive.  The JSON decoder recurses into nested
      values; [jvalue] takes fuel, and [json_decode] gives it one more unit
      than the text has bytes, which is enough (each nested call consumes
      at least one byte) and never changes the answer
      ([jvalue_terminates]).  The digit loop of [repr] runs at most 18
      positions, which always suffice ([shortest_some]: at the 18th the
      unit is below the rounding margin since [2 ^ 55 <= 10 ^ 17]).  The
      other fuels ([dec_list], [ndig], [strip_zeros]) are the bit length of
      the number or its digit count, an upper bound on the steps.  Python's
      recursion limit on deeply nested JSON is not modelled.
    - A reply is what the Telegram Bot API reads as one ([reply_of]): a
      [sendMessage] or [sendVoice] POST with the three-field JSON body the
      code builds; the contract [reply_spec] is written from the spec, the
      code's definitions are not used in it beyond the report formatting.
    - Time zones are offset functions of the UTC instant; [europe_moscow]
      follows the tz database from 1996 on (earlier dates reuse the
      1996-2010 summer-time rule).  Timestamps are whole seconds (a float
      is rounded to microseconds and floored, as CPython does); the errors
      of [datetime] are CPython's on Linux (glibc's [localtime_r]).
    - Python's [int(str)] follows CPython on ASCII text and on non-ASCII
      white space; non-ASCII decimal digits (read by the Unicode database
      of the interpreter's version) and the 4300-digit limit of CPython
      3.11 are not modelled.  The bot applies [int] to numbers of the
      weather data, which the service sends as JSON numbers.

    ** Not modelled

    The boto3 session and resource objects have no observable effect
    until [put_object] (it is modelled as an outbound call); the
    [configparser.ConfigParser()] object the handler creates is never used.
    The external services themselves, the boto3 profiles' access rights,
    bucket names owned by other accounts, failures of the storage service
    in [task.py] and the retry policy of the Telegram platform are outside
    the code.

    ** Plan for later work

    The tz database rules before 1996; the report's fields against the
    OpenWeatherMap schema; double rounding of the arithmetic in
    [degToCompass]. *)

From stdpp Require Import base strings list.
From Stdlib Require Import ZArith String.

Declare Scope py_scope.
Delimit Scope py_scope with py.
Open Scope string_scope.

(** ** Outcomes and the state-and-exception monad *)

(** The value of a Python computation: a normal result, or an exception that
    propagates to the caller. *)
Inductive outcome (E A : Type) : Type :=
| Ok (a : A)
| Raise (e : E).
Arguments Ok {E A} a.
Arguments Raise {E A} e.

Definition obind {E A B} (m : outcome E A) (k : A -> outcome E B) : outcome E B :=
  match m with
  | Ok a => k a
  | Raise e => Raise e
  end.

(** A computation that threads a state [S] (for the bot: the trace of
    outbound calls) and may raise an exception of type [E].  The state
    reached when the exception is raised is kept: calls already made are
    not undone. *)
Definition stm (S E A : Type) : Type := S -> outcome E A * S.

Definition sret {S E A} (a : A) : stm S E A := fun s => (Ok a, s).

Definition sbind {S E A B} (m : stm S E A) (k : A -> stm S E B) : stm S E B :=
  fun s => match m s with
           | (Ok a, s') => k a s'
           | (Raise e, s') => (Raise e, s')
           end.

Definition sraise {S E A} (e : E) : stm S E A := fun s => (Raise e, s).

(** A pure, possibly failing computation run inside [stm]. *)
Definition slift {S E A} (m : outcome E A) : stm S E A := fun s => (m, s).

Notation "x <- m ;; k" := (sbind m (fun x => k))
  (at level 100, m at next level, right associativity) : py_scope.
Notation "m ;; k" := (sbind m (fun _ => k))
  (at level 100, right associativity) : py_scope.
Notation "'let?' x := m 'in' k" := (obind m (fun x => k))
  (at level 10, x name, m at level 100, k at level 200) : py_scope.

(** ** Monad laws *)

Section MonadLaws.
Context {S E : Type}.

Lemma sbind_ret_l {A B} (a : A) (k : A -> stm S E B) s :
  sbind (sret a) k s = k a s.
Proof. reflexivity. Qed.

Lemma sbind_raise {A B} (e : E) (k : A -> stm S E B) s :
  sbind (sraise e) k s = (Raise e, s).
Proof. reflexivity. Qed.

Lemma sbind_assoc {A B C} (m : stm S E A) (k : A -> stm S E B)
      (h : B -> stm S E C) s :
  sbind (sbind m k) h s = sbind m (fun a => sbind (k a) h) s.
Proof. unfold sbind. by destruct (m s) as [[a|e] s']. Qed.

Lemma sbind_lift_ok {A B} (a : A) (k : A -> stm S E B) s :
  sbind (slift (Ok a)) k s = k a s.
Proof. reflexivity. Qed.

Lemma sbind_lift_raise {A B} (e : E) (k : A -> stm S E B) s :
  sbind (slift (Raise e)) k s = (Raise e, s).
Proof. reflexivity. Qed.

Lemma sbind_ok {A B} (m : stm S E A) (k : A -> stm S E B) s a s' :
  m s = (Ok a, s') -> sbind m k s = k a s'.
Proof. unfold sbind. by intros ->. Qed.

Lemma sbind_err {A B} (m : stm S E A) (k : A -> stm S E B) s e s' :
  m s = (Raise e, s') -> sbind m k s = (Raise e, s').
Proof. unfold sbind. by intros ->. Qed.

Lemma obind_ok {A B} (a : A) (k : A -> outcome E B) : obind (Ok a) k = k a.
Proof. reflexivity. Qed.
End MonadLaws.

(** ** Python's substring test [needle in hay] on strings *)

Fixpoint str_contains (needle hay : string) : bool :=
  String.prefix needle hay ||
  match hay with
  | EmptyString => false
  | String _ hay' => str_contains needle hay'
  end.

(** stdpp declares [String.append] [simpl never]; these two equations are
    its computation rules. *)
Lemma str_app_nil_l (a : string) : "" ++ a = a.
Proof. reflexivity. Qed.

Lemma str_app_cons (c : Ascii.ascii) (a b : string) :
  String c a ++ b = String c (a ++ b).
Proof. reflexivity. Qed.

Lemma str_app_assoc (a b c : string) : a ++ (b ++ c) = (a ++ b) ++ c.
Proof. induction a as [|x a IH]; [done|by rewrite !str_app_cons, IH]. Qed.

Lemma str_app_nil_r (a : string) : a ++ "" = a.
Proof. induction a as [|x a IH]; [done|by rewrite str_app_cons, IH]. Qed.

Lemma str_length_app (a b : string) :
  String.length (a ++ b) = (String.length a + String.length b)%nat.
Proof. induction a as [|x a IH]; [done|]. rewrite str_app_cons. simpl. by rewrite IH. Qed.

Lemma str_contains_unfold (n h : string) :
  str_contains n h =
  String.prefix n h || match h with
                       | EmptyString => false
                       | String _ h' => str_contains n h'
                       end.
Proof. by destruct h. Qed.

Lemma prefix_app (p s : string) : String.prefix p (p ++ s) = true.
Proof.
  induction p as [|c p IH]; simpl; [by destruct s|].
  by destruct (Ascii.ascii_dec c c); [|congruence].
Qed.

Lemma prefix_spec (p h : string) :
  String.prefix p h = true <-> exists s, h = p ++ s.
Proof.
  split.
  - revert h. induction p as [|c p IH]; intros h Hp; [by exists h|].
    destruct h as [|d h]; simpl in Hp; [discriminate|].
    destruct (Ascii.ascii_dec c d) as [->|]; [|discriminate].
    destruct (IH h Hp) as [s ->]. by exists s.
  - intros [s ->]. apply prefix_app.
Qed.

Lemma str_contains_spec (n h : string) :
  str_contains n h = true <-> exists a b, h = a ++ n ++ b.
Proof.
  split.
  - induction h as [|c h IH]; cbn [str_contains]; intros H.
    + apply orb_true_iff in H as [H|H]; [|discriminate].
      apply prefix_spec in H as [s Hs]. by exists "", s.
    + apply orb_true_iff in H as [H|H].
      * apply prefix_spec in H as [s Hs]. by exists "", s.
      * destruct (IH H) as (a & b & ->). by exists (String c a), b.
  - intros (a & b & ->). induction a as [|c a IH].
    + rewrite str_app_nil_l. by rewrite str_contains_unfold, prefix_app.
    + rewrite str_app_cons.
      rewrite str_contains_unfold, IH. apply orb_true_r.
Qed.

Lemma str_contains_app_l (n a b : string) :
  str_contains n a = true -> str_contains n (a ++ b) = true.
Proof.
  rewrite !str_contains_spec. intros (x & y & ->).
  exists x, (y ++ b). by rewrite !str_app_assoc.
Qed.

(** ** Shared tactics and hints *)

Create HintDb py discriminated.
Create Rewrite HintDb py_rw.
#[export] Hint Rewrite @sbind_ret_l @sbind_raise @sbind_lift_ok
  @sbind_lift_raise @obind_ok str_app_nil_l str_app_cons : py_rw.
#[export] Hint Resolve prefix_app str_contains_app_l : py.

(** [py_run] evaluates a monadic run as far as the symbolic inputs allow,
    rewriting with the equations the context provides. *)
Ltac py_run :=
  repeat (progress (cbn [sbind sret sraise slift obind] in *;
                    autorewrite with py_rw in *;
                    try match goal with
                        | H : ?x = _ |- context [?x] => rewrite H
                        end)).
