(* ===== verification/Trace.v ===== *)
(** * Traced computations: postconditions and budgets of abstract events

    A unary program logic for the state-and-exception monad of [Prelude]
    when its state is a trace (a list of events that computations only
    append to), after the [has_post] predicate of interaction-tree
    developments.  [has_post m Q]: from every trace, [m] appends a list
    [ext] of events, and its outcome and [ext] satisfy [Q].

    [spec f n G R m] specialises it to an abstraction [f] that reads some
    events as abstract items (for the bot: outbound calls read as replies
    of the Telegram Bot API): [m] appends at most [n] items, each
    satisfying [G], and a normal result satisfies [R].  The rules compose
    along [sbind], so that a property of a whole handler follows from
    properties of its helpers. *)

From stdpp Require Import base list.
From S2P Require Import Prelude.
Local Open Scope py_scope.

(** A postcondition on the normal result only; an exception satisfies it. *)
Definition ok_post {E A} (R : A -> Prop) (o : outcome E A) : Prop :=
  match o with
  | Ok a => R a
  | Raise _ => True
  end.

Section Post.
Context {T E : Type}.

Definition has_post {A} (m : stm (list T) E A) (Q : outcome E A -> list T -> Prop) : Prop :=
  forall tr, exists ext, (m tr).2 = tr ++ ext /\ Q (m tr).1 ext.

Lemma post_weaken {A} (m : stm (list T) E A) (P Q : outcome E A -> list T -> Prop) :
  (forall o ext, P o ext -> Q o ext) -> has_post m P -> has_post m Q.
Proof. intros HPQ Hm tr. destruct (Hm tr) as (ext & ? & ?). eauto. Qed.

Lemma post_ret {A} (a : A) (Q : outcome E A -> list T -> Prop) :
  Q (Ok a) [] -> has_post (sret a) Q.
Proof. intros HQ tr. exists []. by rewrite app_nil_r. Qed.

Lemma post_lift {A} (o : outcome E A) (Q : outcome E A -> list T -> Prop) :
  Q o [] -> has_post (slift o) Q.
Proof. intros HQ tr. exists []. by rewrite app_nil_r. Qed.

(** One event appended, whatever the outcome. *)
Lemma post_event {A} (t : T) (o : outcome E A) (Q : outcome E A -> list T -> Prop) :
  Q o [t] -> has_post (fun tr => (o, tr ++ [t])) Q.
Proof. intros HQ tr. by exists [t]. Qed.

Lemma post_bind {A B} (m : stm (list T) E A) (k : A -> stm (list T) E B)
      (P : outcome E A -> list T -> Prop) (Q : outcome E B -> list T -> Prop) :
  has_post m P ->
  (forall e ext, P (Raise e) ext -> Q (Raise e) ext) ->
  (forall a ext, P (Ok a) ext -> has_post (k a) (fun o ext' => Q o (ext ++ ext'))) ->
  has_post (sbind m k) Q.
Proof.
  intros Hm Herr Hk tr. unfold sbind.
  destruct (Hm tr) as (ext & Htr & HP).
  destruct (m tr) as [[a|e] tr1]; simpl in *; subst tr1.
  - destruct (Hk a ext HP (tr ++ ext)) as (ext' & Htr' & HQ).
    exists (ext ++ ext'). by rewrite Htr', app_assoc.
  - exists ext. auto.
Qed.
End Post.

Section Budget.
Context {T B E : Type} (f : T -> option B).

Definition spec {A} (n : nat) (G : B -> Prop) (R : A -> Prop) (m : stm (list T) E A) : Prop :=
  has_post m (fun o ext => length (omap f ext) <= n /\ Forall G (omap f ext) /\ ok_post R o).

Lemma spec_weaken {A} n n' (G G' : B -> Prop) (R R' : A -> Prop) m :
  n <= n' -> (forall b, G b -> G' b) -> (forall a, R a -> R' a) ->
  spec n G R m -> spec n' G' R' m.
Proof.
  intros Hn HG HR. apply post_weaken. intros [a|e] ext (Hl & HF & Ho); simpl in *.
  - split; [lia|]. split; [by eapply Forall_impl|]. auto.
  - split; [lia|]. split; [by eapply Forall_impl|]. done.
Qed.

Lemma spec_ret {A} n G (R : A -> Prop) a : R a -> spec n G R (sret a).
Proof. intros HR. apply post_ret. simpl. split; [lia|]. auto. Qed.

(** A lifted pure step appends nothing and records its result. *)
Lemma spec_lift {A} n G (o : outcome E A) : spec n G (fun a => o = Ok a) (slift o).
Proof. apply post_lift. simpl. split; [lia|]. split; [done|]. by destruct o. Qed.

(** An event that is not an item. *)
Lemma spec_silent {A} n G (R : A -> Prop) t o :
  f t = None -> ok_post R o -> spec n G R (fun tr => (o, tr ++ [t])).
Proof. intros Hf Ho. apply post_event. simpl. rewrite Hf. simpl. split; [lia|]. auto. Qed.

(** An event read as one item [b]. *)
Lemma spec_item {A} n G (R : A -> Prop) t o b :
  f t = Some b -> G b -> 1 <= n -> ok_post R o -> spec n G R (fun tr => (o, tr ++ [t])).
Proof.
  intros Hf HG Hn Ho. apply post_event. simpl. rewrite Hf. simpl.
  split; [lia|]. split; [by constructor|]. done.
Qed.

Lemma spec_bind {A C} n1 n2 G (Ra : A -> Prop) (Rc : C -> Prop) m k :
  spec n1 G Ra m -> (forall a, Ra a -> spec n2 G Rc (k a)) ->
  spec (n1 + n2) G Rc (sbind m k).
Proof.
  intros Hm Hk. eapply post_bind; [exact Hm| |].
  - intros e ext (Hl & HF & _). split; [lia|]. done.
  - intros a ext (Hl & HF & Ha). eapply post_weaken; [|apply (Hk a Ha)].
    intros o ext' (Hl' & HF' & Ho). rewrite omap_app, length_app.
    split; [lia|]. split; [by apply Forall_app|]. done.
Qed.

(** The two shapes of sequencing of the handler: a silent step before the
    rest, and a step before a silent rest. *)
Lemma spec_bind0 {A C} n G (Ra : A -> Prop) (Rc : C -> Prop) m k :
  spec 0 G Ra m -> (forall a, Ra a -> spec n G Rc (k a)) -> spec n G Rc (sbind m k).
Proof. apply (spec_bind 0 n). Qed.

Lemma spec_bind_r {A C} n G (Ra : A -> Prop) (Rc : C -> Prop) m k :
  spec n G Ra m -> (forall a, Ra a -> spec 0 G Rc (k a)) -> spec n G Rc (sbind m k).
Proof. intros Hm Hk. rewrite <- (Nat.add_0_r n). by eapply spec_bind. Qed.

(** Reading a [spec] back as a statement about one run. *)
Lemma spec_run {A} n G (R : A -> Prop) (m : stm (list T) E A) tr :
  spec n G R m ->
  exists ext, (m tr).2 = tr ++ ext /\ length (omap f ext) <= n /\
              Forall G (omap f ext) /\ ok_post R (m tr).1.
Proof. intros Hm. destruct (Hm tr) as (ext & ? & ?). eauto. Qed.
End Budget.

Create HintDb spec discriminated.
#[export] Hint Resolve spec_ret spec_lift : spec.
