(* ===== verification/PyInt.v ===== *)
(** * [int(s)] on a [str]: CPython's [PyLong_FromUnicodeObject] with base 10

    The voice report converts the temperatures with [int(...)] (lines 187
    and 188); on a [str] (which the weather service could send) CPython
    runs [PyLong_FromUnicodeObject(s, 10)]:

    - [_PyUnicode_TransformDecimalAndSpaceToASCII]: every non-ASCII white
      space ([Py_UNICODE_ISSPACE]) becomes a space, every other non-ASCII
      character a [?] ([transform]);
    - [PyLong_FromString(buffer, &end, 10)]: white space ([Py_ISSPACE]) is
      skipped, then an optional [+] or [-]; an underscore there is an
      error; then the digits, with single underscores between them (a
      doubled or trailing underscore is an error); at least one digit;
      white space; the end of the text ([long_from_string]).  Any failure
      is [ValueError].

    Strings are UTF-8 byte strings, so a non-ASCII character is a sequence
    of bytes.  Non-ASCII decimal digits (Unicode category Nd, which CPython
    maps to ASCII digits by the Unicode database of its version) are not
    modelled and read as [?]; neither is the limit of 4300 digits that
    CPython 3.11 added ([sys.set_int_max_str_digits]). *)

From stdpp Require Import base strings list.
From Stdlib Require Import ZArith String Ascii DecimalString.
From S2P Require Import Prelude.
Local Open Scope string_scope.

(** The value of an ASCII decimal digit. *)
Definition digit_of (c : ascii) : option Z :=
  let n := nat_of_ascii c in
  if (48 <=? n)%nat && (n <=? 57)%nat then Some (Z.of_nat n - 48)%Z else None.

(** [Py_ISSPACE]: space, [\t], [\n], [\v], [\f], [\r]. *)
Definition py_isspace (c : ascii) : bool :=
  let n := nat_of_ascii c in (n =? 32)%nat || ((9 <=? n) && (n <=? 13))%nat.

(** The number of bytes of a non-ASCII white space at the start of [s]
    (U+0085, U+00A0, U+1680, U+2000 to U+200A, U+2028, U+2029, U+202F,
    U+205F, U+3000 in UTF-8), 0 when there is none. *)
Definition uspace_len (s : string) : nat :=
  match s with
  | String a (String b r) =>
      let a := nat_of_ascii a in
      let b := nat_of_ascii b in
      if (a =? 194)%nat && ((b =? 133) || (b =? 160))%nat then 2
      else match r with
           | String c _ =>
               let c := nat_of_ascii c in
               if (a =? 225)%nat && (b =? 154)%nat && (c =? 128)%nat then 3
               else if (a =? 226)%nat && (b =? 128)%nat &&
                       (((128 <=? c) && (c <=? 138)) || (c =? 168) || (c =? 169) ||
                        (c =? 175))%nat then 3
               else if (a =? 226)%nat && (b =? 129)%nat && (c =? 159)%nat then 3
               else if (a =? 227)%nat && (b =? 128)%nat && (c =? 128)%nat then 3
               else 0
           | EmptyString => 0
           end
  | _ => 0
  end.

(** The continuation bytes [10xxxxxx] of a UTF-8 sequence. *)
Fixpoint skip_cont (s : string) : string :=
  match s with
  | String c r => if (128 <=? nat_of_ascii c)%nat && (nat_of_ascii c <? 192)%nat
                  then skip_cont r else s
  | EmptyString => EmptyString
  end.

Fixpoint drop_bytes (n : nat) (s : string) : string :=
  match n, s with
  | S n', String _ r => drop_bytes n' r
  | _, _ => s
  end.

(** [_PyUnicode_TransformDecimalAndSpaceToASCII], one character at a
    time; the fuel is the length of the text. *)
Fixpoint transform_fuel (fuel : nat) (s : string) : string :=
  match fuel with
  | O => s
  | S f =>
      match s with
      | EmptyString => EmptyString
      | String a r =>
          if (nat_of_ascii a <? 128)%nat then String a (transform_fuel f r)
          else match uspace_len s with
               | O => String "?" (transform_fuel f (skip_cont r))
               | S k => String " " (transform_fuel f (drop_bytes k r))
               end
      end
  end.

Definition transform (s : string) : string := transform_fuel (String.length s) s.

Fixpoint skip_isspace (s : string) : string :=
  match s with
  | String c r => if py_isspace c then skip_isspace r else s
  | EmptyString => EmptyString
  end.

(** The digit loop of [PyLong_FromString] for base 10: digits and single
    underscores between them; the value, the number of digits and the
    rest, or [None] on a doubled or a trailing underscore.  [prev_us]:
    the previous character was an underscore. *)
Fixpoint scan_digits (s : string) (prev_us : bool) (acc : Z) (nd : nat)
  : option (Z * nat * string) :=
  match s with
  | String c r =>
      match digit_of c with
      | Some d => scan_digits r false (acc * 10 + d)%Z (S nd)
      | None =>
          if Ascii.eqb c "_" then (if prev_us then None else scan_digits r true acc nd)
          else if prev_us then None else Some (acc, nd, s)
      end
  | EmptyString => if prev_us then None else Some (acc, nd, s)
  end.

(** The sign: [+], [-] or none. *)
Definition scan_sign (s : string) : Z * string :=
  match s with
  | String c r =>
      if Ascii.eqb c "+" then (1%Z, r)
      else if Ascii.eqb c "-" then ((-1)%Z, r)
      else (1%Z, s)
  | EmptyString => (1%Z, s)
  end.

Definition starts_with_underscore (s : string) : bool :=
  match s with String c _ => Ascii.eqb c "_" | EmptyString => false end.

(** [PyLong_FromString(str, &end, 10)] followed by the check that [end] is
    the end of the text. *)
Definition long_from_string (s : string) : option Z :=
  let '(sg, s2) := scan_sign (skip_isspace s) in
  if starts_with_underscore s2 then None
  else match scan_digits s2 false 0 0 with
       | Some (v, S _, r) =>
           match skip_isspace r with
           | EmptyString => Some (sg * v)%Z
           | String _ _ => None
           end
       | _ => None
       end.

(** [int(s)] for a [str]: [None] is [ValueError]. *)
Definition int_of_str (s : string) : option Z := long_from_string (transform s).
