(* ===== verification/Binary64.v ===== *)
(** * binary64: the double nearest to a rational

    CPython's [float] is an IEEE 754 binary64 number.  [float] of a decimal
    literal, which [json.loads] computes for a number with a fraction or an
    exponent ([PyOS_string_to_double], David Gay's [_Py_dg_strtod]), is the
    double nearest to the decimal's value, a tie going to the even
    mantissa.  A finite double is [m * 2 ^ e] with [|m| < 2 ^ 53] and
    [e >= -1074]; it is normal when [2 ^ 52 <= |m|], and its exponent is
    then the least one that keeps [|m|] below [2 ^ 53].  [b64_round] gives
    that pair, or [None] when the value is beyond the largest double, where
    [float] gives an infinity.  Values below half the least subnormal
    round to zero (CPython's [-0.0] is not distinguished from [0.0]). *)

From stdpp Require Import base tactics.
From Stdlib Require Import ZArith QArith Qpower Lia.
From S2P Require Import Prelude.
Local Open Scope Z_scope.

(** The exponent of the least subnormal, and the greatest exponent of a
    double ([(2^53 - 1) * 2^971] is the largest one). *)
Definition emin : Z := -1074.
Definition emax : Z := 971.

(** [round_half_even(n / d)] for [d > 0]. *)
Definition div_half_even (n d : Z) : Z :=
  let q0 := n / d in
  let r := n mod d in
  if d <? 2 * r then q0 + 1
  else if 2 * r =? d then q0 + q0 mod 2
  else q0.

(** [floor(log2(a / b))] for [a, b > 0]: [log2 a - log2 b] or one less. *)
Definition flog2 (a b : Z) : Z :=
  let k := Z.log2 a - Z.log2 b in
  if 0 <=? k then (if b * 2 ^ k <=? a then k else k - 1)
  else (if b <=? a * 2 ^ (- k) then k else k - 1).

(** [n / (d * 2 ^ e)] rounded half to even, for any sign of [e]. *)
Definition scale_round (n d e : Z) : Z :=
  if 0 <=? e then div_half_even n (d * 2 ^ e) else div_half_even (n * 2 ^ (- e)) d.

(** The double nearest to [a / b], [a, b > 0]: the exponent puts the
    leading bit at position 52 (or is [emin]); a mantissa rounded up to
    [2 ^ 53] moves to the next exponent. *)
Definition round_pos (a b : Z) : option (Z * Z) :=
  let e := Z.max (flog2 a b - 52) emin in
  let m := scale_round a b e in
  let '(m', e') := if m =? 2 ^ 53 then (2 ^ 52, e + 1) else (m, e) in
  if emax <? e' then None else Some (m', e').

Definition b64_round (q : Q) : option (Z * Z) :=
  match Qnum q with
  | Z0 => Some (0, 0)
  | Zpos p => round_pos (Zpos p) (Zpos (Qden q))
  | Zneg p => match round_pos (Zpos p) (Zpos (Qden q)) with
              | Some (m, e) => Some (- m, e)
              | None => None
              end
  end.

(** The value [m * 2 ^ e], in lowest terms. *)
Definition b64_Q (m e : Z) : Q := Qred (inject_Z m * Qpower (inject_Z 2) e).

(** [float(q)] for a decimal [q]: the value of the nearest double.  An
    infinity has no rational value; there [q] is kept. *)
Definition to_double (q : Q) : Q :=
  match b64_round q with
  | Some (m, e) => b64_Q m e
  | None => q
  end.

(** ** Bounds *)

Lemma pow2_pos (n : Z) : 0 <= n -> 0 < 2 ^ n.
Proof. intros Hn. by apply Z.pow_pos_nonneg. Qed.

(** [2 ^ (x + y) = 2 ^ x * 2 ^ y] for non-negative exponents. *)
Lemma pow2_add (x y : Z) : 0 <= x -> 0 <= y -> 2 ^ (x + y) = 2 ^ x * 2 ^ y.
Proof. intros Hx Hy. by apply Z.pow_add_r. Qed.

Lemma flog2_spec (a b : Z) :
  0 < a -> 0 < b ->
  (0 <= flog2 a b -> b * 2 ^ flog2 a b <= a < b * 2 ^ (flog2 a b + 1)) /\
  (flog2 a b < 0 -> b <= a * 2 ^ (- flog2 a b) < 2 * b).
Proof.
  intros Ha Hb. pose proof (Z.log2_spec a Ha) as [Ha1 Ha2].
  pose proof (Z.log2_spec b Hb) as [Hb1 Hb2].
  pose proof (Z.log2_nonneg a). pose proof (Z.log2_nonneg b).
  set (la := Z.log2 a) in *. set (lb := Z.log2 b) in *.
  rewrite Z.pow_succ_r in Ha2, Hb2 by lia.
  unfold flog2. fold la lb.
  destruct (Z.leb_spec 0 (la - lb)) as [Hk|Hk].
  - assert (Hla : 2 ^ la = 2 ^ (la - lb) * 2 ^ lb)
      by (rewrite <- pow2_add by lia; f_equal; lia).
    destruct (Z.leb_spec (b * 2 ^ (la - lb)) a) as [Ht|Ht]; split; intros Hs; try lia.
    + split; [done|]. rewrite Z.add_1_r, Z.pow_succ_r by lia. nia.
    + replace (la - lb - 1 + 1) with (la - lb) by lia. split; [|lia].
      assert (2 ^ (la - lb) = 2 * 2 ^ (la - lb - 1)) as Hp
        by (rewrite <- Z.pow_succ_r by lia; f_equal; lia).
      nia.
    + destruct (Z.eq_dec (la - lb) 0) as [Hz|Hz]; [|lia].
      rewrite Hz in *. cbn in *. lia.
  - destruct (Z.leb_spec b (a * 2 ^ (- (la - lb)))) as [Ht|Ht]; split; intros Hs; try lia.
    + split; [done|].
      assert (2 ^ lb = 2 ^ (- (la - lb)) * 2 ^ la) as Hp
        by (rewrite <- pow2_add by lia; f_equal; lia).
      nia.
    + assert (2 ^ (- (la - lb - 1)) = 2 * 2 ^ (- (la - lb))) as Hp
        by (rewrite <- Z.pow_succ_r by lia; f_equal; lia).
      assert (2 ^ lb = 2 ^ (- (la - lb)) * 2 ^ la) as Hq
        by (rewrite <- pow2_add by lia; f_equal; lia).
      rewrite Hp. split; nia.
Qed.

Lemma div_half_even_bounds (n d X : Z) :
  0 < d -> 0 <= n -> n < d * X -> 0 <= div_half_even n d <= X.
Proof.
  intros Hd Hn Hx. unfold div_half_even.
  pose proof (Z.div_pos n d Hn Hd). assert (n / d < X) by (apply Z.div_lt_upper_bound; lia).
  pose proof (Z.mod_pos_bound (n / d) 2).
  destruct (Z.ltb_spec d (2 * (n mod d))); [lia|].
  destruct (Z.eqb_spec (2 * (n mod d)) d); lia.
Qed.

Lemma scale_round_bounds (a b e : Z) :
  0 <= a -> 0 < b ->
  (0 <= e -> a < b * 2 ^ e * 2 ^ 53) -> (e < 0 -> a * 2 ^ (- e) < b * 2 ^ 53) ->
  0 <= scale_round a b e <= 2 ^ 53.
Proof.
  intros Ha Hb Hp Hn. unfold scale_round. destruct (Z.leb_spec 0 e).
  - apply div_half_even_bounds; [pose proof (pow2_pos e); lia|lia|auto].
  - apply div_half_even_bounds; [lia|pose proof (pow2_pos (- e)); lia|auto].
Qed.

(** The mantissa of a rounded double is below [2 ^ 53], its exponent at
    least [emin]. *)
Lemma round_pos_bounds (a b m e : Z) :
  0 < a -> 0 < b -> round_pos a b = Some (m, e) -> 0 <= m < 2 ^ 53 /\ emin <= e.
Proof.
  intros Ha Hb. unfold round_pos.
  destruct (flog2_spec a b Ha Hb) as [Hpos Hneg].
  set (k := flog2 a b) in *.
  assert (Hs : 0 <= scale_round a b (Z.max (k - 52) emin) <= 2 ^ 53).
  { apply scale_round_bounds; [lia|lia|..]; unfold emin in *.
    - intros He. rewrite <- Z.mul_assoc, <- Z.pow_add_r by lia.
      destruct (Z.leb_spec 0 k); [|lia]. destruct (Hpos ltac:(lia)) as [_ Hk].
      enough (2 ^ (k + 1) <= 2 ^ (Z.max (k - 52) (-1074) + 53)) by nia.
      apply Z.pow_le_mono_r; lia.
    - intros He. destruct (Z.leb_spec 0 k) as [Hk0|Hk0].
      + destruct (Hpos Hk0) as [_ Hk].
        replace (2 ^ 53) with (2 ^ (k + 1) * 2 ^ (- Z.max (k - 52) (-1074)))
          by (rewrite <- Z.pow_add_r by lia; f_equal; lia).
        pose proof (pow2_pos (- Z.max (k - 52) (-1074))). nia.
      + destruct (Hneg Hk0) as [_ Hk]. set (x := Z.max (k - 52) (-1074)) in *.
        assert (2 * b <= b * 2 ^ 53) by (pose proof (Z.pow_le_mono_r 2 1 53); lia).
        destruct (Z.leb_spec (- x) (- k)).
        * assert (2 ^ (- x) <= 2 ^ (- k)) by (apply Z.pow_le_mono_r; lia). nia.
        * replace (2 ^ (- x)) with (2 ^ (- k) * 2 ^ (k - x))
            by (rewrite <- Z.pow_add_r by lia; f_equal; lia).
          assert (2 * 2 ^ (k - x) <= 2 ^ 53).
          { rewrite <- Z.pow_succ_r by lia. apply Z.pow_le_mono_r; lia. }
          pose proof (pow2_pos (k - x)). nia. }
  destruct (Z.eqb_spec (scale_round a b (Z.max (k - 52) emin)) (2 ^ 53)) as [Heq|Hne].
  - destruct (Z.ltb_spec emax (Z.max (k - 52) emin + 1)); [done|].
    intros [= <- <-]. split; [split; [lia|]|unfold emin; lia].
    apply Z.pow_lt_mono_r; lia.
  - destruct (Z.ltb_spec emax (Z.max (k - 52) emin)); [done|].
    intros [= <- <-]. split; [lia|unfold emin; lia].
Qed.

Lemma b64_round_bounds (q : Q) (m e : Z) :
  b64_round q = Some (m, e) -> Z.abs m < 2 ^ 53 /\ (m <> 0 -> emin <= e).
Proof.
  unfold b64_round. destruct (Qnum q) as [|p|p].
  - intros [= <- <-]. split; [reflexivity|done].
  - intros H. destruct (round_pos_bounds (Zpos p) (Zpos (Qden q)) m e ltac:(lia) ltac:(lia) H).
    lia.
  - destruct (round_pos _ _) as [[m' e']|] eqn:H; [|done]. intros [= <- <-].
    destruct (round_pos_bounds (Zpos p) (Zpos (Qden q)) m' e' ltac:(lia) ltac:(lia) H). lia.
Qed.

Lemma b64_Q_val (m e : Z) : (b64_Q m e == inject_Z m * Qpower (inject_Z 2) e)%Q.
Proof. apply Qred_correct. Qed.
