(* ===== verification/PyValue.v ===== *)
(** * Python values and the built-in operations the bot applies to them

    [pyval] is what [json.loads] returns (and what the handler builds as
    dictionary literals): [None], [bool], [int], [float], [str], [list] and
    [dict] with string keys, a dict kept as the list of its items in
    insertion order.  [exc] lists the exceptions that the handler's
    operations can raise.  Each operation returns an [outcome exc _]: the
    exception is the one CPython raises for the same operands. *)

From stdpp Require Import base strings list.
From Stdlib Require Import ZArith QArith String Ascii DecimalString.
From S2P Require Import Prelude PyInt.
Local Open Scope py_scope.
Local Open Scope string_scope.

Inductive pyval : Type :=
| PNone
| PBool (b : bool)
| PInt (z : Z)
| PFloat (q : Q)
| PStr (s : string)
| PList (l : list pyval)
| PDict (items : list (string * pyval)).

Inductive exc : Type :=
| KeyError (k : pyval)
| IndexError
| TypeError
| ValueError
| AttributeError (name : string)
| JSONDecodeError
| ConnectionError
| ClientError
| FileNotFoundError
| UnicodeEncodeError
| OSError
| OverflowError.

(** The parts of the Python library whose exact output the model does not
    re-derive: [repr] of a float (the shortest string that reads back to
    the same double) and [json.loads] ([None] when it raises
    [JSONDecodeError]). *)
Class PyLib := {
  float_repr : Q -> string;
  json_loads : string -> option pyval
}.

Abbreviation res := (outcome exc).

(** ** Membership [x in c], with [x] a [str] *)

Fixpoint dict_get (items : list (string * pyval)) (k : string) : option pyval :=
  match items with
  | [] => None
  | (k', v) :: items' => if String.eqb k' k then Some v else dict_get items' k
  end.

Definition is_str (x : string) (v : pyval) : bool :=
  match v with PStr s => String.eqb s x | _ => false end.

Definition py_in (x : string) (c : pyval) : res bool :=
  match c with
  | PDict items => Ok (existsb (fun kv => String.eqb kv.1 x) items)
  | PList l => Ok (existsb (is_str x) l)
  | PStr s => Ok (str_contains x s)
  | _ => Raise TypeError
  end.

(** ** Subscription [c[k]] with a [str] key and [c[i]] with an [int] *)

Definition py_getitem (c : pyval) (k : string) : res pyval :=
  match c with
  | PDict items =>
      match dict_get items k with
      | Some v => Ok v
      | None => Raise (KeyError (PStr k))
      end
  | _ => Raise TypeError
  end.

(** Python normalises a negative index by adding the length. *)
Definition norm_index (len : nat) (i : Z) : option nat :=
  let j := if (i <? 0)%Z then (i + Z.of_nat len)%Z else i in
  if ((0 <=? j) && (j <? Z.of_nat len))%Z then Some (Z.to_nat j) else None.

Definition py_index (c : pyval) (i : Z) : res pyval :=
  match c with
  | PList l =>
      match norm_index (List.length l) i with
      | Some n => match l !! n with Some v => Ok v | None => Raise IndexError end
      | None => Raise IndexError
      end
  | PStr s =>
      match norm_index (String.length s) i with
      | Some n => match String.get n s with
                  | Some ch => Ok (PStr (String ch EmptyString))
                  | None => Raise IndexError
                  end
      | None => Raise IndexError
      end
  | PDict _ => Raise (KeyError (PInt i))
  | _ => Raise TypeError
  end.

(** ** [str(v)] *)

Definition z_str (z : Z) : string := NilZero.string_of_int (Z.to_int z).

Definition hex_digit (n : nat) : ascii :=
  ascii_of_nat (if Nat.ltb n 10 then 48 + n else 87 + n).

(** [repr] of a [str]: single quotes unless the text has a single quote and
    no double quote; backslash, the quote, tab, newline and carriage return
    escaped, other control bytes as [\xNN].  Bytes of multi-byte UTF-8
    sequences are kept, i.e. non-ASCII characters are taken as printable. *)
Definition escape_char (q : ascii) (ch : ascii) : string :=
  let n := nat_of_ascii ch in
  if Ascii.eqb ch "\" then "\\"
  else if Ascii.eqb ch q then String "\" (String q EmptyString)
  else if Nat.eqb n 9 then "\t"
  else if Nat.eqb n 10 then "\n"
  else if Nat.eqb n 13 then "\r"
  else if Nat.ltb n 32 || Nat.eqb n 127 then
    String "\" (String "x" (String (hex_digit (n / 16))
                              (String (hex_digit (n mod 16)) EmptyString)))
  else String ch EmptyString.

Fixpoint escape_str (q : ascii) (s : string) : string :=
  match s with
  | EmptyString => EmptyString
  | String ch s' => escape_char q ch ++ escape_str q s'
  end.

(** The double quote character (ASCII 34). *)
Definition dquote : ascii := ascii_of_nat 34.

Definition str_repr (s : string) : string :=
  let q : ascii := if str_contains "'" s && negb (str_contains (String dquote EmptyString) s)
                   then dquote else "'"%char in
  String q (escape_str q s ++ String q EmptyString).

Definition join (sep : string) (l : list string) : string :=
  match l with
  | [] => ""
  | x :: xs => foldl (fun acc y => acc ++ sep ++ y) x xs
  end.

Section Repr.
Context `{PyLib}.

Fixpoint py_repr (v : pyval) : string :=
  match v with
  | PNone => "None"
  | PBool true => "True"
  | PBool false => "False"
  | PInt z => z_str z
  | PFloat q => float_repr q
  | PStr s => str_repr s
  | PList l => "[" ++ join ", " (map py_repr l) ++ "]"
  | PDict items =>
      "{" ++ join ", " (map (fun kv => str_repr kv.1 ++ ": " ++ py_repr kv.2) items)
          ++ "}"
  end.

(** [str(v)] is [repr(v)] except on a [str], printed as it is; f-strings
    print their fields with it. *)
Definition py_str (v : pyval) : string :=
  match v with
  | PStr s => s
  | _ => py_repr v
  end.
End Repr.

(** ** [int(v)], numbers and comparison with an [int] literal *)

(** [int] of a [float] truncates toward zero. *)
Definition q_trunc (q : Q) : Z := Z.quot (Qnum q) (Zpos (Qden q)).

(** [int(s)] on a string is [PyInt.int_of_str]; a text it refuses
    raises [ValueError]. *)
Definition py_int (v : pyval) : res Z :=
  match v with
  | PInt z => Ok z
  | PBool b => Ok (if b then 1 else 0)%Z
  | PFloat q => Ok (q_trunc q)
  | PStr s => match int_of_str s with
              | Some z => Ok z
              | None => Raise ValueError
              end
  | _ => Raise TypeError
  end.

(** The value of a number as a rational; other types raise [TypeError] in
    arithmetic. *)
Definition py_num (v : pyval) : res Q :=
  match v with
  | PInt z => Ok (inject_Z z)
  | PBool b => Ok (if b then 1 else 0)%Q
  | PFloat q => Ok q
  | _ => Raise TypeError
  end.

(** [v > n] for an [int] literal [n]. *)
Definition py_gt (v : pyval) (n : Z) : res bool :=
  let? q := py_num v in Ok (negb (Qle_bool q (inject_Z n))).

Definition is_none (v : pyval) : bool :=
  match v with PNone => true | _ => false end.

(** ** Lemmas *)

Lemma dict_get_cons_eq k v items : dict_get ((k, v) :: items) k = Some v.
Proof. simpl. by rewrite String.eqb_refl. Qed.

Lemma dict_get_cons_ne k k' v items :
  k' <> k -> dict_get ((k', v) :: items) k = dict_get items k.
Proof. intros Hne. simpl. by destruct (String.eqb_spec k' k). Qed.

Lemma py_in_dict_spec k items :
  py_in k (PDict items) = Ok (bool_decide (is_Some (dict_get items k))).
Proof.
  unfold py_in. f_equal.
  induction items as [|[k' v] items IH]; [done|]. simpl.
  destruct (String.eqb_spec k' k) as [->|Hne]; [by rewrite bool_decide_true|done].
Qed.

Lemma py_in_str x s : py_in x (PStr s) = Ok (str_contains x s).
Proof. reflexivity. Qed.

Lemma py_getitem_dict k items v :
  dict_get items k = Some v -> py_getitem (PDict items) k = Ok v.
Proof. simpl. by intros ->. Qed.

Lemma py_getitem_missing k items :
  dict_get items k = None -> py_getitem (PDict items) k = Raise (KeyError (PStr k)).
Proof. simpl. by intros ->. Qed.

Lemma py_gt_int (z n : Z) : py_gt (PInt z) n = Ok (n <? z)%Z.
Proof.
  unfold py_gt. simpl. f_equal.
  destruct (Qle_bool _ _) eqn:E; destruct (Z.ltb_spec n z) as [Hlt|Hge]; try done.
  - apply Qle_bool_iff in E. rewrite <- Zle_Qle in E. lia.
  - rewrite Zle_Qle, <- Qle_bool_iff in Hge. congruence.
Qed.

Lemma py_str_str `{PyLib} s : py_str (PStr s) = s.
Proof. reflexivity. Qed.

#[export] Hint Rewrite dict_get_cons_eq py_gt_int @py_str_str : py_rw.
