(* ===== verification/Json.v ===== *)
(** * [json.loads]: the decoder of CPython's [json] module

    The bot decodes JSON three ways: [json.loads(event['body'])] (line 117)
    and [response.json()] (lines 50, 62, 69, 181), which is [json.loads] of
    the response text.  This file models the decoder CPython runs for them,
    the C scanner of [Modules/_json.c] with the default options:

    - [scan_once]: a value starts with a double quote, [{], [[], [null],
      [true], [false] or a number: an optional minus, [0] or digits not
      starting with [0], an optional fraction (a point and digits) and an
      optional exponent ([e] or [E], an optional sign, digits); an [int]
      without fraction and exponent, a [float] otherwise;
    - [scanstring] with [strict=True]: control characters below 0x20 are
      refused, the escapes are a backslash before a double quote, a
      backslash, [/], [b], [f], [n], [r], [t], or [uXXXX]; a high
      surrogate followed by an escaped low surrogate is one code point;
    - objects and arrays with whitespace [ \t\n\r] around their tokens; a
      repeated key keeps its first position and takes the last value
      ([dict(pairs)]);
    - [json.loads]: whitespace, one value, whitespace, end of text.

    Strings are UTF-8 byte strings (as everywhere in the development): a
    code point of an escape becomes its UTF-8 bytes, a lone surrogate its
    three-byte form.  A [float] is the value of the double nearest to the
    literal ([Binary64.to_double]); a literal beyond the largest double,
    which CPython reads as an infinity, keeps its exact value, and [NaN],
    [Infinity] and [-Infinity], which CPython accepts, are outside the
    model and refused.

    The recursion over nested values is bounded by fuel; [jvalue] with
    more fuel than the text has bytes gives its final answer
    ([jvalue_terminates]).
    CPython's recursion limit, which makes very deep nesting raise
    [RecursionError], is not modelled. *)

From stdpp Require Import base strings list.
From Stdlib Require Import Wf_nat ZArith QArith String Ascii.
From S2P Require Import Prelude PyInt Binary64 PyValue.
Local Open Scope string_scope.

(** The result of a scanner: out of fuel, a [JSONDecodeError], or a value
    with the rest of the text. *)
Inductive jres (A : Type) : Type :=
| JFuel
| JErr
| JOk (a : A) (rest : string).
Arguments JFuel {A}.
Arguments JErr {A}.
Arguments JOk {A} a rest.

(** [WHITESPACE = r'[ \t\n\r]*'] *)
Definition is_ws (c : ascii) : bool :=
  Ascii.eqb c " " || Ascii.eqb c "009"%char || Ascii.eqb c "010"%char ||
  Ascii.eqb c "013"%char.

Fixpoint skip_ws (s : string) : string :=
  match s with
  | String c r => if is_ws c then skip_ws r else s
  | EmptyString => EmptyString
  end.

Definition hex_of (c : ascii) : option Z :=
  let n := nat_of_ascii c in
  if (48 <=? n)%nat && (n <=? 57)%nat then Some (Z.of_nat n - 48)%Z
  else if (65 <=? n)%nat && (n <=? 70)%nat then Some (Z.of_nat n - 55)%Z
  else if (97 <=? n)%nat && (n <=? 102)%nat then Some (Z.of_nat n - 87)%Z
  else None.

(** The four hex digits of [\uXXXX], in either case. *)
Definition hex4 (a b c d : ascii) : option Z :=
  match hex_of a, hex_of b, hex_of c, hex_of d with
  | Some w, Some x, Some y, Some z => Some (((w * 16 + x) * 16 + y) * 16 + z)%Z
  | _, _, _, _ => None
  end.

Definition byte (z : Z) : ascii := ascii_of_nat (Z.to_nat z).

(** The UTF-8 bytes of a code point. *)
Definition utf8_encode (cp : Z) : string :=
  if (cp <? 128)%Z then String (byte cp) EmptyString
  else if (cp <? 2048)%Z then
    String (byte (192 + cp / 64)) (String (byte (128 + cp mod 64)) EmptyString)
  else if (cp <? 65536)%Z then
    String (byte (224 + cp / 4096))
      (String (byte (128 + (cp / 64) mod 64)) (String (byte (128 + cp mod 64)) EmptyString))
  else
    String (byte (240 + cp / 262144))
      (String (byte (128 + (cp / 4096) mod 64))
        (String (byte (128 + (cp / 64) mod 64)) (String (byte (128 + cp mod 64)) EmptyString))).

(** The one-character escapes. *)
Definition simple_escape (e : ascii) : option ascii :=
  if Ascii.eqb e dquote then Some dquote
  else if Ascii.eqb e "\" then Some "\"%char
  else if Ascii.eqb e "/" then Some "/"%char
  else if Ascii.eqb e "b" then Some "008"%char
  else if Ascii.eqb e "f" then Some "012"%char
  else if Ascii.eqb e "n" then Some "010"%char
  else if Ascii.eqb e "r" then Some "013"%char
  else if Ascii.eqb e "t" then Some "009"%char
  else None.

Definition prepend (p : string) (o : option (string * string)) : option (string * string) :=
  match o with
  | Some (t, r) => Some (p ++ t, r)
  | None => None
  end.

(** [scanstring(s, end, strict=True)] after the opening quote: the decoded
    text and the rest after the closing quote. *)
Fixpoint jstring (s : string) : option (string * string) :=
  match s with
  | EmptyString => None
  | String c r =>
      if Ascii.eqb c dquote then Some (EmptyString, r)
      else if Ascii.eqb c "\" then
        match r with
        | EmptyString => None
        | String e r1 =>
            if Ascii.eqb e "u" then
              match r1 with
              | String h1 (String h2 (String h3 (String h4 r2))) =>
                  match hex4 h1 h2 h3 h4 with
                  | None => None
                  | Some u =>
                      let single := prepend (utf8_encode u) (jstring r2) in
                      if (55296 <=? u)%Z && (u <=? 56319)%Z then
                        match r2 with
                        | String b (String v (String k1 (String k2 (String k3 (String k4 r3))))) =>
                            if Ascii.eqb b "\" && Ascii.eqb v "u" then
                              match hex4 k1 k2 k3 k4 with
                              | None => None
                              | Some u2 =>
                                  if (56320 <=? u2)%Z && (u2 <=? 57343)%Z then
                                    prepend (utf8_encode (65536 + (u - 55296) * 1024 + (u2 - 56320)))
                                            (jstring r3)
                                  else single
                              end
                            else single
                        | _ => single
                        end
                      else single
                  end
              | _ => None
              end
            else
              match simple_escape e with
              | Some c' => prepend (String c' EmptyString) (jstring r1)
              | None => None
              end
        end
      else if (nat_of_ascii c <? 32)%nat then None
        else prepend (String c EmptyString) (jstring r)
  end.

(** Decimal digits: their value and count, and the rest. *)
Fixpoint digits (s : string) (acc : Z) (n : nat) : Z * nat * string :=
  match s with
  | String c r =>
      match digit_of c with
      | Some d => digits r (acc * 10 + d)%Z (S n)
      | None => (acc, n, s)
      end
  | EmptyString => (acc, n, s)
  end.

(** [(\.[0-9]+)?]: the fraction, when a digit follows the point. *)
Definition frac_part (s : string) : option (Z * nat * string) :=
  match s with
  | String c r =>
      if Ascii.eqb c "." then
        match digits r 0 0 with
        | (f, S k, r') => Some (f, S k, r')
        | _ => None
        end
      else None
  | EmptyString => None
  end.

(** An optional sign: [-] only, or [-] and [+]. *)
Definition opt_minus (s : string) : Z * string :=
  match s with
  | String c r => if Ascii.eqb c "-" then ((-1)%Z, r) else (1%Z, s)
  | EmptyString => (1%Z, s)
  end.

Definition opt_sign (s : string) : Z * string :=
  match s with
  | String c r =>
      if Ascii.eqb c "-" then ((-1)%Z, r)
      else if Ascii.eqb c "+" then (1%Z, r)
      else (1%Z, s)
  | EmptyString => (1%Z, s)
  end.

(** The exponent, when digits follow [e] or [E] and the optional sign. *)
Definition exp_part (s : string) : option (Z * string) :=
  match s with
  | String c r =>
      if Ascii.eqb c "e" || Ascii.eqb c "E" then
        let '(sg, r1) := opt_sign r in
        match digits r1 0 0 with
        | (e, S _, r') => Some ((sg * e)%Z, r')
        | _ => None
        end
      else None
  | EmptyString => None
  end.

(** The integer part: an optional minus, then [0] or digits not starting
    with [0]; its sign, value and rest. *)
Definition int_part (s : string) : option (Z * Z * string) :=
  let '(sg, r) := opt_minus s in
  match r with
  | String c r' =>
      if Ascii.eqb c "0" then Some (sg, 0%Z, r')
      else match digit_of c with
           | Some _ => let '(m, _, r'') := digits r 0 0 in Some (sg, m, r'')
           | None => None
           end
  | EmptyString => None
  end.

(** The rational [m * 10 ^ e]. *)
Definition dec_Q (m e : Z) : Q :=
  if (0 <=? e)%Z then Qmake (m * 10 ^ e) 1 else Qmake m (Z.to_pos (10 ^ (- e))).

(** [_match_number]: an [int] without fraction and exponent; otherwise
    [float] of the literal, the double nearest to [sign * (m.f) * 10^e]. *)
Definition jnumber (s : string) : option (pyval * string) :=
  match int_part s with
  | None => None
  | Some (sg, m, r) =>
      let '(f, k, r1) := match frac_part r with
                         | Some (f, k, r') => (f, k, r')
                         | None => (0%Z, 0%nat, r)
                         end in
      let '(e, r2, has_exp) := match exp_part r1 with
                               | Some (e, r') => (e, r', true)
                               | None => (0%Z, r1, false)
                               end in
      match k, has_exp with
      | O, false => Some (PInt (sg * m)%Z, r2)
      | _, _ =>
          let mant := (sg * (m * 10 ^ Z.of_nat k + f))%Z in
          let ex := (e - Z.of_nat k)%Z in
          Some (PFloat (to_double (dec_Q mant ex)), r2)
      end
  end.

(** The rest of [s] after the prefix [p]. *)
Fixpoint strip_prefix (p s : string) : option string :=
  match p, s with
  | EmptyString, _ => Some s
  | String a p', String b s' => if Ascii.eqb a b then strip_prefix p' s' else None
  | String _ _, EmptyString => None
  end.

(** [null], [true], [false]. *)
Definition jliteral (s : string) : option (pyval * string) :=
  match strip_prefix "null" s with
  | Some r => Some (PNone, r)
  | None =>
      match strip_prefix "true" s with
      | Some r => Some (PBool true, r)
      | None =>
          match strip_prefix "false" s with
          | Some r => Some (PBool false, r)
          | None => None
          end
      end
  end.

(** [dict(pairs)]: a repeated key keeps its position, the last value wins. *)
Fixpoint dict_set (items : list (string * pyval)) (k : string) (v : pyval)
  : list (string * pyval) :=
  match items with
  | [] => [(k, v)]
  | (k', v') :: items' =>
      if String.eqb k' k then (k', v) :: items' else (k', v') :: dict_set items' k v
  end.

(** Continue with the value and the rest of a successful scan. *)
Definition jbind (o : jres pyval) (k : pyval -> string -> jres pyval) : jres pyval :=
  match o with
  | JOk v r => k v r
  | JErr => JErr
  | JFuel => JFuel
  end.

(** [scan_once] and the object and array scanners; [jmembers] starts after
    the opening quote of a key, [jarray_tail] after an element of an array
    (a comma and the next element, or the closing bracket). *)
Fixpoint jvalue (fuel : nat) (s : string) {struct fuel} : jres pyval :=
  match fuel with
  | O => JFuel
  | S n =>
      match s with
      | EmptyString => JErr
      | String c r =>
          if Ascii.eqb c dquote then
            match jstring r with
            | Some (t, r') => JOk (PStr t) r'
            | None => JErr
            end
          else if Ascii.eqb c "{" then
            match skip_ws r with
            | String c' r' =>
                if Ascii.eqb c' "}" then JOk (PDict []) r'
                else if Ascii.eqb c' dquote then jmembers n [] r'
                else JErr
            | EmptyString => JErr
            end
          else if Ascii.eqb c "[" then
            match skip_ws r with
            | String c' r' =>
                if Ascii.eqb c' "]" then JOk (PList []) r'
                else jbind (jvalue n (String c' r')) (fun v r1 => jarray_tail n [v] r1)
            | EmptyString => JErr
            end
          else
            match jliteral s with
            | Some (v, r') => JOk v r'
            | None =>
                match jnumber s with
                | Some (v, r') => JOk v r'
                | None => JErr
                end
            end
      end
  end
with jmembers (fuel : nat) (acc : list (string * pyval)) (s : string) {struct fuel}
  : jres pyval :=
  match fuel with
  | O => JFuel
  | S n =>
      match jstring s with
      | None => JErr
      | Some (key, r1) =>
          match skip_ws r1 with
          | String c r2 =>
              if Ascii.eqb c ":" then
                jbind (jvalue n (skip_ws r2)) (fun v r3 =>
                  let acc' := dict_set acc key v in
                  match skip_ws r3 with
                  | String c3 r4 =>
                      if Ascii.eqb c3 "}" then JOk (PDict acc') r4
                      else if Ascii.eqb c3 "," then
                        match skip_ws r4 with
                        | String c5 r5 =>
                            if Ascii.eqb c5 dquote then jmembers n acc' r5 else JErr
                        | EmptyString => JErr
                        end
                      else JErr
                  | EmptyString => JErr
                  end)
              else JErr
          | EmptyString => JErr
          end
      end
  end
with jarray_tail (fuel : nat) (acc : list pyval) (s : string) {struct fuel} : jres pyval :=
  match fuel with
  | O => JFuel
  | S n =>
      match skip_ws s with
      | String c r =>
          if Ascii.eqb c "]" then JOk (PList acc) r
          else if Ascii.eqb c "," then
            jbind (jvalue n (skip_ws r)) (fun v r1 => jarray_tail n (acc ++ [v]) r1)
          else JErr
      | EmptyString => JErr
      end
  end.

(** [json.loads(s)]: [None] when it raises [JSONDecodeError]. *)
Definition json_decode (s : string) : option pyval :=
  let s0 := skip_ws s in
  match jvalue (S (String.length s0)) s0 with
  | JOk v r => match skip_ws r with
               | EmptyString => Some v
               | _ => None
               end
  | _ => None
  end.

(** ** Every scanner consumes input *)

Local Open Scope nat_scope.

Lemma skip_ws_le (s : string) : String.length (skip_ws s) <= String.length s.
Proof. induction s as [|c s IH]; simpl; [done|]. destruct (is_ws c); simpl; lia. Qed.

Lemma prepend_some (p : string) (o : option (string * string)) (t r : string) :
  prepend p o = Some (t, r) -> exists t', o = Some (t', r).
Proof. destruct o as [[t' r']|]; simpl; [intros [= _ <-]; eauto|done]. Qed.

Lemma jstring_lt (s t r : string) :
  jstring s = Some (t, r) -> String.length r < String.length s.
Proof.
  revert t r.
  induction s as [s IH] using (well_founded_ind (well_founded_ltof _ String.length)).
  unfold ltof in IH.
  intros t r H. destruct s as [|c s1]; [done|]. simpl in H.
  repeat case_match; simplify_eq;
  repeat match goal with H : prepend _ _ = Some _ |- _ => apply prepend_some in H as [? H] end;
  try match goal with H : jstring ?y = Some _ |- _ => apply IH in H; simpl in *; lia end;
  simpl; lia.
Qed.

Lemma digits_le (s : string) (a : Z) (n : nat) :
  String.length (digits s a n).2 <= String.length s.
Proof.
  revert a n. induction s as [|c s IH]; intros a n; simpl; [done|].
  destruct (digit_of c); simpl; [specialize (IH (a * 10 + z)%Z (S n)); lia|lia].
Qed.

Lemma opt_minus_le (s : string) : String.length (opt_minus s).2 <= String.length s.
Proof. destruct s as [|c r]; simpl; [lia|]. destruct (Ascii.eqb c "-"); simpl; lia. Qed.

Lemma opt_sign_le (s : string) : String.length (opt_sign s).2 <= String.length s.
Proof.
  destruct s as [|c r]; simpl; [lia|].
  destruct (Ascii.eqb c "-"); [simpl; lia|]. destruct (Ascii.eqb c "+"); simpl; lia.
Qed.

Lemma frac_part_lt (s : string) (f : Z) (k : nat) (r : string) :
  frac_part s = Some (f, k, r) -> String.length r < String.length s.
Proof.
  destruct s as [|c s']; [done|]. simpl. destruct (Ascii.eqb c "."); [|done].
  pose proof (digits_le s' 0 0). destruct (digits s' 0 0) as [[f' [|k']] r']; [done|].
  intros [= <- <- <-]. simpl in *. lia.
Qed.

Lemma exp_part_lt (s : string) (e : Z) (r : string) :
  exp_part s = Some (e, r) -> String.length r < String.length s.
Proof.
  destruct s as [|c s']; [done|]. simpl. destruct (_ || _); [|done].
  pose proof (opt_sign_le s'). destruct (opt_sign s') as [sg r1].
  pose proof (digits_le r1 0 0). destruct (digits r1 0 0) as [[e' [|k']] r']; [done|].
  intros [= <- <-]. simpl in *. lia.
Qed.

Lemma int_part_lt (s : string) (sg m : Z) (r : string) :
  int_part s = Some (sg, m, r) -> String.length r < String.length s.
Proof.
  unfold int_part. pose proof (opt_minus_le s). destruct (opt_minus s) as [sg' r0].
  simpl in *. destruct r0 as [|c r']; [done|].
  destruct (Ascii.eqb c "0"); [intros [= <- <- <-]; simpl in *; lia|].
  destruct (digit_of c) as [d|] eqn:Hd; [|done]. cbn [digits]. rewrite Hd.
  pose proof (digits_le r' (0 * 10 + d)%Z 1).
  destruct (digits r' _ 1) as [[m' k'] r'']. intros [= <- <- <-]. simpl in *. lia.
Qed.

Lemma jnumber_lt (s : string) (v : pyval) (r : string) :
  jnumber s = Some (v, r) -> String.length r < String.length s.
Proof.
  unfold jnumber. destruct (int_part s) as [[[sg m] r0]|] eqn:Hi; [|done].
  apply int_part_lt in Hi.
  destruct (frac_part r0) as [[[f k] r1]|] eqn:Hf;
    [apply frac_part_lt in Hf|]; cbv iota beta;
  [destruct (exp_part r1) as [[e r2]|] eqn:He; [apply exp_part_lt in He|]
  |destruct (exp_part r0) as [[e r2]|] eqn:He; [apply exp_part_lt in He|]];
  cbv iota beta; repeat case_match; intros [= _ <-]; lia.
Qed.

Lemma strip_prefix_length (p s r : string) :
  strip_prefix p s = Some r -> String.length s = String.length p + String.length r.
Proof.
  revert s. induction p as [|a p IH]; intros s; simpl; [by intros [= ->]|].
  destruct s as [|b s]; [done|]. destruct (Ascii.eqb a b); [|done].
  intros H. simpl. rewrite (IH s H). lia.
Qed.

Lemma jliteral_lt (s : string) (v : pyval) (r : string) :
  jliteral s = Some (v, r) -> String.length r < String.length s.
Proof.
  unfold jliteral.
  destruct (strip_prefix "null" s) as [r1|] eqn:E1;
    [apply strip_prefix_length in E1; simpl in E1; intros [= _ <-]; lia|].
  destruct (strip_prefix "true" s) as [r1|] eqn:E2;
    [apply strip_prefix_length in E2; simpl in E2; intros [= _ <-]; lia|].
  destruct (strip_prefix "false" s) as [r1|] eqn:E3;
    [apply strip_prefix_length in E3; simpl in E3; intros [= _ <-]; lia|done].
Qed.

(** ** Enough fuel: one unit per byte *)

(** A scan of [s] that gives an answer, with a rest shorter than [s]. *)
Definition consumes (s : string) (o : jres pyval) : Prop :=
  o <> JFuel /\ forall v r, o = JOk v r -> String.length r < String.length s.

Lemma consumes_err (s : string) : consumes s JErr.
Proof. split; [done|]. by intros ? ? ?. Qed.

Lemma consumes_ok (s r : string) (v : pyval) :
  String.length r < String.length s -> consumes s (JOk v r).
Proof. intros Hr. split; [done|]. by intros ? ? [= _ <-]. Qed.

Lemma consumes_weaken (s s' : string) (o : jres pyval) :
  consumes s' o -> String.length s' <= String.length s -> consumes s o.
Proof. intros [Hf Hl] Hs. split; [done|]. intros v r Ho. specialize (Hl v r Ho). lia. Qed.

(** A scan of [s] continued, on success, by one of its rest. *)
Lemma consumes_bind (s : string) (o : jres pyval) (k : pyval -> string -> jres pyval) :
  consumes s o -> (forall v r, String.length r < String.length s -> consumes s (k v r)) ->
  consumes s (jbind o k).
Proof.
  intros [Hf Hl] Hk. destruct o as [| |v r]; [done|apply consumes_err|]. apply Hk. by apply (Hl v r).
Qed.

Definition fuel_ok (n : nat) : Prop :=
  (forall s, String.length s < n -> consumes s (jvalue n s)) /\
  (forall acc s, String.length s < n -> consumes s (jmembers n acc s)) /\
  (forall acc s, String.length s < n -> consumes s (jarray_tail n acc s)).

#[local] Hint Resolve consumes_err consumes_ok : core.

Lemma jvalue_step (n : nat) (s : string) :
  fuel_ok n -> String.length s < S n -> consumes s (jvalue (S n) s).
Proof.
  intros (IHv & IHm & IHa) Hs. destruct s as [|c r]; [done|]. cbn [jvalue]. simpl in Hs.
  destruct (Ascii.eqb c dquote).
  { destruct (jstring r) as [[t r']|] eqn:Hj; [|done].
    apply jstring_lt in Hj. apply consumes_ok. simpl. lia. }
  destruct (Ascii.eqb c "{").
  { pose proof (skip_ws_le r). destruct (skip_ws r) as [|c' r']; [done|]. simpl in *.
    destruct (Ascii.eqb c' "}"); [apply consumes_ok; simpl; lia|].
    destruct (Ascii.eqb c' dquote); [|done].
    eapply consumes_weaken; [apply IHm; lia|simpl; lia]. }
  destruct (Ascii.eqb c "[").
  { pose proof (skip_ws_le r). destruct (skip_ws r) as [|c' r']; [done|]. simpl in *.
    destruct (Ascii.eqb c' "]"); [apply consumes_ok; simpl; lia|].
    apply consumes_bind; [eapply consumes_weaken; [apply IHv|]; simpl; lia|].
    intros v r1 Hr1. eapply consumes_weaken; [apply IHa; simpl in *; lia|lia]. }
  destruct (jliteral (String c r)) as [[v r']|] eqn:Hl; [by apply jliteral_lt in Hl; auto|].
  destruct (jnumber (String c r)) as [[v r']|] eqn:Hn; [by apply jnumber_lt in Hn; auto|done].
Qed.

Lemma jmembers_step (n : nat) (acc : list (string * pyval)) (s : string) :
  fuel_ok n -> String.length s < S n -> consumes s (jmembers (S n) acc s).
Proof.
  intros (IHv & IHm & IHa) Hs. cbn [jmembers].
  destruct (jstring s) as [[key r1]|] eqn:Hj; [|done]. apply jstring_lt in Hj.
  pose proof (skip_ws_le r1). destruct (skip_ws r1) as [|c r2]; [done|]. simpl in *.
  destruct (Ascii.eqb c ":"); [|done]. pose proof (skip_ws_le r2).
  apply consumes_bind; [eapply consumes_weaken; [apply IHv|]; lia|].
  intros v r3 Hr3. cbv zeta.
  pose proof (skip_ws_le r3). destruct (skip_ws r3) as [|c3 r4]; [done|]. simpl in *.
  destruct (Ascii.eqb c3 "}"); [apply consumes_ok; lia|].
  destruct (Ascii.eqb c3 ","); [|done].
  pose proof (skip_ws_le r4). destruct (skip_ws r4) as [|c5 r5]; [done|]. simpl in *.
  destruct (Ascii.eqb c5 dquote); [|done].
  eapply consumes_weaken; [apply IHm; lia|lia].
Qed.

Lemma jarray_tail_step (n : nat) (acc : list pyval) (s : string) :
  fuel_ok n -> String.length s < S n -> consumes s (jarray_tail (S n) acc s).
Proof.
  intros (IHv & IHm & IHa) Hs. cbn [jarray_tail].
  pose proof (skip_ws_le s). destruct (skip_ws s) as [|c r]; [done|]. simpl in *.
  destruct (Ascii.eqb c "]"); [apply consumes_ok; lia|].
  destruct (Ascii.eqb c ","); [|done]. pose proof (skip_ws_le r).
  apply consumes_bind; [eapply consumes_weaken; [apply IHv|]; lia|].
  intros v r1 Hr1. eapply consumes_weaken; [apply IHa; lia|lia].
Qed.

Lemma fuel_ok_all (n : nat) : fuel_ok n.
Proof.
  induction n as [|n IH]; [split_and!; intros; lia|].
  split_and!; intros; [by apply jvalue_step|by apply jmembers_step|by apply jarray_tail_step].
Qed.

(** ** More fuel does not change an answer *)

(** [lessdef o o']: [o'] is [o], or [o] ran out of fuel. *)
Inductive lessdef : jres pyval -> jres pyval -> Prop :=
| lessdef_fuel o : lessdef JFuel o
| lessdef_refl o : lessdef o o.

Lemma jbind_mono (o o' : jres pyval) (k k' : pyval -> string -> jres pyval) :
  lessdef o o' -> (forall v r, lessdef (k v r) (k' v r)) -> lessdef (jbind o k) (jbind o' k').
Proof. intros Ho Hk. destruct Ho as [o|[| |v r]]; simpl; by constructor || apply Hk. Qed.

Lemma jscan_mono (n m : nat) :
  n <= m ->
  (forall s, lessdef (jvalue n s) (jvalue m s)) /\
  (forall acc s, lessdef (jmembers n acc s) (jmembers m acc s)) /\
  (forall acc s, lessdef (jarray_tail n acc s) (jarray_tail m acc s)).
Proof.
  revert m. induction n as [|n IH]; intros m Hm; [split_and!; intros; constructor|].
  destruct m as [|m]; [lia|]. destruct (IH m ltac:(lia)) as (IHv & IHm & IHa).
  split_and!; intros; [destruct s as [|c r]|..]; cbn [jvalue jmembers jarray_tail]; cbv zeta;
    repeat first [ apply lessdef_refl
                 | apply jbind_mono; [first [apply IHv | apply IHm | apply IHa] | intros ? ?]
                 | apply IHm | apply IHa | case_match ].
Qed.

Lemma lessdef_answer (o o' : jres pyval) : lessdef o o' -> o <> JFuel -> o' = o.
Proof. by destruct 1. Qed.

(** ** A number alone *)

(** A text starting with [-] or a digit is scanned as a number. *)
Lemma number_start_dispatch (fuel : nat) (c : ascii) (r : string) :
  digit_of c <> None \/ c = "-"%char ->
  skip_ws (String c r) = String c r /\
  jvalue (S fuel) (String c r) =
    match jnumber (String c r) with Some (v, r') => JOk v r' | None => JErr end.
Proof.
  intros Hc. destruct c as [[] [] [] [] [] [] [] []];
    destruct Hc as [Hc|Hc]; try (exfalso; apply Hc; reflexivity); try discriminate Hc;
    split; reflexivity.
Qed.

Lemma int_part_start (s : string) (sg m : Z) (r : string) :
  int_part s = Some (sg, m, r) ->
  exists c s', s = String c s' /\ (digit_of c <> None \/ c = "-"%char).
Proof.
  unfold int_part, opt_minus. intros H. destruct s as [|c s']; [discriminate|].
  exists c, s'. split; [done|].
  destruct (Ascii.eqb_spec c "-") as [->|_]; [by right|left].
  destruct (Ascii.eqb_spec c "0") as [->|_]; [discriminate|].
  by destruct (digit_of c).
Qed.

(** [json.loads] of a number literal alone is that number. *)
Lemma json_decode_number (s : string) (v : pyval) :
  jnumber s = Some (v, EmptyString) -> json_decode s = Some v.
Proof.
  intros H. destruct (int_part s) as [[[sg m] r]|] eqn:Hi;
    [|unfold jnumber in H; rewrite Hi in H; discriminate].
  apply int_part_start in Hi as (c & s' & -> & Hc).
  destruct (number_start_dispatch (String.length (String c s')) c s' Hc) as [Hw Hj].
  unfold json_decode. rewrite Hw, Hj, H. reflexivity.
Qed.

(** ** Termination *)

(** Termination of [json.loads]: on every text, the scanner given
    more fuel than the text has bytes gives an answer (a value with the
    rest, or a [JSONDecodeError]) and never runs out of fuel, and any more
    fuel gives the same answer; [json_decode] runs it with exactly that
    fuel, so its answer is the decoder's for every input. *)
Theorem jvalue_terminates (s : string) (fuel : nat) :
  String.length s < fuel ->
  jvalue fuel s <> JFuel /\ jvalue fuel s = jvalue (S (String.length s)) s.
Proof.
  intros Hf. destruct (fuel_ok_all fuel) as [Hv _].
  destruct (fuel_ok_all (S (String.length s))) as [Hv' _].
  split; [apply (Hv s Hf)|].
  destruct (jscan_mono (S (String.length s)) fuel ltac:(lia)) as [Hm _].
  apply lessdef_answer; [apply Hm|apply (Hv' s); lia].
Qed.

