(* ===== verification/FloatRepr.v ===== *)
(** * [repr] of a [float], and the CPython instance of [PyLib]

    The report f-strings print the numbers of the weather data with
    [str], i.e. [repr] for a [float] (lines 157, 189 and 226).  CPython's
    [float_repr] is [PyOS_double_to_string(x, 'r', 0, Py_DTSF_ADD_DOT_0)]:
    [_Py_dg_dtoa] in mode 0 gives the shortest digit string that reads
    back to the same double, and [format_float_short] lays it out:
    positionally when the exponent of the leading digit lies in [-4, 15]
    (with [.0] added to a whole number), otherwise as [d.ddde+XX] with at
    least two exponent digits.

    [float_repr_q q] is [repr] of the double nearest to [q] ([Binary64]):
    the decoder stores that double for a JSON number, so [q] is already
    one.  [dtoa_digit] is one digit position of the digit loop of
    [_Py_dg_dtoa] for a double [v] with the low and high margins [mlo],
    [mhi] of its rounding interval (half the gap to each neighbour), the
    decisions taken in the code's order; [dtoa_loop] runs it from the
    leading digit down, at most 18 positions, which always suffice
    ([shortest_some]).  An infinity prints as [inf]; [-0.0] and NaN have no
    rational value and are outside the model.

    [cpython] is the instance of [PyLib] with this [repr] and the decoder
    of [Json]. *)

From stdpp Require Import base strings list.
From Stdlib Require Import ZArith QArith Qpower Qround Lqa String Ascii.
From S2P Require Import Prelude Binary64 PyValue Json.
Local Open Scope string_scope.
Local Open Scope Z_scope.

(** ** Decimal digits *)

(** The decimal digits of [n], most significant first, with fuel. *)
Fixpoint dec_list_fuel (fuel : nat) (n : Z) (acc : list Z) : list Z :=
  match fuel with
  | O => acc
  | S f => if n <? 10 then n :: acc else dec_list_fuel f (n / 10) (n mod 10 :: acc)
  end.

(** A positive integer has fewer decimal digits than bits. *)
Definition dec_list (n : Z) : list Z := dec_list_fuel (Z.to_nat (Z.log2 n + 1)) n [].

Definition digit_char (d : Z) : ascii := ascii_of_nat (Z.to_nat (48 + d)).

Fixpoint digit_str (l : list Z) : string :=
  match l with
  | [] => EmptyString
  | d :: l' => String (digit_char d) (digit_str l')
  end.

Definition zeros (k : nat) : string := digit_str (repeat 0 k).

(** Remove the trailing zeros of [m * 10 ^ e]. *)
Fixpoint strip_zeros (fuel : nat) (m e : Z) : Z * Z :=
  match fuel with
  | O => (m, e)
  | S f => if (m mod 10 =? 0) && negb (m =? 0) then strip_zeros f (m / 10) (e + 1) else (m, e)
  end.

(** ** The shortest digits: [_Py_dg_dtoa] in mode 0 *)

Definition qpow10 (p : Z) : Q := Qpower (inject_Z 10) p.

(** The number of decimal digits of [n >= 1]: the least [d] with
    [n < 10 ^ d], [pw] being [10 ^ d]. *)
Fixpoint ndig_aux (fuel : nat) (n pw d : Z) : Z :=
  match fuel with
  | O => d
  | S f => if n <? pw then d else ndig_aux f n (pw * 10) (d + 1)
  end.

(** A positive integer has fewer decimal digits than bits. *)
Definition ndig (n : Z) : Z := ndig_aux (Z.to_nat (Z.log2 n + 1)) n 10 1.

(** The exponent [k] of the leading digit of [v > 0] ([k_check] of
    [_Py_dg_dtoa]): [v] lies above [10 ^ (k0 - 1)] and below
    [10 ^ (k0 + 1)] for [k0] the difference of the digit counts of its
    numerator and denominator, so [k] is [k0] or [k0 - 1]. *)
Definition flog10 (v : Q) : Z :=
  let k0 := ndig (Qnum v) - ndig (Zpos (Qden v)) in
  if Qle_bool (qpow10 k0) v then k0 else k0 - 1.

Definition is_lt (c : comparison) : bool := match c with Lt => true | _ => false end.
Definition is_eq (c : comparison) : bool := match c with Eq => true | _ => false end.
Definition is_gt (c : comparison) : bool := match c with Gt => true | _ => false end.

(** The digit at position [p] ([10 ^ p]) of the loop of [_Py_dg_dtoa]:
    [t] units of [10 ^ p] lie below [v] ([dig] is [t mod 10]), [r] is the
    remainder; [j] compares [r] with [mlo] (is [t] inside the interval
    from below), [j1] compares [r] with [u - mhi] (is [t + 1] inside it
    from above), and [even] is the parity of the mantissa, which decides
    whether the ends of the interval round back.  [Some n]: the digits end
    here with [n] units; [None]: the next position follows. *)
Definition dtoa_digit (v mlo mhi : Q) (even : bool) (p : Z) : option Z :=
  let u := qpow10 p in
  let t := Qfloor (v / u) in
  let r := (v - inject_Z t * u)%Q in
  let j := Qcompare r mlo in
  let j1 := if Qle_bool 0 (u - mhi) then Qcompare r (u - mhi) else Gt in
  if is_eq j1 && even then
    (* [dig == '9'] goes to [round_9_up]; [if (j > 0) dig++] *)
    Some (if (t mod 10 =? 9) || is_gt j then t + 1 else t)
  else if is_lt j || (is_eq j && even) then
    if Qeq_bool r 0 then Some t
    else if is_gt j1 then
      (* the nearer of [t] and [t + 1]; a tie goes to the even digit *)
      match Qcompare (2 * r) u with
      | Gt => Some (t + 1)
      | Eq => Some (if Z.odd t then t + 1 else t)
      | Lt => Some t
      end
    else Some t
  else if is_gt j1 then Some (t + 1)
  else None.

(** The digit loop from position [p] down, at most [fuel] positions: the
    digits as a number [n] and the position of the last one. *)
Fixpoint dtoa_loop (fuel : nat) (v mlo mhi : Q) (even : bool) (p : Z) : option (Z * Z) :=
  match fuel with
  | O => None
  | S f => match dtoa_digit v mlo mhi even p with
           | Some n => Some (n, p)
           | None => dtoa_loop f v mlo mhi even (p - 1)
           end
  end.

(** The shortest digits of the double [m * 2 ^ e], [m > 0]: the margins
    are half the gap to each neighbour; at a power of two (other than the
    least normal) the gap below is half the gap above. *)
Definition shortest (m e : Z) : option (Z * Z) :=
  let v := b64_Q m e in
  let mhi := b64_Q 1 (e - 1) in
  let mlo := if (m =? 2 ^ 52) && (emin <? e) then b64_Q 1 (e - 2) else mhi in
  dtoa_loop 18 v mlo mhi (Z.even m) (flog10 v).

(** ** The layout of [format_float_short] *)

Definition sign_str (m : Z) : string := if m <? 0 then "-" else "".

(** The exponent: its sign always, and at least two digits. *)
Definition exp_str (x : Z) : string :=
  let ex := dec_list (Z.abs x) in
  "e" ++ (if x <? 0 then "-" else "+") ++
    (if (List.length ex =? 1)%nat then "0" else "") ++ digit_str ex.

(** [m * 10 ^ e], [m] without trailing zeros, as [repr] writes it. *)
Definition repr_layout (m e : Z) : string :=
  let sign := sign_str m in
  let ds := dec_list (Z.abs m) in
  let n := Z.of_nat (List.length ds) in
  let x := n - 1 + e in
  if m =? 0 then "0.0"
  else if (-4 <=? x) && (x <=? 15) then
    if 0 <=? e then sign ++ digit_str ds ++ zeros (Z.to_nat e) ++ ".0"
    else if - e <? n then
      sign ++ digit_str (take (Z.to_nat (n + e)) ds) ++ "." ++
        digit_str (drop (Z.to_nat (n + e)) ds)
    else sign ++ "0." ++ zeros (Z.to_nat (- e - n)) ++ digit_str ds
  else
    let mant := match ds with
                | d :: [] => digit_str [d]
                | d :: rest => digit_str [d] ++ "." ++ digit_str rest
                | [] => ""
                end in
    sign ++ mant ++ exp_str x.

(** [repr(x)] for the double nearest to [q]. *)
Definition float_repr_q (q : Q) : string :=
  match b64_round q with
  | None => if Qle_bool 0 q then "inf" else "-inf"
  | Some (m, e) =>
      if m =? 0 then "0.0" else
      match shortest (Z.abs m) e with
      | Some (n, p) => let '(n', p') := strip_zeros 20 n p in repr_layout (Z.sgn m * n') p'
      | None => EmptyString   (* never: [shortest_some] *)
      end
  end.

(** The library functions of CPython the bot calls, as modelled. *)
Definition cpython : PyLib := {| float_repr := float_repr_q; json_loads := json_decode |}.

(** ** The digit loop ends within 18 positions *)

Lemma ndig_aux_spec (f : nat) (n pw d : Z) :
  1 <= d -> pw = 10 ^ d -> 10 ^ (d - 1) <= n ->
  10 ^ (ndig_aux f n pw d - 1) <= n /\ (n < pw * 10 ^ Z.of_nat f -> n < 10 ^ ndig_aux f n pw d).
Proof.
  revert pw d. induction f as [|f IH]; intros pw d Hd Hpw Hn; simpl.
  - split; [done|]. subst. lia.
  - destruct (Z.ltb_spec n pw) as [Hlt|Hge]; [subst; split; lia|].
    destruct (IH (pw * 10) (d + 1)) as [IH1 IH2];
      [lia|subst; rewrite Z.pow_add_r by lia; lia|replace (d + 1 - 1) with d by lia; lia|].
    split; [done|]. intros H. apply IH2. rewrite Nat2Z.inj_succ, Z.pow_succ_r in H by lia. lia.
Qed.

Lemma ndig_spec (n : Z) : 0 < n -> 10 ^ (ndig n - 1) <= n < 10 ^ ndig n.
Proof.
  intros Hn. unfold ndig. pose proof (Z.log2_nonneg n).
  destruct (ndig_aux_spec (Z.to_nat (Z.log2 n + 1)) n 10 1) as [H1 H2]; [lia|done|cbn; lia|].
  split; [done|]. apply H2. rewrite Z2Nat.id by lia.
  pose proof (Z.log2_spec n Hn) as [_ Hl].
  assert (2 ^ Z.succ (Z.log2 n) <= 10 ^ (Z.log2 n + 1)) by (apply Z.pow_le_mono_l; lia).
  unfold Z.succ in *. lia.
Qed.

Lemma ndig_pos (n : Z) : 0 < n -> 1 <= ndig n.
Proof.
  intros Hn. pose proof (ndig_spec n Hn) as [_ H].
  destruct (Z.leb_spec 1 (ndig n)) as [|Hl]; [done|].
  destruct (Z.eq_dec (ndig n) 0) as [E|E]; [rewrite E in H; cbn in H; lia|].
  rewrite Z.pow_neg_r in H by lia. lia.
Qed.

Lemma qpow10_pos (p : Z) : (0 < qpow10 p)%Q.
Proof. apply Qpower_0_lt. reflexivity. Qed.

Lemma qpow10_nat (d : Z) : 0 <= d -> (qpow10 d == inject_Z (10 ^ d))%Q.
Proof. intros Hd. unfold qpow10. by rewrite Zpower_Qpower. Qed.

(** [10 ^ (da - 1 - db) <= a / b] when [a] has [da] digits, [b] has [db]. *)
Lemma qpow10_digits (a : Z) (b : positive) (da db : Z) :
  1 <= da -> 1 <= db -> 10 ^ (da - 1) <= a -> Zpos b < 10 ^ db ->
  (qpow10 (da - db - 1) <= Qmake a b)%Q.
Proof.
  intros Hda Hdb Ha Hb. unfold qpow10.
  replace (da - db - 1) with ((da - 1) - db) by lia.
  rewrite Qpower_minus by discriminate. fold (qpow10 (da - 1)) (qpow10 db).
  rewrite !qpow10_nat by lia. apply Qle_shift_div_r.
  - rewrite <- (Zlt_Qlt 0). apply Z.pow_pos_nonneg; lia.
  - unfold Qle, inject_Z, Qmult. cbn [Qnum Qden]. rewrite Pos.mul_1_r. nia.
Qed.

(** The exponent of the leading digit is not too large: [10 ^ k <= v]. *)
Lemma flog10_le (v : Q) : 0 < Qnum v -> (qpow10 (flog10 v) <= v)%Q.
Proof.
  intros Hv. unfold flog10. destruct (Qle_bool _ _) eqn:H; [by apply Qle_bool_iff|].
  destruct v as [a b]. cbn [Qnum Qden] in *.
  pose proof (ndig_spec a Hv) as [Ha1 Ha2]. pose proof (ndig_spec (Zpos b) ltac:(lia)) as [Hb1 Hb2].
  by apply qpow10_digits; try apply ndig_pos.

Qed.

(** The remainder of [v] after its [t] units of [u] lies in [[0, u)]. *)
Lemma remainder_bounds (v u : Q) :
  (0 < u)%Q -> (0 <= v - inject_Z (Qfloor (v / u)) * u < u)%Q.
Proof.
  intros Hu. pose proof (Qfloor_le (v / u)) as H1. pose proof (Qlt_floor (v / u)) as H2.
  rewrite inject_Z_plus in H2. change (inject_Z 1) with 1%Q in H2.
  set (t := inject_Z (Qfloor (v / u))) in *.
  assert (Hv : (v == (v / u) * u)%Q) by (field; intros E; rewrite E in Hu; discriminate).
  split.
  - rewrite Hv at 1. apply Qle_minus_iff.
    setoid_replace ((v / u) * u - t * u + - 0)%Q with ((v / u - t) * u)%Q
      using relation Qeq by ring.
    apply Qmult_le_0_compat; lra.
  - rewrite Hv at 1. apply Qlt_minus_iff.
    setoid_replace (u + - ((v / u) * u - t * u))%Q with ((t + 1 - v / u) * u)%Q
      using relation Qeq by ring.
    apply Qmult_lt_0_compat; lra.
Qed.

(** A position whose unit is within the low margin ends the digits: [t]
    is then inside the rounding interval. *)
Lemma dtoa_digit_stops (v mlo mhi : Q) (even : bool) (p : Z) :
  (qpow10 p <= mlo)%Q -> dtoa_digit v mlo mhi even p <> None.
Proof.
  intros Hp. unfold dtoa_digit.
  pose proof (remainder_bounds v (qpow10 p) (qpow10_pos p)) as [_ Hr].
  assert (Hj : Qcompare (v - inject_Z (Qfloor (v / qpow10 p)) * qpow10 p) mlo = Lt)
    by (apply (proj1 (Qlt_alt _ _)); lra).
  rewrite Hj. cbn [is_lt orb]. repeat case_match; congruence.
Qed.

Lemma dtoa_loop_some (f : nat) (v mlo mhi : Q) (even : bool) (p : Z) :
  (qpow10 (p - Z.of_nat f) <= mlo)%Q -> is_Some (dtoa_loop (S f) v mlo mhi even p).
Proof.
  revert p. induction f as [|f IH]; intros p Hp; cbn [dtoa_loop].
  - replace (p - Z.of_nat 0) with p in Hp by lia.
    destruct (dtoa_digit v mlo mhi even p) eqn:H; [by eexists|].
    by apply (dtoa_digit_stops v mlo mhi even p) in Hp.
  - destruct (dtoa_digit v mlo mhi even p); [by eexists|].
    apply IH. by replace (p - 1 - Z.of_nat f) with (p - Z.of_nat (S f)) by lia.
Qed.

Lemma qpow10_shift (p d : Z) : (qpow10 (p + d) == qpow10 p * qpow10 d)%Q.
Proof. apply Qpower_plus. discriminate. Qed.

Lemma b64_Q_pow2 (x : Z) : (b64_Q 1 x == Qpower (inject_Z 2) x)%Q.
Proof. rewrite b64_Q_val. ring. Qed.

Lemma pow2_shift (e d : Z) :
  (Qpower (inject_Z 2) (e + d) == Qpower (inject_Z 2) e * Qpower (inject_Z 2) d)%Q.
Proof. apply Qpower_plus. discriminate. Qed.

(** For every positive mantissa below [2 ^ 53], the digit loop ends
    within 18 positions: at the 18th, [10 ^ (k - 17)] is below
    [2 ^ (e - 2)], the least low margin, since [2 ^ 55 <= 10 ^ 17]. *)
Lemma shortest_some (m e : Z) : 0 < m < 2 ^ 53 -> is_Some (shortest m e).
Proof.
  intros Hm. unfold shortest.
  set (P := Qpower (inject_Z 2) e).
  assert (HP : (0 < P)%Q) by (apply Qpower_0_lt; reflexivity).
  assert (Hv : (b64_Q m e == inject_Z m * P)%Q) by apply b64_Q_val.
  assert (Hm' : (1 <= inject_Z m <= 9007199254740991)%Q).
  { assert (2 ^ 53 = 9007199254740992) by reflexivity.
    split; [change 1%Q with (inject_Z 1)|change 9007199254740991%Q with (inject_Z 9007199254740991)];
      rewrite <- Zle_Qle; lia. }
  assert (Hlo : (P * (1 # 4) <= (if (m =? 2 ^ 52) && (emin <? e) then b64_Q 1 (e - 2)
                                 else b64_Q 1 (e - 1)))%Q).
  { assert (H2 : (b64_Q 1 (e - 2) == P * (1 # 4))%Q)
      by (rewrite b64_Q_pow2; unfold Z.sub; rewrite pow2_shift; reflexivity).
    assert (H1 : (b64_Q 1 (e - 1) == P * (1 # 2))%Q)
      by (rewrite b64_Q_pow2; unfold Z.sub; rewrite pow2_shift; reflexivity).
    destruct (_ && _); [rewrite H2; lra|rewrite H1; nra]. }
  apply dtoa_loop_some. eapply Qle_trans; [|exact Hlo].
  assert (Hpos : 0 < Qnum (b64_Q m e)).
  { assert (H0 : (0 < b64_Q m e)%Q) by (rewrite Hv; nra).
    destruct (b64_Q m e) as [n d]. unfold Qlt in H0. cbn in *. lia. }
  pose proof (flog10_le (b64_Q m e) Hpos) as Hk.
  set (k := flog10 (b64_Q m e)) in *. rewrite Hv in Hk.
  rewrite Nat2Z.inj_succ. cbn [Z.of_nat].
  replace (k - Z.succ (Z.of_nat 16)) with (k + (-17)) by lia.
  rewrite qpow10_shift. change (qpow10 (-17)) with (1 # 100000000000000000).
  nra.
Qed.

(** [float_repr_q] never reaches its last case: every finite non-zero
    double has its shortest digits. *)
Lemma float_repr_q_shortest (q : Q) (m e : Z) :
  b64_round q = Some (m, e) -> m <> 0 -> is_Some (shortest (Z.abs m) e).
Proof.
  intros H Hm. apply shortest_some. destruct (b64_round_bounds q m e H). lia.
Qed.

(** Outputs of CPython 3 for the same doubles. *)
Lemma float_repr_q_examples :
  float_repr_q (1 # 10) = "0.1" /\ float_repr_q (2 # 3) = "0.6666666666666666" /\
  float_repr_q (inject_Z (10 ^ 16)) = "1e+16" /\
  float_repr_q (inject_Z 9007199254740993) = "9007199254740992.0" /\
  float_repr_q (1 # 10000) = "0.0001" /\ float_repr_q (1 # 100000) = "1e-05" /\
  float_repr_q (- 7 # 2) = "-3.5" /\ float_repr_q (3762 # 100) = "37.62".
Proof. vm_compute. split_and!; reflexivity. Qed.
