(* ===== verification/Compass.v ===== *)
(** * [degToCompass]: wind direction as a compass label

    [src/tgbot_weather/spr23-21-tgbot-weather.py] lines 26-29:
<<
    def degToCompass(num):
        val=int((num/11.25)+.5)
        arr=["С","ССВ","СВ","ВСВ","В","ВЮВ", "ЮВ", "ЮЮВ","Ю","ЮЮЗ","ЮЗ","ЗЮЗ","З","ЗСЗ","СЗ","ССЗ"]
        return arr[(val % 8)]
>>
    The division by 11.25 (a 32-point compass) and the index modulo 8 make
    the function periodic with period 90 degrees: it never returns one of
    the eight labels from south to north-north-west, and east (90 degrees)
    is reported as north.  The spec asks for [round(deg / 22.5) mod 16];
    [compass16] states that reading for comparison. *)

From stdpp Require Import base strings list.
From Stdlib Require Import ZArith QArith Qround Lqa String.
From S2P Require Import Prelude PyValue.
Local Open Scope py_scope.
Local Open Scope string_scope.

(** [arr] *)
Definition compass_labels : list string :=
  ["С"; "ССВ"; "СВ"; "ВСВ"; "В"; "ВЮВ"; "ЮВ"; "ЮЮВ";
   "Ю"; "ЮЮЗ"; "ЮЗ"; "ЗЮЗ"; "З"; "ЗСЗ"; "СЗ"; "ССЗ"].

(** [val = int((num/11.25)+.5)] on the number's value. *)
Definition compass_val (q : Q) : Z := q_trunc (q / (45 # 4) + (1 # 2)).

(** [degToCompass(num)]: [num / 11.25] raises [TypeError] unless [num] is a
    number; [arr[val % 8]] raises [IndexError] out of range. *)
Definition degToCompass (num : pyval) : res string :=
  let? q := py_num num in
  let val := compass_val q in
  match compass_labels !! Z.to_nat (val mod 8) with
  | Some s => Ok s
  | None => Raise IndexError
  end.

(** The reading of the spec (section 4.1): sixteen sectors of 22.5
    degrees, the nearest one chosen. *)
Definition compass16 (q : Q) : option string :=
  compass_labels !! Z.to_nat (Qfloor (q / (45 # 2) + (1 # 2)) mod 16).

(** ** Arithmetic of [int()] on non-negative rationals *)

Lemma q_trunc_floor (x : Q) : 0 <= x -> q_trunc x = Qfloor x.
Proof.
  destruct x as [n d]. unfold Qle, q_trunc, Qfloor. simpl. intros H.
  apply Z.quot_div_nonneg; lia.
Qed.

Lemma Qfloor_unique (x : Q) (k : Z) :
  inject_Z k <= x -> x < inject_Z (k + 1) -> Qfloor x = k.
Proof.
  intros Hlo Hhi.
  pose proof (Qfloor_le x) as H1. pose proof (Qlt_floor x) as H2.
  assert (Qfloor x < k + 1)%Z by (rewrite Zlt_Qlt; eapply Qle_lt_trans; eauto).
  assert (k < Qfloor x + 1)%Z by (rewrite Zlt_Qlt; eapply Qle_lt_trans; eauto).
  lia.
Qed.

Lemma Qfloor_add_Z (x : Q) (z : Z) : Qfloor (x + inject_Z z) = (Qfloor x + z)%Z.
Proof.
  apply Qfloor_unique.
  - rewrite inject_Z_plus. pose proof (Qfloor_le x). lra.
  - rewrite !inject_Z_plus. pose proof (Qlt_floor x).
    rewrite inject_Z_plus in H. lra.
Qed.

Lemma compass_arg_nonneg (q : Q) : 0 <= q -> 0 <= q / (45 # 4) + (1 # 2).
Proof.
  intros Hq. assert (0 <= q / (45 # 4)) by (apply Qle_shift_div_l; [reflexivity|lra]).
  lra.
Qed.

Lemma compass_val_shift (q : Q) :
  0 <= q -> compass_val (q + 90) = (compass_val q + 8)%Z.
Proof.
  intros Hq. unfold compass_val.
  rewrite !q_trunc_floor by (apply compass_arg_nonneg; lra).
  rewrite <- Qfloor_add_Z. apply Qfloor_comp.
  unfold inject_Z. field.
Qed.


(** ** Properties *)



(** C22: [degToCompass] is periodic with period 90 degrees on non-negative
    directions: a wind from the east, south or west gets the label of the
    direction 90, 180 or 270 degrees counter-clockwise from it. *)
Theorem degToCompass_period_90 (q : Q) :
  0 <= q -> degToCompass (PFloat (q + 90)) = degToCompass (PFloat q).
Proof.
  intros Hq. unfold degToCompass. simpl. rewrite compass_val_shift by done.
  replace (compass_val q + 8)%Z with (compass_val q + 1 * 8)%Z by lia.
  by rewrite Z_mod_plus_full.
Qed.

Lemma degToCompass_period_90_witness :
  0 <= 180 /\ degToCompass (PFloat (180 + 90)) = degToCompass (PFloat 180).
Proof. split; [unfold Qle; simpl; lia|]. apply degToCompass_period_90. unfold Qle; simpl; lia. Defined.

(** ** The spec's sector centres *)

(** The labels are sixteen different strings. *)
Lemma compass_labels_NoDup : NoDup compass_labels.
Proof. apply NoDup_ListNoDup. vm_compute. repeat constructor; simpl; intuition discriminate. Qed.

(** [int(22.5 * k / 11.25 + .5)] is [2k]. *)
Lemma trunc_sector (k : Z) :
  (0 <= k)%Z -> q_trunc (inject_Z k * (45 # 2) / (45 # 4) + (1 # 2)) = (2 * k)%Z.
Proof.
  intros Hk.
  assert (He : inject_Z k * (45 # 2) / (45 # 4) + (1 # 2) == (1 # 2) + inject_Z (2 * k)).
  { rewrite inject_Z_mult. change (inject_Z 2) with (2 # 1). field. }
  rewrite q_trunc_floor.
  - rewrite He, Qfloor_add_Z. reflexivity.
  - rewrite He. assert (0 <= inject_Z (2 * k)) by (change 0 with (inject_Z 0); rewrite <- Zle_Qle; lia).
    lra.
Qed.

Lemma compass16_sector (k : Z) : (0 <= k)%Z ->
  compass16 (inject_Z k * (45 # 2)) = compass_labels !! Z.to_nat (k mod 16).
Proof.
  intros Hk. unfold compass16. do 3 f_equal.
  assert (He : inject_Z k * (45 # 2) / (45 # 2) + (1 # 2) == (1 # 2) + inject_Z k) by field.
  rewrite He, Qfloor_add_Z. reflexivity.
Qed.

(** C23: at the centre [22.5 * k] of every sector of the spec, the code
    returns the label of sector [2k mod 8] while the spec asks for sector
    [k mod 16]: the two agree only when [k] is a multiple of 16, i.e. at
    north, so 0, 22.5 and 45 degrees give sectors 0, 2 and 4 instead of
    0, 1 and 2. *)
Theorem degToCompass_spec_sectors (k : Z) :
  (0 <= k)%Z ->
  exists s s', compass_labels !! Z.to_nat ((2 * k) mod 8) = Some s /\
    degToCompass (PFloat (inject_Z k * (45 # 2))) = Ok s /\
    compass16 (inject_Z k * (45 # 2)) = Some s' /\
    (s = s' <-> (k mod 16 = 0)%Z).
Proof.
  intros Hk. unfold degToCompass, compass_val. cbn [py_num obind]. rewrite trunc_sector by done.
  rewrite compass16_sector by done.
  pose proof (Z.mod_pos_bound (2 * k) 8) as H8. pose proof (Z.mod_pos_bound k 16) as H16.
  destruct (lookup_lt_is_Some_2 compass_labels (Z.to_nat ((2 * k) mod 8))) as [s Hs];
    [simpl; lia|].
  destruct (lookup_lt_is_Some_2 compass_labels (Z.to_nat (k mod 16))) as [s' Hs'];
    [simpl; lia|].
  exists s, s'. rewrite Hs, Hs'. split_and!; [done..|]. split.
  - intros <-. pose proof (NoDup_lookup _ _ _ _ compass_labels_NoDup Hs Hs').
    pose proof (Z.div_mod k 16). pose proof (Z.div_mod (2 * k) 8). lia.
  - intros H0. assert ((2 * k) mod 8 = 0)%Z as H2.
    { apply Z.mod_divide in H0 as [c ->]; [|lia]. apply Z.mod_divide; [lia|]. exists (4 * c)%Z. lia. }
    rewrite H2, H0 in *. congruence.
Qed.

Lemma degToCompass_spec_sectors_witness :
  (0 <= 1)%Z /\
  (exists s s', compass_labels !! Z.to_nat ((2 * 1) mod 8) = Some s /\
    degToCompass (PFloat (inject_Z 1 * (45 # 2))) = Ok s /\
    compass16 (inject_Z 1 * (45 # 2)) = Some s' /\
    (s = s' <-> (1 mod 16 = 0)%Z)).
Proof. split; [lia|]. apply degToCompass_spec_sectors. lia. Defined.
