(* ===== verification/UnixTime.v ===== *)
(** * [convertUnixToTime]: a Unix timestamp as [HH:MM] Moscow time

    [src/tgbot_weather/spr23-21-tgbot-weather.py] lines 32-39:
<<
    def convertUnixToTime(unix):
      date_time = datetime.datetime.fromtimestamp(unix)
      utc = ZoneInfo('UTC')
      moslowtz = ZoneInfo('Europe/Moscow')
      date_time = date_time.replace(tzinfo=utc)
      moskowtime = date_time.astimezone(moslowtz)
      return moskowtime.strftime('%H:%M')
>>
    [fromtimestamp] without a zone gives the wall-clock time of the HOST's
    local zone; [replace(tzinfo=utc)] then reads that wall clock as a UTC
    instant.  The result is Moscow time only when the host runs in UTC (as
    Yandex Cloud Functions do); on any other host it is shifted by the
    host's offset.

    A time zone is a function from UTC instants (seconds since the epoch) to
    UTC offsets in seconds.  [europe_moscow] follows the tz database from
    1996 on: UTC+3 with summer time UTC+4 from the last Sunday of March to
    the last Sunday of October (both at 23:00 UTC on the Saturday before),
    UTC+4 all year from 2011-03-26T23:00Z, UTC+3 from 2014-10-25T22:00Z.
    The same summer-time rule is applied before 1996, where the tz database
    has other rules (not modelled).

    The errors are CPython's on Linux: [fromtimestamp] raises
    [OverflowError] for a timestamp outside [time_t], [OSError] when
    glibc's [localtime_r] cannot represent the year, and [ValueError] for
    a year outside 1-9999, also in the probes of its fold detection;
    [astimezone] raises [OverflowError] past the year 9999.  A [float]
    timestamp is rounded to microseconds exactly, where CPython rounds
    [modf]'s fraction times 10^6 as a double. *)

From stdpp Require Import base strings list.
From Stdlib Require Import ZArith QArith Qround String Ascii.
From S2P Require Import Prelude PyValue.
Local Open Scope py_scope.
Local Open Scope string_scope.
Local Open Scope Z_scope.

Record Zone := { utc_offset : Z -> Z }.

Definition fixed_zone (o : Z) : Zone := {| utc_offset := fun _ => o |}.
Definition utc_zone : Zone := fixed_zone 0.

(** ** Civil calendar (proleptic Gregorian), days counted from 1970-01-01 *)

Definition days_from_civil (y m d : Z) : Z :=
  let y := if m <=? 2 then y - 1 else y in
  let era := y / 400 in
  let yoe := y - era * 400 in
  let doy := (153 * (if m >? 2 then m - 3 else m + 9) + 2) / 5 + d - 1 in
  let doe := yoe * 365 + yoe / 4 - yoe / 100 + doy in
  era * 146097 + doe - 719468.

Definition year_of_days (z : Z) : Z :=
  let z := z + 719468 in
  let era := z / 146097 in
  let doe := z - era * 146097 in
  let yoe := (doe - doe / 1460 + doe / 36524 - doe / 146096) / 365 in
  let doy := doe - (365 * yoe + yoe / 4 - yoe / 100) in
  let mp := (5 * doy + 2) / 153 in
  yoe + era * 400 + (if mp >=? 10 then 1 else 0).

(** 0 is Sunday (1970-01-01 was a Thursday). *)
Definition weekday (days : Z) : Z := (days + 4) mod 7.

Definition last_sunday (y m : Z) : Z :=
  let last := days_from_civil y m 31 in last - weekday last.

Definition moscow_offset (t : Z) : Z :=
  if 1414274400 <=? t then 10800
  else if 1301180400 <=? t then 14400
  else
    let y := year_of_days (t / 86400) in
    let start := last_sunday y 3 * 86400 - 3600 in
    let stop := last_sunday y 10 * 86400 - 3600 in
    if (start <=? t) && (t <? stop) then 14400 else 10800.

Definition europe_moscow : Zone := {| utc_offset := moscow_offset |}.

(** ** The [datetime] operations *)

(** [datetime] covers the years 1 to 9999. *)
Definition datetime_min : Z := -62135596800.
Definition datetime_max : Z := 253402300799.
Definition in_datetime_range (s : Z) : bool := (datetime_min <=? s) && (s <=? datetime_max).

(** [time_t] is a signed 64-bit integer. *)
Definition time_t_min : Z := - 2 ^ 63.
Definition time_t_max : Z := 2 ^ 63 - 1.
Definition in_time_t (t : Z) : bool := (time_t_min <=? t) && (t <=? time_t_max).

(** glibc's [localtime_r] fails with [EOVERFLOW] when [tm_year], the year
    minus 1900, does not fit a 32-bit [int]: the wall clock must lie from
    the first second of year [1900 - 2^31] to the last of [2^31 + 1899]. *)
Definition tm_year_first : Z := days_from_civil (1900 - 2 ^ 31) 1 1 * 86400.
Definition tm_year_last : Z := days_from_civil (2 ^ 31 + 1900) 1 1 * 86400 - 1.
Definition tm_year_fits (l : Z) : bool := (tm_year_first <=? l) && (l <=? tm_year_last).

(** Round half to even, as CPython rounds a float timestamp to
    microseconds. *)
Definition round_half_even (q : Q) : Z :=
  let f := Qfloor q in
  let r := (q - inject_Z f)%Q in
  if Qle_bool (1 # 2) r && negb (Qeq_bool r (1 # 2)) then f + 1
  else if Qeq_bool r (1 # 2) then (if Z.even f then f else f + 1)
  else f.

(** The whole seconds of the timestamp argument: an [int] as it is, a
    [float] rounded to microseconds and then floored
    ([_PyTime_ObjectToTimeval] with [_PyTime_ROUND_HALF_EVEN], computed
    exactly). *)
Definition timestamp_seconds (v : pyval) : res Z :=
  match v with
  | PInt z => Ok z
  | PBool b => Ok (if b then 1 else 0)
  | PFloat q => Ok (round_half_even (q * inject_Z 1000000) / 1000000)
  | _ => Raise TypeError
  end.

(** [_PyTime_localtime(t)] ([OSError] when [localtime_r] fails) followed
    by the year check of [utc_to_seconds] ([ValueError]): the host's wall
    clock at [t], as seconds. *)
Definition local (host : Zone) (t : Z) : res Z :=
  let l := t + utc_offset host t in
  if negb (tm_year_fits l) then Raise OSError
  else if negb (in_datetime_range l) then Raise ValueError
  else Ok l.

(** [datetime.fromtimestamp(t)] ([datetime_from_timestamp] and
    [datetime_from_timet_and_us] of [_datetimemodule.c]): [OverflowError]
    outside [time_t]; the wall clock at [t]; then the probes of the fold
    detection, one day before [t] and, when the offset grew within that
    day, at the transition; each probe raises as [local] does. *)
Definition fromtimestamp (host : Zone) (t : Z) : res Z :=
  if negb (in_time_t t) then Raise OverflowError else
  let? l := local host t in
  let? probe := local host (t - 86400) in
  let transition := l - probe - 86400 in
  let? _ := (if transition <? 0 then local host (t + transition) else Ok 0) in
  Ok l.

(** [dt.astimezone(z)] for an aware [dt] whose instant is [u]: [fromutc]
    adds the offset ([datetime + timedelta], [OverflowError] past the
    year 9999). *)
Definition astimezone (z : Zone) (u : Z) : res Z :=
  let l := u + utc_offset z u in
  if in_datetime_range l then Ok l else Raise OverflowError.

Definition digit (n : Z) : ascii := ascii_of_nat (48 + Z.to_nat n).

Definition pad2 (n : Z) : string :=
  String (digit (n / 10)) (String (digit (n mod 10)) EmptyString).

(** [strftime('%H:%M')] of a wall clock given as seconds. *)
Definition strftime_HM (s : Z) : string :=
  pad2 ((s / 3600) mod 24) ++ ":" ++ pad2 ((s / 60) mod 60).

(** [convertUnixToTime(unix)] on a host whose local zone is [host]. *)
Definition convertUnixToTime (host : Zone) (unix : pyval) : res string :=
  let? t := timestamp_seconds unix in
  let? date_time := fromtimestamp host t in
  (* [date_time.replace(tzinfo=utc)]: the wall clock read as a UTC instant *)
  let? moskowtime := astimezone europe_moscow date_time in
  Ok (strftime_HM moskowtime).

(** ** Reading [HH:MM] back *)

Definition digit_val (c : ascii) : option Z :=
  let n := nat_of_ascii c in
  if (48 <=? n)%nat && (n <=? 57)%nat then Some (Z.of_nat n - 48) else None.

Definition parse_HM (s : string) : option (Z * Z) :=
  match s with
  | String h1 (String h2 (String c (String m1 (String m2 EmptyString)))) =>
      if Ascii.eqb c ":" then
        match digit_val h1, digit_val h2, digit_val m1, digit_val m2 with
        | Some a, Some b, Some x, Some y => Some (10 * a + b, 10 * x + y)
        | _, _, _, _ => None
        end
      else None
  | _ => None
  end.

(** ** Lemmas *)

Lemma digit_val_digit (d : Z) : 0 <= d < 10 -> digit_val (digit d) = Some d.
Proof.
  intros Hd.
  assert (d = 0 \/ d = 1 \/ d = 2 \/ d = 3 \/ d = 4 \/ d = 5 \/ d = 6 \/ d = 7 \/
          d = 8 \/ d = 9) as Hc by lia.
  by repeat destruct Hc as [->|Hc]; [..|subst].
Qed.

Lemma pad2_digits (n : Z) :
  0 <= n < 100 ->
  digit_val (digit (n / 10)) = Some (n / 10) /\ digit_val (digit (n mod 10)) = Some (n mod 10).
Proof.
  intros Hn. split; apply digit_val_digit.
  - split; [apply Z.div_pos|apply Z.div_lt_upper_bound]; lia.
  - apply Z.mod_pos_bound. lia.
Qed.

Lemma in_datetime_range_intro (s : Z) :
  datetime_min <= s <= datetime_max -> in_datetime_range s = true.
Proof. intros H. apply andb_true_intro; split; apply Z.leb_le; lia. Qed.

Lemma in_time_t_intro (t : Z) : time_t_min <= t <= time_t_max -> in_time_t t = true.
Proof. intros H. apply andb_true_intro; split; apply Z.leb_le; lia. Qed.

Lemma range_false (a b x : Z) : ~ (a <= x <= b) -> (a <=? x) && (x <=? b) = false.
Proof. intros H. destruct (Z.leb_spec a x), (Z.leb_spec x b); [exfalso; lia|done..]. Qed.

(** Every year of [datetime], and the year before, has a [tm_year] that
    fits an [int]. *)
Lemma tm_year_wide :
  time_t_min < tm_year_first < datetime_min - 86400 /\ datetime_max < tm_year_last < time_t_max.
Proof. vm_compute. split_and!; reflexivity. Qed.

Lemma tm_year_fits_range (l : Z) : datetime_min - 86400 <= l <= datetime_max -> tm_year_fits l = true.
Proof.
  intros H. pose proof tm_year_wide. apply andb_true_intro; split; apply Z.leb_le; lia.
Qed.

Lemma local_range (host : Zone) (t : Z) :
  datetime_min <= t + utc_offset host t <= datetime_max ->
  local host t = Ok (t + utc_offset host t).
Proof.
  intros H. unfold local. rewrite tm_year_fits_range, in_datetime_range_intro; [done..|].
  unfold datetime_min in *. lia.
Qed.

Lemma local_os (host : Zone) (t : Z) :
  ~ (tm_year_first <= t + utc_offset host t <= tm_year_last) -> local host t = Raise OSError.
Proof. intros H. unfold local, tm_year_fits. by rewrite range_false. Qed.

Lemma local_value (host : Zone) (t : Z) :
  tm_year_first <= t + utc_offset host t <= tm_year_last ->
  ~ (datetime_min <= t + utc_offset host t <= datetime_max) -> local host t = Raise ValueError.
Proof.
  intros H1 H2. unfold local, tm_year_fits, in_datetime_range.
  rewrite (range_false datetime_min datetime_max) by done.
  rewrite (proj2 (andb_true_iff (tm_year_first <=? _) _)); [done|]. split; apply Z.leb_le; lia.
Qed.

(** On a host of fixed offset [o], [fromtimestamp] gives [t + o] when the
    day before it is a day of [datetime] too. *)
Lemma fromtimestamp_fixed (o t : Z) :
  time_t_min <= t <= time_t_max -> datetime_min + 86400 <= t + o <= datetime_max ->
  fromtimestamp (fixed_zone o) t = Ok (t + o).
Proof.
  intros Ht Hr. unfold fromtimestamp. rewrite in_time_t_intro by done. cbn [negb].
  rewrite !local_range by (cbn [utc_offset fixed_zone]; lia). cbn [obind utc_offset fixed_zone].
  by replace (t + o - (t - 86400 + o) - 86400 <? 0) with false by (symmetry; apply Z.ltb_ge; lia).
Qed.

Lemma moscow_offset_modern (t : Z) : 1414274400 <= t -> moscow_offset t = 10800.
Proof. intros Ht. unfold moscow_offset. by rewrite (proj2 (Z.leb_le _ _) Ht). Qed.

Lemma astimezone_moscow_modern (u : Z) :
  1414274400 <= u -> u + 10800 <= datetime_max ->
  astimezone europe_moscow u = Ok (u + 10800).
Proof.
  intros H1 H2. unfold astimezone. cbv zeta. cbn [utc_offset europe_moscow].
  rewrite moscow_offset_modern, in_datetime_range_intro by (unfold datetime_min; lia).
  done.
Qed.

Lemma parse_strftime_HM (s : Z) :
  parse_HM (strftime_HM s) = Some ((s / 3600) mod 24, (s / 60) mod 60).
Proof.
  unfold strftime_HM, pad2. rewrite ?str_app_cons, ?str_app_nil_l, ?str_app_cons.
  cbn [parse_HM Ascii.eqb Bool.eqb andb].
  pose proof (Z.mod_pos_bound (s / 3600) 24) as Hh.
  pose proof (Z.mod_pos_bound (s / 60) 60) as Hm.
  destruct (pad2_digits ((s / 3600) mod 24)) as [-> ->]; [lia|].
  destruct (pad2_digits ((s / 60) mod 60)) as [-> ->]; [lia|].
  f_equal. f_equal; symmetry; apply Z.div_mod; lia.
Qed.

(** ** Properties *)

(** C24: [HH:MM] round trip: the string [strftime('%H:%M')] produces reads
    back as the hour (0-23) and the minute (0-59) of the wall clock. *)
Theorem strftime_HM_roundtrip (s : Z) :
  parse_HM (strftime_HM s) = Some ((s / 3600) mod 24, (s / 60) mod 60).
Proof. apply parse_strftime_HM. Qed.

(** [time_t] reaches more than a day beyond [datetime]. *)
Lemma time_t_wide : time_t_min < datetime_min - 86400 /\ datetime_max + 86400 < time_t_max.
Proof. vm_compute. split; reflexivity. Qed.

(** C25: on a host whose local zone is UTC, for every integer timestamp
    from 2014-10-25T22:00Z to the end of year 9999 (minus three hours),
    [convertUnixToTime] returns the wall clock of UTC+3, i.e. Moscow
    time. *)
Theorem convertUnixToTime_utc_host (t : Z) :
  1414274400 <= t <= datetime_max - 10800 ->
  convertUnixToTime utc_zone (PInt t) = Ok (strftime_HM (t + 10800)).
Proof.
  intros Ht. pose proof time_t_wide. unfold convertUnixToTime, utc_zone.
  cbn [timestamp_seconds obind].
  rewrite fromtimestamp_fixed, Z.add_0_r by (unfold datetime_min in *; lia).
  cbn [obind]. by rewrite astimezone_moscow_modern by lia.
Qed.

Lemma convertUnixToTime_utc_host_witness :
  1414274400 <= 1700000000 <= datetime_max - 10800 /\
  convertUnixToTime utc_zone (PInt 1700000000) = Ok (strftime_HM (1700000000 + 10800)).
Proof.
  split; [unfold datetime_max; lia|].
  apply convertUnixToTime_utc_host. unfold datetime_max; lia.
Defined.

(** C26: on a host whose local zone has a fixed offset [o] of less than a
    day (for instance a host set to Moscow time, [o] = 3 hours), the
    result is shifted by [o]: the code applies the Moscow offset to the
    host's wall clock instead of to the UTC instant. *)
Theorem convertUnixToTime_host_shift (o t : Z) :
  -86400 < o < 86400 -> 1414274400 <= t + o -> t + o + 10800 <= datetime_max ->
  convertUnixToTime (fixed_zone o) (PInt t) = Ok (strftime_HM (t + o + 10800)).
Proof.
  intros Ho H1 H2. pose proof time_t_wide. unfold convertUnixToTime.
  cbn [timestamp_seconds obind].
  rewrite fromtimestamp_fixed by (unfold datetime_min in *; lia).
  cbn [obind]. by rewrite astimezone_moscow_modern by lia.
Qed.

(** 1700000000 is 2023-11-14T22:13:20Z, 01:13 in Moscow; a host running
    on Moscow time prints 04:13. *)
Lemma convertUnixToTime_host_shift_witness :
  -86400 < 10800 < 86400 /\
  1414274400 <= 1700000000 + 10800 /\ 1700000000 + 10800 + 10800 <= datetime_max /\
  convertUnixToTime (fixed_zone 10800) (PInt 1700000000) = Ok "04:13".
Proof.
  split; [lia|]. split; [lia|]. split; [unfold datetime_max; lia|].
  rewrite (convertUnixToTime_host_shift 10800 1700000000); [|lia|lia|unfold datetime_max; lia].
  vm_compute. reflexivity.
Defined.

(** C27: the exceptions of [convertUnixToTime] for an integer timestamp
    out of range, on a host in UTC; the handler does not catch them.
    Outside [time_t], [fromtimestamp] raises [OverflowError]; when the
    year does not fit glibc's [tm_year], [OSError]; for another year
    outside 1-9999, [ValueError]; on the first day of year 1 also
    [ValueError], raised by the fold probe one day earlier (year 0); in
    the last three hours of year 9999 [astimezone] to Moscow time raises
    [OverflowError]. *)
Theorem convertUnixToTime_errors (t : Z) :
  (~ (time_t_min <= t <= time_t_max) ->
     convertUnixToTime utc_zone (PInt t) = Raise OverflowError) /\
  (time_t_min <= t <= time_t_max -> ~ (tm_year_first <= t <= tm_year_last) ->
     convertUnixToTime utc_zone (PInt t) = Raise OSError) /\
  (tm_year_first <= t <= tm_year_last -> ~ (datetime_min <= t <= datetime_max) ->
     convertUnixToTime utc_zone (PInt t) = Raise ValueError) /\
  (datetime_min <= t < datetime_min + 86400 ->
     convertUnixToTime utc_zone (PInt t) = Raise ValueError) /\
  (datetime_max - 10800 < t <= datetime_max ->
     convertUnixToTime utc_zone (PInt t) = Raise OverflowError).
Proof.
  pose proof time_t_wide. pose proof tm_year_wide.
  unfold convertUnixToTime. cbn [timestamp_seconds obind]. split_and!.
  - intros Ht. unfold fromtimestamp, in_time_t. by rewrite range_false.
  - intros Ht Hy. unfold fromtimestamp. rewrite in_time_t_intro by done. cbn [negb].
    rewrite local_os by (cbn; lia). done.
  - intros Hy Hr. unfold fromtimestamp. rewrite in_time_t_intro by lia. cbn [negb].
    rewrite local_value by (cbn; lia). done.
  - intros Ht. unfold fromtimestamp.
    rewrite in_time_t_intro by (unfold datetime_min, datetime_max in *; lia). cbn [negb].
    rewrite local_range by (cbn [utc_offset utc_zone fixed_zone]; unfold datetime_min, datetime_max in *; lia). cbn [obind].
    rewrite local_value by (cbn [utc_offset utc_zone fixed_zone]; unfold datetime_min, datetime_max in *; lia).
    done.
  - intros Ht. unfold utc_zone.
    rewrite fromtimestamp_fixed, Z.add_0_r by (unfold datetime_min, datetime_max in *; lia).
    cbn [obind]. unfold astimezone. cbn [utc_offset europe_moscow].
    rewrite moscow_offset_modern by (unfold datetime_max in *; lia).
    unfold in_datetime_range. by rewrite range_false by lia.
Qed.

(** The first second of year 1, 0001-01-01T00:00Z. *)
Lemma convertUnixToTime_errors_witness :
  datetime_min <= -62135596800 < datetime_min + 86400 /\
  convertUnixToTime utc_zone (PInt (-62135596800)) = Raise ValueError.
Proof.
  assert (H : datetime_min <= -62135596800 < datetime_min + 86400) by (unfold datetime_min; lia).
  split; [exact H|]. exact (proj1 (proj2 (proj2 (proj2 (convertUnixToTime_errors _)))) H).
Defined.
