(* ===== verification/Http.v ===== *)
(** * The outbound side of the bot: configuration, HTTP calls, helpers

    [src/tgbot_weather/spr23-21-tgbot-weather.py] lines 11-24 (module-level
    configuration) and 42-99 (the helpers that call the network).

    Every outbound call is an event [call] appended to the trace, the state
    of the monad [M]; the answer comes from the network, an interface
    (class [Net]) that the theorems quantify over.  [http r = None] means
    that [requests] raised (connection error, timeout): the call is in the
    trace and [ConnectionError] propagates. *)

From stdpp Require Import base strings list.
From Stdlib Require Import ZArith String Ascii.
From S2P Require Import Prelude PyValue.
Local Open Scope py_scope.
Local Open Scope string_scope.

(** ** HTTP requests, responses and the trace *)

Inductive http_body : Type :=
| NoBody
| JsonBody (v : pyval)                    (** [json=...] *)
| DataBody (bytes : string)               (** [data=<bytes>] *)
| FormBody (fields : list (string * string)). (** [data={...}], form-encoded *)

Record http_request : Type := {
  req_method : string;
  req_url : string;
  req_params : list (string * pyval);
  req_headers : list (string * string);
  req_body : http_body
}.

(** [.text] and [.content] of a response are the same bytes in the UTF-8
    model of strings. *)
Record http_response : Type := {
  status_code : Z;
  resp_body : string
}.

Inductive call : Type :=
| Http (r : http_request)
| PutObject (bucket key body : string).

Class Net := {
  http : http_request -> option http_response;
  (** [true] when the Object Storage accepts the object *)
  s3_put : string -> string -> string -> bool
}.

(** The network answers every request (no connection error). *)
Definition net_reliable `{Net} : Prop := forall r, is_Some (http r).

Abbreviation M A := (stm (list call) exc A).

(** [resp.ok]: [raise_for_status()] raises [HTTPError] for a status from
    400 to 599 only. *)
Definition resp_ok (r : http_response) : bool :=
  negb ((400 <=? status_code r) && (status_code r <? 600))%Z.

(** [resp.json()] *)
Definition resp_json `{PyLib} (r : http_response) : res pyval :=
  match json_loads (resp_body r) with
  | Some v => Ok v
  | None => Raise JSONDecodeError
  end.

(** [json.loads(v)]: a [str] argument is parsed, anything else is a
    [TypeError]. *)
Definition py_json_loads `{PyLib} (v : pyval) : res pyval :=
  match v with
  | PStr s => match json_loads s with
              | Some j => Ok j
              | None => Raise JSONDecodeError
              end
  | _ => Raise TypeError
  end.

(** A surrogate code point (U+D800 to U+DFFF) starts here: in the
    three-byte form [ED A0..BF xx] that [json.loads] gives a lone [\uD8xx]
    escape ([Json.utf8_encode]).  [ED] is a lead byte, so it is the start
    of a character wherever it occurs. *)
Fixpoint has_surrogate (s : string) : bool :=
  match s with
  | String a r =>
      (Nat.eqb (nat_of_ascii a) 237 &&
       match r with
       | String b _ => (160 <=? nat_of_ascii b)%nat && (nat_of_ascii b <=? 191)%nat
       | EmptyString => false
       end) || has_surrogate r
  | EmptyString => false
  end.

(** [s.encode('utf-8')] with [errors='strict']: the UTF-8 bytes, which are
    the string itself here, or [UnicodeEncodeError] on a surrogate. *)
Definition str_encode (s : string) : res string :=
  if has_surrogate s then Raise UnicodeEncodeError else Ok s.

(** [str.decode]: Python 3 [str] has no such method. *)
Definition str_decode (s : string) : res string := Raise (AttributeError "decode").

(** ** Module-level configuration (lines 11-24) *)

Definition FUNC_RESPONSE : pyval := PDict [("statusCode", PInt 200); ("body", PStr "")].

Record Config : Type := {
  TELEGRAM_BOT_TOKEN : option string;
  API_KEY : string;
  API_KEY_VOICE : string;
  AWS_ACCESS_KEY_ID : option string;
  AWS_SECRET_ACCESS_KEY : option string
}.

Fixpoint env_get (env : list (string * string)) (k : string) : option string :=
  match env with
  | [] => None
  | (k', v) :: env' => if String.eqb k' k then Some v else env_get env' k
  end.

(** [os.environ.get(k)] gives [None] when unset; [os.environ[k]] raises
    [KeyError] while the module is imported. *)
Definition environ_item (env : list (string * string)) (k : string) : res string :=
  match env_get env k with
  | Some v => Ok v
  | None => Raise (KeyError (PStr k))
  end.

Definition load_config (env : list (string * string)) : res Config :=
  let token := env_get env "TELEGRAM_BOT_TOKEN" in
  let? api_key := environ_item env "API_KEY" in
  let? api_key_voice := environ_item env "API_KEY_VOICE" in
  Ok {| TELEGRAM_BOT_TOKEN := token;
        API_KEY := api_key;
        API_KEY_VOICE := api_key_voice;
        AWS_ACCESS_KEY_ID := env_get env "AWS_ACCESS_KEY_ID";
        AWS_SECRET_ACCESS_KEY := env_get env "AWS_SECRET_ACCESS_KEY" |}.

(** An f-string prints a missing token as [None]. *)
Definition opt_str (o : option string) : string :=
  match o with Some s => s | None => "None" end.

Definition AUTH_HEADER (cfg : Config) : string := "Api-Key " ++ API_KEY cfg.
Definition AUTH_HEADER_VOICE (cfg : Config) : string := "Api-Key " ++ API_KEY_VOICE cfg.
Definition TELEGRAM_API_URL (cfg : Config) : string :=
  "https://api.telegram.org/bot" ++ opt_str (TELEGRAM_BOT_TOKEN cfg).

(** ** Requests the helpers build *)

Definition OWM_URL : string := "http://api.openweathermap.org/data/2.5/weather".
Definition OWM_TOKEN : string := "890dbe39dd1ea4041d77acb119367474".
Definition BUCKET : string := "itiscl-spr23-21-public".
Definition STT_URL : string := "https://stt.api.cloud.yandex.net/speech/v1/stt:recognize".
Definition TTS_URL : string := "https://tts.api.cloud.yandex.net/speech/v1/tts:synthesize".

Definition owm_request (params : list (string * pyval)) : http_request :=
  {| req_method := "GET"; req_url := OWM_URL;
     req_params := params ++ [("appid", PStr OWM_TOKEN); ("lang", PStr "ru");
                              ("units", PStr "metric")];
     req_headers := []; req_body := NoBody |}.

Definition weather_text_request (city : pyval) : http_request :=
  owm_request [("q", city)].

Definition weather_loc_request (lat lon : pyval) : http_request :=
  owm_request [("lat", lat); ("lon", lon)].

Definition tg_post (cfg : Config) (method : string) (payload : pyval) : http_request :=
  {| req_method := "POST"; req_url := TELEGRAM_API_URL cfg ++ "/" ++ method;
     req_params := []; req_headers := []; req_body := JsonBody payload |}.

Definition send_message_request (cfg : Config) (chat_id : pyval) (text : string)
           (message_id : pyval) : http_request :=
  tg_post cfg "sendMessage"
    (PDict [("chat_id", chat_id); ("text", PStr text); ("reply_to_message_id", message_id)]).

Definition voice_url (voice_file : string) : string :=
  "https://storage.yandexcloud.net/" ++ BUCKET ++ "/" ++ voice_file.

Definition send_voice_request (cfg : Config) (chat_id : pyval) (voice_file : string)
           (message_id : pyval) : http_request :=
  tg_post cfg "sendVoice"
    (PDict [("chat_id", chat_id); ("voice", PStr (voice_url voice_file));
            ("reply_to_message_id", message_id)]).

Definition get_file_request (cfg : Config) (file_id : pyval) : http_request :=
  tg_post cfg "getFile" (PDict [("file_id", file_id)]).

Definition download_request (cfg : Config) (file_path : string) : http_request :=
  {| req_method := "GET";
     req_url := "https://api.telegram.org/file/bot" ++ opt_str (TELEGRAM_BOT_TOKEN cfg)
                ++ "/" ++ file_path;
     req_params := []; req_headers := []; req_body := NoBody |}.

Definition stt_request (cfg : Config) (audio : string) : http_request :=
  {| req_method := "POST"; req_url := STT_URL; req_params := [];
     req_headers := [("Authorization", AUTH_HEADER cfg)]; req_body := DataBody audio |}.

Definition tts_request (cfg : Config) (text : string) : http_request :=
  {| req_method := "POST"; req_url := TTS_URL; req_params := [];
     req_headers := [("Authorization", AUTH_HEADER_VOICE cfg)];
     req_body := FormBody [("text", text)] |}.

(** ** The helpers (lines 42-99) *)

Section Helpers.
Context `{PyLib} `{Net} (cfg : Config).

(** [requests.get] / [requests.post]: the call is made (and traced)
    whether or not it fails. *)
Definition request (r : http_request) : M http_response :=
  fun tr => match http r with
            | Some resp => (Ok resp, (tr ++ [Http r])%list)
            | None => (Raise ConnectionError, (tr ++ [Http r])%list)
            end.

(** [bucket.put_object(Body=body, Key=key)]; boto3 raises [ClientError]
    when the store refuses. *)
Definition put_object (key body : string) : M unit :=
  fun tr => (if s3_put BUCKET key body then Ok tt else Raise ClientError,
             (tr ++ [PutObject BUCKET key body])%list).

(** Lines 42-53 and 55-65: the JSON body on status 200, [None] otherwise. *)
Definition weather_of (response : http_response) : M pyval :=
  if (status_code response =? 200)%Z then slift (resp_json response) else sret PNone.

Definition get_weather_from_text (city_name : pyval) : M pyval :=
  response <- request (weather_text_request city_name) ;;
  weather_of response.

Definition get_weather_from_location (location : pyval) : M pyval :=
  lat <- slift (py_getitem location "latitude") ;;
  lon <- slift (py_getitem location "longitude") ;;
  response <- request (weather_loc_request lat lon) ;;
  weather_of response.

(** Lines 67-69. *)
Definition get_file (file_id : pyval) : M pyval :=
  resp <- request (get_file_request cfg file_id) ;;
  j <- slift (resp_json resp) ;;
  slift (py_getitem j "result").

(** [message['message_id']] and [message['chat']['id']], in this order. *)
Definition reply_target (message : pyval) : res (pyval * pyval) :=
  let? message_id := py_getitem message "message_id" in
  let? chat := py_getitem message "chat" in
  let? chat_id := py_getitem chat "id" in
  Ok (chat_id, message_id).

(** Lines 72-84. *)
Definition send_message (text : string) (message : pyval) : M unit :=
  ids <- slift (reply_target message) ;;
  _ <- request (send_message_request cfg ids.1 text ids.2) ;;
  sret tt.

(** Lines 86-99. *)
Definition send_voice (voice_file : string) (message : pyval) : M unit :=
  ids <- slift (reply_target message) ;;
  _ <- request (send_voice_request cfg ids.1 voice_file ids.2) ;;
  sret tt.
End Helpers.

(** ** Run lemmas of the helpers *)

Section HelperRuns.
Context `{PyLib} `{Net} (cfg : Config).

Lemma request_run r resp tr :
  http r = Some resp -> request r tr = (Ok resp, (tr ++ [Http r])%list).
Proof. unfold request. by intros ->. Qed.

Lemma send_message_run text message cid mid resp tr :
  reply_target message = Ok (cid, mid) ->
  http (send_message_request cfg cid text mid) = Some resp ->
  send_message cfg text message tr =
    (Ok tt, (tr ++ [Http (send_message_request cfg cid text mid)])%list).
Proof.
  intros Ht Hr. unfold send_message. rewrite Ht. cbn [sbind slift sret fst snd].
  by erewrite sbind_ok by (apply request_run; exact Hr).
Qed.

Lemma send_voice_run file message cid mid resp tr :
  reply_target message = Ok (cid, mid) ->
  http (send_voice_request cfg cid file mid) = Some resp ->
  send_voice cfg file message tr =
    (Ok tt, (tr ++ [Http (send_voice_request cfg cid file mid)])%list).
Proof.
  intros Ht Hr. unfold send_voice. rewrite Ht. cbn [sbind slift sret fst snd].
  by erewrite sbind_ok by (apply request_run; exact Hr).
Qed.

Lemma get_weather_from_text_not_found city resp tr :
  http (weather_text_request city) = Some resp -> status_code resp <> 200%Z ->
  get_weather_from_text city tr = (Ok PNone, (tr ++ [Http (weather_text_request city)])%list).
Proof.
  intros Hr Hs. unfold get_weather_from_text, weather_of, sbind.
  rewrite (request_run _ _ _ Hr). by rewrite (proj2 (Z.eqb_neq _ _) Hs).
Qed.

Lemma get_weather_from_text_found city resp data tr :
  http (weather_text_request city) = Some resp -> status_code resp = 200%Z ->
  json_loads (resp_body resp) = Some data ->
  get_weather_from_text city tr = (Ok data, (tr ++ [Http (weather_text_request city)])%list).
Proof.
  intros Hr Hs Hj. unfold get_weather_from_text, weather_of, sbind, resp_json.
  rewrite (request_run _ _ _ Hr), Hs, Hj. done.
Qed.

Lemma get_weather_from_location_not_found location lat lon resp tr :
  py_getitem location "latitude" = Ok lat -> py_getitem location "longitude" = Ok lon ->
  http (weather_loc_request lat lon) = Some resp -> status_code resp <> 200%Z ->
  get_weather_from_location location tr =
    (Ok PNone, (tr ++ [Http (weather_loc_request lat lon)])%list).
Proof.
  intros Hla Hlo Hr Hs. unfold get_weather_from_location, weather_of, sbind, slift.
  rewrite Hla, Hlo, (request_run _ _ _ Hr). by rewrite (proj2 (Z.eqb_neq _ _) Hs).
Qed.

Lemma get_weather_from_location_found location lat lon resp data tr :
  py_getitem location "latitude" = Ok lat -> py_getitem location "longitude" = Ok lon ->
  http (weather_loc_request lat lon) = Some resp -> status_code resp = 200%Z ->
  json_loads (resp_body resp) = Some data ->
  get_weather_from_location location tr =
    (Ok data, (tr ++ [Http (weather_loc_request lat lon)])%list).
Proof.
  intros Hla Hlo Hr Hs Hj. unfold get_weather_from_location, weather_of, sbind, slift, resp_json.
  rewrite Hla, Hlo, (request_run _ _ _ Hr), Hs, Hj. done.
Qed.

Lemma get_file_run file_id resp j result tr :
  http (get_file_request cfg file_id) = Some resp ->
  json_loads (resp_body resp) = Some j -> py_getitem j "result" = Ok result ->
  get_file cfg file_id tr = (Ok result, (tr ++ [Http (get_file_request cfg file_id)])%list).
Proof.
  intros Hr Hj Hres. unfold get_file, sbind, slift, resp_json.
  rewrite (request_run _ _ _ Hr), Hj, Hres. done.
Qed.
End HelperRuns.

(** ** Module import *)

(** C33: importing the module raises [KeyError] when [API_KEY] or
    [API_KEY_VOICE] is unset (every invocation then fails), while an unset
    [TELEGRAM_BOT_TOKEN] is accepted and becomes [None]. *)
Theorem load_config_keys (env : list (string * string)) (k kv : string) :
  (env_get env "API_KEY" = None -> load_config env = Raise (KeyError (PStr "API_KEY"))) /\
  (env_get env "API_KEY" = Some k -> env_get env "API_KEY_VOICE" = None ->
   load_config env = Raise (KeyError (PStr "API_KEY_VOICE"))) /\
  (env_get env "API_KEY" = Some k -> env_get env "API_KEY_VOICE" = Some kv ->
   env_get env "TELEGRAM_BOT_TOKEN" = None ->
   exists cfg, load_config env = Ok cfg /\ TELEGRAM_BOT_TOKEN cfg = None).
Proof.
  unfold load_config, environ_item. repeat split.
  - by intros ->.
  - by intros -> ->.
  - intros -> -> ->. by eexists.
Qed.

Lemma load_config_keys_witness :
  env_get [("API_KEY", "a"); ("API_KEY_VOICE", "b")] "API_KEY" = Some "a" /\
  env_get [("API_KEY", "a"); ("API_KEY_VOICE", "b")] "API_KEY_VOICE" = Some "b" /\
  env_get [("API_KEY", "a"); ("API_KEY_VOICE", "b")] "TELEGRAM_BOT_TOKEN" = None /\
  exists cfg, load_config [("API_KEY", "a"); ("API_KEY_VOICE", "b")] = Ok cfg /\
              TELEGRAM_BOT_TOKEN cfg = None.
Proof.
  split; [reflexivity|]. split; [reflexivity|]. split; [reflexivity|].
  apply (load_config_keys [("API_KEY", "a"); ("API_KEY_VOICE", "b")] "a" "b");
    reflexivity.
Defined.
