(* ===== verification/Handler.v ===== *)
(** * The webhook [handler] (lines 102-239) and its report formatting

    [handler(event, context)] of
    [src/tgbot_weather/spr23-21-tgbot-weather.py], translated statement by
    statement into the monad [M] of [Http]: every subscription, membership
    test and conversion is the [PyValue] operation that raises what CPython
    raises, every network call goes through [request], and the branches
    return [FUNC_RESPONSE] where the code does.  The three branches are
    separate definitions ([text_branch], [voice_branch],
    [location_branch]); [handler] composes them in the code's order (text,
    then voice, then location). *)

From stdpp Require Import base strings list.
From Stdlib Require Import ZArith String Ascii.
From S2P Require Import Prelude PyValue Compass UnixTime Http.
Local Open Scope py_scope.
Local Open Scope string_scope.

Definition nl : string := String "010"%char EmptyString.
Definition sp12 : string := "            ".

(** Lines 139-144 (a triple-quoted literal: its line breaks and the
    indentation of its lines are part of the text). *)
Definition HELP_TEXT : string :=
  nl ++ sp12 ++ nl ++ nl ++
  sp12 ++ "Я могу ответить на:" ++ nl ++
  sp12 ++ "- Текстовое сообщение с названием населенного пункта." ++ nl ++
  sp12 ++ "- Голосовое сообщение с названием населенного пункта." ++ nl ++
  sp12 ++ "- Сообщение с точкой на карте.".

Definition START_TEXT : string := "Я сообщу вам о погоде в том месте, которое сообщите мне.".
Definition TOO_LONG_TEXT : string :=
  "Я не могу понять голосовое сообщение длительность более 30 секунд.".
Definition STT_FAILED_TEXT : string := "Я не смог распознать ваше сообщение".
Definition LOCATION_NOT_FOUND_TEXT : string := "Я не знаю какая погода в этом месте.".

(** Lines 155 and 185. *)
Definition not_found_text `{PyLib} (query : pyval) : string :=
  "Я не нашел населенный пункт " ++ py_str query ++ ".".

(** [v[k1][k2]...] *)
Definition py_path (v : pyval) (ks : list string) : res pyval :=
  foldl (fun acc k => let? x := acc in py_getitem x k) (Ok v) ks.

Section Handler.
Context `{PyLib} `{Net} (cfg : Config) (host : Zone).

(** The f-string of lines 157 and 226, fields evaluated left to right. *)
Definition weather_report (weather_data : pyval) : res string :=
  let? weather := py_getitem weather_data "weather" in
  let? w0 := py_index weather 0 in
  let? description := py_getitem w0 "description" in
  let? temp := py_path weather_data ["main"; "temp"] in
  let? feels_like := py_path weather_data ["main"; "feels_like"] in
  let? pressure := py_path weather_data ["main"; "pressure"] in
  let? humidity := py_path weather_data ["main"; "humidity"] in
  let? visibility := py_getitem weather_data "visibility" in
  let? speed := py_path weather_data ["wind"; "speed"] in
  let? deg := py_path weather_data ["wind"; "deg"] in
  let? direction := degToCompass deg in
  let? sunrise := py_path weather_data ["sys"; "sunrise"] in
  let? sunrise_hm := convertUnixToTime host sunrise in
  let? sunset := py_path weather_data ["sys"; "sunset"] in
  let? sunset_hm := convertUnixToTime host sunset in
  Ok (py_str description ++ "." ++ nl ++
      "Температура " ++ py_str temp ++ " ℃, ощущается как " ++ py_str feels_like ++
      " ℃." ++ nl ++
      "Атмосферное давление " ++ py_str pressure ++ " мм рт. ст." ++ nl ++
      "Влажность " ++ py_str humidity ++ " %." ++ nl ++
      "Видимость " ++ py_str visibility ++ " метров." ++ nl ++
      "Ветер " ++ py_str speed ++ " м/с, направление ветра " ++ direction ++ "." ++ nl ++
      "Восход солнца " ++ sunrise_hm ++ " МСК. Закат " ++ sunset_hm ++ " МСК." ++ nl).

(** Lines 187-189. *)
Definition voice_report (weather_data : pyval) : res string :=
  let? t := py_path weather_data ["main"; "temp"] in
  let? temp := py_int t in
  let? f := py_path weather_data ["main"; "feels_like"] in
  let? feels_like_temp := py_int f in
  let? name := py_getitem weather_data "name" in
  let? weather := py_getitem weather_data "weather" in
  let? w0 := py_index weather 0 in
  let? description := py_getitem w0 "description" in
  let? pressure := py_path weather_data ["main"; "pressure"] in
  let? humidity := py_path weather_data ["main"; "humidity"] in
  Ok ("Населенный пункт " ++ py_str name ++ "." ++ nl ++
      py_str description ++ "." ++ nl ++
      "Температура " ++ z_str temp ++ "." ++ nl ++
      " Ощущается как " ++ z_str feels_like_temp ++ "." ++ nl ++
      "Давление " ++ py_str pressure ++ "." ++ nl ++
      "Влажность " ++ py_str humidity ++ ".").

(** Lines 137-160. *)
Definition text_branch (message_in : pyval) : M pyval :=
  text <- slift (py_getitem message_in "text") ;;
  is_help <- slift (py_in "/help" text) ;;
  if is_help then
    send_message cfg HELP_TEXT message_in ;; sret FUNC_RESPONSE
  else
  is_start <- slift (py_in "/start" text) ;;
  if is_start then
    send_message cfg START_TEXT message_in ;; sret FUNC_RESPONSE
  else
  weather_data <- get_weather_from_text text ;;
  result <- (if is_none weather_data then sret (not_found_text text)
             else slift (weather_report weather_data)) ;;
  send_message cfg result message_in ;;
  sret FUNC_RESPONSE.

(** Lines 194-216, after the recognised text is known: the text is
    encoded (a surrogate raises [UnicodeEncodeError]) and synthesised; on
    success the code calls [.decode] on the [str] [tts_resp.text] (an
    [AttributeError]) before the upload and the voice reply; on failure it
    replies with the stored [speech.ogg].  The [ConfigParser] and the
    boto3 session and bucket objects of lines 196-203 make no call. *)
Definition speak (result : string) (message_in : pyval) : M pyval :=
  encoded_text <- slift (str_encode result) ;;
  tts_resp <- request (tts_request cfg encoded_text) ;;
  if resp_ok tts_resp then
    body <- slift (str_decode (resp_body tts_resp)) ;;
    put_object "speech.raw" body ;;
    send_voice cfg "speech.raw" message_in ;;
    sret FUNC_RESPONSE
  else
    send_voice cfg "speech.ogg" message_in ;;
    sret FUNC_RESPONSE.

(** Lines 162-216. *)
Definition voice_branch (message_in : pyval) : M pyval :=
  voice <- slift (py_getitem message_in "voice") ;;
  duration <- slift (py_getitem voice "duration") ;;
  too_long <- slift (py_gt duration 30) ;;
  if too_long then
    send_message cfg TOO_LONG_TEXT message_in ;; sret FUNC_RESPONSE
  else
  file_id <- slift (py_getitem voice "file_id") ;;
  tg_file <- get_file cfg file_id ;;
  tg_file_path <- slift (py_getitem tg_file "file_path") ;;
  file_resp <- request (download_request cfg (py_str tg_file_path)) ;;
  stt_resp <- request (stt_request cfg (resp_body file_resp)) ;;
  if resp_ok stt_resp then
    j <- slift (resp_json stt_resp) ;;
    city <- slift (py_getitem j "result") ;;
    weather_data <- get_weather_from_text city ;;
    result <- (if is_none weather_data then sret (not_found_text city)
               else slift (voice_report weather_data)) ;;
    speak result message_in
  else
    send_message cfg STT_FAILED_TEXT message_in ;; sret FUNC_RESPONSE.

(** Lines 218-229. *)
Definition location_branch (message_in : pyval) : M pyval :=
  location <- slift (py_getitem message_in "location") ;;
  weather_data <- get_weather_from_location location ;;
  result <- (if is_none weather_data then sret LOCATION_NOT_FOUND_TEXT
             else slift (weather_report weather_data)) ;;
  send_message cfg result message_in ;;
  sret FUNC_RESPONSE.

(** Lines 130-239: the message is classified by its payload tags in the
    code's order; a message with none of them gets no reply. *)
Definition dispatch (message_in : pyval) : M pyval :=
  has_text <- slift (py_in "text" message_in) ;;
  if has_text then text_branch message_in else
  has_voice <- slift (py_in "voice" message_in) ;;
  if has_voice then voice_branch message_in else
  has_location <- slift (py_in "location" message_in) ;;
  if has_location then location_branch message_in else
  sret FUNC_RESPONSE.

(** Lines 102-128. *)
Definition handler (event context : pyval) : M pyval :=
  match TELEGRAM_BOT_TOKEN cfg with
  | None => sret FUNC_RESPONSE
  | Some _ =>
    body <- slift (py_getitem event "body") ;;
    update <- slift (py_json_loads body) ;;
    has_message <- slift (py_in "message" update) ;;
    if negb has_message then sret FUNC_RESPONSE else
    message_in <- slift (py_getitem update "message") ;;
    dispatch message_in
  end.
End Handler.
