(* ===== verification/HandlerProps.v ===== *)
(** * Properties of the webhook [handler]

    Each theorem states one branch of [handler] as an exact run: from any
    trace [tr] of calls already made, the outcome and the calls appended.
    The hypotheses describe the inbound update (through the same Python
    operations the code applies to it) and the answers of the network.
    [delivers event m] says that the event's body parses to an update that
    carries the message [m]. *)

From stdpp Require Import base strings list.
From Stdlib Require Import ZArith QArith String Ascii.
From S2P Require Import Prelude Binary64 PyValue Json FloatRepr Compass UnixTime Http Handler.
Local Open Scope py_scope.
Local Open Scope string_scope.
Local Open Scope list_scope.

Section Props.
Context `{PyLib} `{Net} (cfg : Config) (host : Zone).

Definition delivers (event m : pyval) : Prop :=
  exists body update,
    py_getitem event "body" = Ok body /\ py_json_loads body = Ok update /\
    py_in "message" update = Ok true /\ py_getitem update "message" = Ok m.

(** [m] carries the text [text] (and the text branch is taken). *)
Definition text_of (m text : pyval) : Prop :=
  py_in "text" m = Ok true /\ py_getitem m "text" = Ok text.

(** [m] has no text but the voice [voice]. *)
Definition voice_of (m voice : pyval) : Prop :=
  py_in "text" m = Ok false /\ py_in "voice" m = Ok true /\
  py_getitem m "voice" = Ok voice.

(** [m] has neither text nor voice but the location [loc]. *)
Definition location_of (m loc : pyval) : Prop :=
  py_in "text" m = Ok false /\ py_in "voice" m = Ok false /\
  py_in "location" m = Ok true /\ py_getitem m "location" = Ok loc.

(** The voice message's audio is fetched: [getFile], then the download,
    whose body is [audio]; [calls] are these two calls. *)
Definition fetches_audio (voice : pyval) (audio : string) (calls : list call) : Prop :=
  exists fid fr fj tg fp dr,
    py_getitem voice "file_id" = Ok fid /\
    http (get_file_request cfg fid) = Some fr /\ json_loads (resp_body fr) = Some fj /\
    py_getitem fj "result" = Ok tg /\ py_getitem tg "file_path" = Ok fp /\
    http (download_request cfg (py_str fp)) = Some dr /\ resp_body dr = audio /\
    calls = [Http (get_file_request cfg fid); Http (download_request cfg (py_str fp))].

(** The STT service answers [sr], a success whose JSON has [result] [city]. *)
Definition recognises (sr : http_response) (city : pyval) : Prop :=
  exists sj, resp_ok sr = true /\ json_loads (resp_body sr) = Some sj /\
             py_getitem sj "result" = Ok city.

Lemma handler_delivers tok event ctx m tr :
  TELEGRAM_BOT_TOKEN cfg = Some tok -> delivers event m ->
  handler cfg host event ctx tr = dispatch cfg host m tr.
Proof.
  intros Htok (body & update & Hb & Hl & Hin & Hm).
  unfold handler. try rewrite Htok. unfold sbind at 1. rewrite Hb. cbn.
  unfold sbind at 1. rewrite Hl. cbn. unfold sbind at 1. rewrite Hin. cbn.
  unfold sbind at 1. rewrite Hm. done.
Qed.

Lemma dispatch_text m text tr :
  text_of m text -> dispatch cfg host m tr = text_branch cfg host m tr.
Proof. intros [Hin _]. unfold dispatch, sbind at 1. by rewrite Hin. Qed.

Lemma dispatch_voice m voice tr :
  voice_of m voice -> dispatch cfg host m tr = voice_branch cfg m tr.
Proof.
  intros (Ht & Hv & _). unfold dispatch, sbind at 1. rewrite Ht. cbn.
  unfold sbind at 1. by rewrite Hv.
Qed.

Lemma dispatch_location m loc tr :
  location_of m loc -> dispatch cfg host m tr = location_branch cfg host m tr.
Proof.
  intros (Ht & Hv & Hl & _). unfold dispatch, sbind at 1. rewrite Ht. cbn.
  unfold sbind at 1. rewrite Hv. cbn. unfold sbind at 1. by rewrite Hl.
Qed.
End Props.

(** One step of a run: a lifted pure result, a hypothesis about an
    operation, or a helper whose run lemma applies. *)
Ltac hstep :=
  first
  [ rewrite sbind_lift_ok
  | rewrite sbind_ret_l
  | rewrite sbind_lift_raise
  | match goal with H : ?x = Ok _ |- context [?x] => rewrite H end
  | match goal with H : ?x = Some _ |- context [?x] => rewrite H end
  | match goal with H : ?x = true |- context [?x] => rewrite H end
  | match goal with H : ?x = false |- context [?x] => rewrite H end
  | erewrite sbind_ok by (eapply send_message_run; eassumption)
  | erewrite sbind_ok by (eapply send_voice_run; eassumption)
  | erewrite sbind_ok by (eapply get_weather_from_text_not_found; eassumption)
  | erewrite sbind_ok by (eapply get_weather_from_text_found; eassumption)
  | erewrite sbind_ok by (eapply get_weather_from_location_not_found; eassumption)
  | erewrite sbind_ok by (eapply get_weather_from_location_found; eassumption)
  | erewrite sbind_ok by (eapply get_file_run; eassumption)
  | erewrite sbind_ok by (eapply request_run; eassumption)
  | progress cbn beta iota
  | progress cbn [is_none str_decode] ].

Ltac hrun := repeat hstep; rewrite <- ?app_assoc; try reflexivity.

Section Branches.
Context `{PyLib} `{Net} (cfg : Config) (host : Zone).

(** C7: without a bot token the handler acknowledges at once, whatever
    the event, and makes no call. *)
Theorem handler_no_token event ctx tr :
  TELEGRAM_BOT_TOKEN cfg = None ->
  handler cfg host event ctx tr = (Ok FUNC_RESPONSE, tr).
Proof. intros Htok. unfold handler. by rewrite Htok. Qed.

(** C8: an update without a [message] is acknowledged with no call. *)
Theorem handler_no_message tok event ctx body update tr :
  TELEGRAM_BOT_TOKEN cfg = Some tok ->
  py_getitem event "body" = Ok body -> py_json_loads body = Ok update ->
  py_in "message" update = Ok false ->
  handler cfg host event ctx tr = (Ok FUNC_RESPONSE, tr).
Proof. intros Htok Hb Hl Hin. unfold handler. rewrite Htok. hrun. Qed.

(** C10: a text containing [/help] gets exactly the fixed help text as a
    reply to the message, and no other call is made (no weather query). *)
Theorem handler_help tok event ctx m text cid mid r tr :
  TELEGRAM_BOT_TOKEN cfg = Some tok -> delivers event m -> text_of m text ->
  py_in "/help" text = Ok true ->
  reply_target m = Ok (cid, mid) ->
  http (send_message_request cfg cid HELP_TEXT mid) = Some r ->
  handler cfg host event ctx tr =
    (Ok FUNC_RESPONSE, tr ++ [Http (send_message_request cfg cid HELP_TEXT mid)]).
Proof.
  intros Htok Hd Ht Hh Hrt Hr.
  rewrite (handler_delivers _ _ _ _ _ _ _ Htok Hd), (dispatch_text _ _ _ _ _ Ht).
  destruct Ht as [_ Ht]. unfold text_branch. hrun.
Qed.

(** C11: a text containing [/start] (and not [/help]) gets exactly the
    fixed greeting, with no weather query. *)
Theorem handler_start tok event ctx m text cid mid r tr :
  TELEGRAM_BOT_TOKEN cfg = Some tok -> delivers event m -> text_of m text ->
  py_in "/help" text = Ok false -> py_in "/start" text = Ok true ->
  reply_target m = Ok (cid, mid) ->
  http (send_message_request cfg cid START_TEXT mid) = Some r ->
  handler cfg host event ctx tr =
    (Ok FUNC_RESPONSE, tr ++ [Http (send_message_request cfg cid START_TEXT mid)]).
Proof.
  intros Htok Hd Ht Hh Hs Hrt Hr.
  rewrite (handler_delivers _ _ _ _ _ _ _ Htok Hd), (dispatch_text _ _ _ _ _ Ht).
  destruct Ht as [_ Ht]. unfold text_branch. hrun.
Qed.

(** C9: a message with none of the tags [text], [voice], [location] is
    acknowledged with no reply and no call. *)
Theorem handler_untagged tok event ctx m tr :
  TELEGRAM_BOT_TOKEN cfg = Some tok -> delivers event m ->
  py_in "text" m = Ok false -> py_in "voice" m = Ok false ->
  py_in "location" m = Ok false ->
  handler cfg host event ctx tr = (Ok FUNC_RESPONSE, tr).
Proof.
  intros Htok Hd Ht Hv Hl. rewrite (handler_delivers _ _ _ _ _ _ _ Htok Hd).
  unfold dispatch. hrun.
Qed.

(** C12: a place name the weather service does not know (any status
    other than 200) gets the reply [Я не нашел населенный пункт <text>.]
    after exactly one weather query for the text. *)
Theorem handler_text_not_found tok event ctx m text cid mid wr r tr :
  TELEGRAM_BOT_TOKEN cfg = Some tok -> delivers event m -> text_of m text ->
  py_in "/help" text = Ok false -> py_in "/start" text = Ok false ->
  http (weather_text_request text) = Some wr -> status_code wr <> 200%Z ->
  reply_target m = Ok (cid, mid) ->
  http (send_message_request cfg cid (not_found_text text) mid) = Some r ->
  handler cfg host event ctx tr =
    (Ok FUNC_RESPONSE, tr ++ [Http (weather_text_request text);
                              Http (send_message_request cfg cid (not_found_text text) mid)]).
Proof.
  intros Htok Hd Ht Hh Hs Hw Hst Hrt Hr.
  rewrite (handler_delivers _ _ _ _ _ _ _ Htok Hd), (dispatch_text _ _ _ _ _ Ht).
  destruct Ht as [_ Ht]. unfold text_branch. hrun.
Qed.

(** C13: a place name the weather service knows gets the formatted
    report of the returned data as its reply, after one weather query. *)
Theorem handler_text_found tok event ctx m text cid mid wr data report r tr :
  TELEGRAM_BOT_TOKEN cfg = Some tok -> delivers event m -> text_of m text ->
  py_in "/help" text = Ok false -> py_in "/start" text = Ok false ->
  http (weather_text_request text) = Some wr -> status_code wr = 200%Z ->
  json_loads (resp_body wr) = Some data -> is_none data = false ->
  weather_report host data = Ok report ->
  reply_target m = Ok (cid, mid) ->
  http (send_message_request cfg cid report mid) = Some r ->
  handler cfg host event ctx tr =
    (Ok FUNC_RESPONSE, tr ++ [Http (weather_text_request text);
                              Http (send_message_request cfg cid report mid)]).
Proof.
  intros Htok Hd Ht Hh Hs Hw Hst Hj Hn Hrep Hrt Hr.
  rewrite (handler_delivers _ _ _ _ _ _ _ Htok Hd), (dispatch_text _ _ _ _ _ Ht).
  destruct Ht as [_ Ht]. unfold text_branch. hrun.
Qed.

(** C14: a voice message longer than 30 seconds gets the fixed "too
      long" text; the audio is not fetched and no STT call is made. *)
Theorem handler_voice_too_long tok event ctx m voice d cid mid r tr :
  TELEGRAM_BOT_TOKEN cfg = Some tok -> delivers event m -> voice_of m voice ->
  py_getitem voice "duration" = Ok d -> py_gt d 30 = Ok true ->
  reply_target m = Ok (cid, mid) ->
  http (send_message_request cfg cid TOO_LONG_TEXT mid) = Some r ->
  handler cfg host event ctx tr =
    (Ok FUNC_RESPONSE, tr ++ [Http (send_message_request cfg cid TOO_LONG_TEXT mid)]).
Proof.
  intros Htok Hd Hv Hdu Hg Hrt Hr.
  rewrite (handler_delivers _ _ _ _ _ _ _ Htok Hd), (dispatch_voice _ _ _ _ _ Hv).
  destruct Hv as (_ & _ & Hv). unfold voice_branch. hrun.
Qed.

(** C15: when speech recognition fails, the reply is the fixed "could
      not understand" text; no weather query and no TTS call is made. *)
Theorem handler_voice_stt_failed tok event ctx m voice d audio cs sr cid mid r tr :
  TELEGRAM_BOT_TOKEN cfg = Some tok -> delivers event m -> voice_of m voice ->
  py_getitem voice "duration" = Ok d -> py_gt d 30 = Ok false ->
  fetches_audio cfg voice audio cs ->
  http (stt_request cfg audio) = Some sr -> resp_ok sr = false ->
  reply_target m = Ok (cid, mid) ->
  http (send_message_request cfg cid STT_FAILED_TEXT mid) = Some r ->
  handler cfg host event ctx tr =
    (Ok FUNC_RESPONSE, tr ++ cs ++ [Http (stt_request cfg audio);
                                    Http (send_message_request cfg cid STT_FAILED_TEXT mid)]).
Proof.
  intros Htok Hd Hv Hdu Hg Hf Hs Hok Hrt Hr.
  rewrite (handler_delivers _ _ _ _ _ _ _ Htok Hd), (dispatch_voice _ _ _ _ _ Hv).
  destruct Hv as (_ & _ & Hv).
  destruct Hf as (fid & fr & fj & tg & fp & dr & Hfid & Hfr & Hfj & Htg & Hfp & Hdr & <- & ->).
  unfold voice_branch. hrun.
Qed.
(** C16: when speech synthesis succeeds, the handler raises
    [AttributeError]: [tts_resp.text] is a [str], which has no
    [decode].  Nothing is uploaded and no reply is sent; the platform
    sees an error and redelivers the update.  When the report holds a
    surrogate (a lone [\uD8xx] escape in the data), [encode('utf-8')]
    raises [UnicodeEncodeError] already, before the TTS call. *)
Theorem handler_voice_tts_ok_raises tok event ctx m voice d audio cs sr city wr data
        result ttr tr :
  TELEGRAM_BOT_TOKEN cfg = Some tok -> delivers event m -> voice_of m voice ->
  py_getitem voice "duration" = Ok d -> py_gt d 30 = Ok false ->
  fetches_audio cfg voice audio cs ->
  http (stt_request cfg audio) = Some sr -> recognises sr city ->
  http (weather_text_request city) = Some wr -> status_code wr = 200%Z ->
  json_loads (resp_body wr) = Some data -> is_none data = false ->
  voice_report data = Ok result ->
  http (tts_request cfg result) = Some ttr -> resp_ok ttr = true ->
  handler cfg host event ctx tr =
    if has_surrogate result then
      (Raise UnicodeEncodeError,
       tr ++ cs ++ [Http (stt_request cfg audio); Http (weather_text_request city)])
    else
      (Raise (AttributeError "decode"),
       tr ++ cs ++ [Http (stt_request cfg audio); Http (weather_text_request city);
                    Http (tts_request cfg result)]).
Proof.
  intros Htok Hd Hv Hdu Hg Hf Hs [sj (Hok & Hsj & Hcity)] Hw Hst Hj Hn Hrep Htts Htok'.
  rewrite (handler_delivers _ _ _ _ _ _ _ Htok Hd), (dispatch_voice _ _ _ _ _ Hv).
  destruct Hv as (_ & _ & Hv).
  destruct Hf as (fid & fr & fj & tg & fp & dr & Hfid & Hfr & Hfj & Htg & Hfp & Hdr & <- & ->).
  unfold voice_branch, speak, resp_json, str_encode.
  hrun. destruct (has_surrogate result); hrun.
Qed.

(** C17: when speech synthesis fails, the reply is a voice message
    pointing at the stored [speech.ogg], not a text; here after a place
    the weather service does not know.  A recognised text with a
    surrogate raises [UnicodeEncodeError] before the TTS call instead. *)
Theorem handler_voice_tts_failed tok event ctx m voice d audio cs sr city wr ttr
        cid mid r tr :
  TELEGRAM_BOT_TOKEN cfg = Some tok -> delivers event m -> voice_of m voice ->
  py_getitem voice "duration" = Ok d -> py_gt d 30 = Ok false ->
  fetches_audio cfg voice audio cs ->
  http (stt_request cfg audio) = Some sr -> recognises sr city ->
  http (weather_text_request city) = Some wr -> status_code wr <> 200%Z ->
  http (tts_request cfg (not_found_text city)) = Some ttr -> resp_ok ttr = false ->
  reply_target m = Ok (cid, mid) ->
  http (send_voice_request cfg cid "speech.ogg" mid) = Some r ->
  handler cfg host event ctx tr =
    if has_surrogate (not_found_text city) then
      (Raise UnicodeEncodeError,
       tr ++ cs ++ [Http (stt_request cfg audio); Http (weather_text_request city)])
    else
      (Ok FUNC_RESPONSE,
       tr ++ cs ++ [Http (stt_request cfg audio); Http (weather_text_request city);
                    Http (tts_request cfg (not_found_text city));
                    Http (send_voice_request cfg cid "speech.ogg" mid)]).
Proof.
  intros Htok Hd Hv Hdu Hg Hf Hs [sj (Hok & Hsj & Hcity)] Hw Hst Htts Htok' Hrt Hr.
  rewrite (handler_delivers _ _ _ _ _ _ _ Htok Hd), (dispatch_voice _ _ _ _ _ Hv).
  destruct Hv as (_ & _ & Hv).
  destruct Hf as (fid & fr & fj & tg & fp & dr & Hfid & Hfr & Hfj & Htg & Hfp & Hdr & <- & ->).
  unfold voice_branch, speak, resp_json, str_encode.
  hrun. destruct (has_surrogate (not_found_text city)); hrun.
Qed.

(** C18: a location the weather service does not know gets the fixed
    location-specific text, distinct from the place-name message. *)
Theorem handler_location_not_found tok event ctx m loc lat lon wr cid mid r tr :
  TELEGRAM_BOT_TOKEN cfg = Some tok -> delivers event m -> location_of m loc ->
  py_getitem loc "latitude" = Ok lat -> py_getitem loc "longitude" = Ok lon ->
  http (weather_loc_request lat lon) = Some wr -> status_code wr <> 200%Z ->
  reply_target m = Ok (cid, mid) ->
  http (send_message_request cfg cid LOCATION_NOT_FOUND_TEXT mid) = Some r ->
  handler cfg host event ctx tr =
    (Ok FUNC_RESPONSE, tr ++ [Http (weather_loc_request lat lon);
                              Http (send_message_request cfg cid LOCATION_NOT_FOUND_TEXT mid)]).
Proof.
  intros Htok Hd Hl Hla Hlo Hw Hst Hrt Hr.
  rewrite (handler_delivers _ _ _ _ _ _ _ Htok Hd), (dispatch_location _ _ _ _ _ Hl).
  destruct Hl as (_ & _ & _ & Hl). unfold location_branch. hrun.
Qed.

(** C19: a known location gets the same formatted report as a place
    name, after one coordinate query. *)
Theorem handler_location_found tok event ctx m loc lat lon wr data report cid mid r tr :
  TELEGRAM_BOT_TOKEN cfg = Some tok -> delivers event m -> location_of m loc ->
  py_getitem loc "latitude" = Ok lat -> py_getitem loc "longitude" = Ok lon ->
  http (weather_loc_request lat lon) = Some wr -> status_code wr = 200%Z ->
  json_loads (resp_body wr) = Some data -> is_none data = false ->
  weather_report host data = Ok report ->
  reply_target m = Ok (cid, mid) ->
  http (send_message_request cfg cid report mid) = Some r ->
  handler cfg host event ctx tr =
    (Ok FUNC_RESPONSE, tr ++ [Http (weather_loc_request lat lon);
                              Http (send_message_request cfg cid report mid)]).
Proof.
  intros Htok Hd Hl Hla Hlo Hw Hst Hj Hn Hrep Hrt Hr.
  rewrite (handler_delivers _ _ _ _ _ _ _ Htok Hd), (dispatch_location _ _ _ _ _ Hl).
  destruct Hl as (_ & _ & _ & Hl). unfold location_branch. hrun.
Qed.

(** C20: a body that is not JSON makes the handler raise
    [JSONDecodeError] (the spec asks for an acknowledgement); the
    platform redelivers such an update. *)
Theorem handler_bad_json_raises tok event ctx s tr :
  TELEGRAM_BOT_TOKEN cfg = Some tok ->
  py_getitem event "body" = Ok (PStr s) -> json_loads s = None ->
  handler cfg host event ctx tr = (Raise JSONDecodeError, tr).
Proof.
  intros Htok Hb Hl. unfold handler, py_json_loads. rewrite Htok, Hb.
  cbn [sbind slift]. by rewrite Hl.
Qed.
End Branches.

(** ** Concrete runs

    The library functions are CPython's as modelled ([cpython]: the JSON
    decoder of [Json], the [repr] of [FloatRepr]).  The update bodies and
    the service answers are JSON texts, written by [dumps] from the values
    they stand for, and the network answers like the real services for the
    city "Moscow", the audio of file [good] and the coordinates
    (55.75, 37.62).  Each witness applies one theorem above to such a run. *)
Module Demo.
(** [json.dumps(v, ensure_ascii=False)] for the test values, whose
    strings hold no quote, backslash or control character. *)
Fixpoint dumps (v : pyval) : string :=
  let qs := fun k => String dquote (k ++ String dquote EmptyString)%string in
  match v with
  | PNone => "null"
  | PBool true => "true"
  | PBool false => "false"
  | PInt z => z_str z
  | PFloat q => float_repr_q q
  | PStr t => qs t
  | PList l =>
      ("[" ++ (fix go (l : list pyval) : string :=
                match l with
                | [] => ""
                | [x] => dumps x
                | x :: l' => (dumps x ++ ", " ++ go l')%string
                end) l ++ "]")%string
  | PDict items =>
      ("{" ++ (fix go (items : list (string * pyval)) : string :=
                match items with
                | [] => ""
                | [(k, x)] => (qs k ++ ": " ++ dumps x)%string
                | (k, x) :: items' => (qs k ++ ": " ++ dumps x ++ ", " ++ go items')%string
                end) items ++ "}")%string
  end.

Definition ids : list (string * pyval) := [("message_id", PInt 7); ("chat", PDict [("id", PInt 42)])].
Definition msg_text (t : string) : pyval := PDict (ids ++ [("text", PStr t)]).
Definition msg_voice (dur : Z) (fid : string) : pyval :=
  PDict (ids ++ [("voice", PDict [("duration", PInt dur); ("file_id", PStr fid)])]).
Definition msg_loc (lat lon : Q) : pyval :=
  PDict (ids ++ [("location", PDict [("latitude", PFloat lat); ("longitude", PFloat lon)])]).
Definition update (m : pyval) : pyval := PDict [("update_id", PInt 1); ("message", m)].

Definition w_moscow : pyval :=
  PDict [("weather", PList [PDict [("description", PStr "пасмурно")]]);
         ("main", PDict [("temp", PFloat (-7 # 2)); ("feels_like", PFloat (-8 # 1));
                         ("pressure", PInt 1012); ("humidity", PInt 85)]);
         ("visibility", PInt 10000);
         ("wind", PDict [("speed", PInt 4); ("deg", PInt 200)]);
         ("sys", PDict [("sunrise", PInt 1700000000); ("sunset", PInt 1700030000)]);
         ("name", PStr "Москва")].

Definition getfile (fid : string) : pyval :=
  PDict [("ok", PBool true); ("result", PDict [("file_id", PStr fid);
                                              ("file_path", PStr ("voice/" ++ fid ++ ".oga"))])].

Definition bodies : list (string * pyval) :=
  [("u_help", update (msg_text "/help")); ("u_start", update (msg_text "/start"));
   ("u_moscow", update (msg_text "Moscow")); ("u_atlantis", update (msg_text "Atlantis"));
   ("u_sticker", update (PDict (ids ++ [("sticker", PDict [])])));
   ("u_edited", PDict [("update_id", PInt 2); ("edited_message", msg_text "Moscow")]);
   ("u_voice_long", update (msg_voice 31 "good")); ("u_voice_noise", update (msg_voice 10 "noise"));
   ("u_voice_moscow", update (msg_voice 10 "good"));
   ("u_voice_atlantis", update (msg_voice 10 "good2"));
   ("u_loc_known", update (msg_loc (223 # 4) (to_double (3762 # 100))));
   ("u_loc_sea", update (msg_loc (0 # 1) (0 # 1)));
   ("w_moscow", w_moscow);
   ("getfile_good", getfile "good"); ("getfile_good2", getfile "good2");
   ("getfile_noise", getfile "noise");
   ("stt_good", PDict [("result", PStr "Moscow")]);
   ("stt_good2", PDict [("result", PStr "Atlantis")])].

#[local] Instance demo_lib : PyLib := cpython.

Definition dict_get_def (items : list (string * pyval)) (k : string) : pyval :=
  match dict_get items k with Some v => v | None => PNone end.

(** The JSON text of the test value [name]. *)
Definition body (name : string) : string := dumps (dict_get_def bodies name).

Definition event_raw (b : string) : pyval := PDict [("httpMethod", PStr "POST"); ("body", PStr b)].
Definition event (name : string) : pyval := event_raw (body name).

Definition resp (code : Z) (body : string) : http_response :=
  {| status_code := code; resp_body := body |}.

Definition cfg : Config :=
  {| TELEGRAM_BOT_TOKEN := Some "123:ABC"; API_KEY := "k1"; API_KEY_VOICE := "k2";
     AWS_ACCESS_KEY_ID := None; AWS_SECRET_ACCESS_KEY := None |}.

Definition owm (params : list (string * pyval)) : http_response :=
  match params with
  | ("q", PStr city) :: _ => if String.eqb city "Moscow" then resp 200 (body "w_moscow") else resp 404 ""
  | ("lat", PFloat lat) :: _ => if Qeq_bool lat (5575 # 100) then resp 200 (body "w_moscow") else resp 404 ""
  | _ => resp 400 ""
  end.

Definition demo_http (r : http_request) : option http_response :=
  Some (
    if String.eqb (req_url r) OWM_URL then owm (req_params r)
    else if String.eqb (req_url r) STT_URL then
      match req_body r with
      | DataBody a => if String.eqb a "audio_good" then resp 200 (body "stt_good")
                      else if String.eqb a "audio_good2" then resp 200 (body "stt_good2")
                      else resp 500 ""
      | _ => resp 400 ""
      end
    else if String.eqb (req_url r) TTS_URL then
      match req_body r with
      | FormBody [("text", t)] =>
          if str_contains "не нашел" t then resp 500 "" else resp 200 "OggS"
      | _ => resp 400 ""
      end
    else if String.eqb (req_url r) (TELEGRAM_API_URL cfg ++ "/getFile") then
      match req_body r with
      | JsonBody (PDict [("file_id", PStr fid)]) => resp 200 (body ("getfile_" ++ fid))
      | _ => resp 400 ""
      end
    else if str_contains "/file/bot" (req_url r) then
      (if str_contains "good2" (req_url r) then resp 200 "audio_good2"
       else if str_contains "good" (req_url r) then resp 200 "audio_good"
       else resp 200 "noise")
    else resp 200 "ok").

#[local] Instance demo_net : Net := {| http := demo_http; s3_put := fun _ _ _ => true |}.

Definition moscow_report : string :=
  "пасмурно." ++ nl ++
  "Температура -3.5 ℃, ощущается как -8.0 ℃." ++ nl ++
  "Атмосферное давление 1012 мм рт. ст." ++ nl ++
  "Влажность 85 %." ++ nl ++
  "Видимость 10000 метров." ++ nl ++
  "Ветер 4 м/с, направление ветра СВ." ++ nl ++
  "Восход солнца 01:13 МСК. Закат 09:33 МСК." ++ nl.

Definition moscow_voice_text : string :=
  "Населенный пункт Москва." ++ nl ++ "пасмурно." ++ nl ++ "Температура -3." ++ nl ++
  " Ощущается как -8." ++ nl ++ "Давление 1012." ++ nl ++ "Влажность 85.".

Definition ok : http_response := resp 200 "ok".
Definition send (text : string) : call := Http (send_message_request cfg (PInt 42) text (PInt 7)).

(** [delivers] of a test event: its body and the update it decodes to. *)
Ltac deliv := match goal with
              | |- delivers (event ?n) _ =>
                  exists (PStr (body n)), (dict_get_def bodies n);
                  split_and!; vm_compute; reflexivity
              end.
(** An equation of the run: its open side is the value of the other. *)
Ltac eval_eq := match goal with
                | |- ?l = ?r => has_evar r; let v := eval vm_compute in l in unify r v;
                                vm_compute; reflexivity
                | |- _ = _ => vm_compute; reflexivity
                end.
Ltac wit := solve [ deliv | eval_eq | match goal with |- _ <> _ => vm_compute; congruence end
                  | repeat eexists; split_and!; eval_eq ].
Definition cfg_no_token : Config :=
  {| TELEGRAM_BOT_TOKEN := None; API_KEY := "k1"; API_KEY_VOICE := "k2";
     AWS_ACCESS_KEY_ID := None; AWS_SECRET_ACCESS_KEY := None |}.

Definition good_audio_calls (fid : string) : list call :=
  [Http (get_file_request cfg (PStr fid));
   Http (download_request cfg ("voice/" ++ fid ++ ".oga"))].

Lemma handler_no_token_witness :
  handler cfg_no_token utc_zone (event "u_help") PNone [] = (Ok FUNC_RESPONSE, []).
Proof. apply (handler_no_token cfg_no_token utc_zone (event "u_help") PNone []). wit. Defined.

Lemma handler_no_message_witness :
  handler cfg utc_zone (event "u_edited") PNone [] = (Ok FUNC_RESPONSE, []).
Proof.
  apply (handler_no_message cfg utc_zone "123:ABC" (event "u_edited") PNone
           (PStr (body "u_edited")) (dict_get_def bodies "u_edited") []); wit.
Defined.

Lemma handler_untagged_witness :
  handler cfg utc_zone (event "u_sticker") PNone [] = (Ok FUNC_RESPONSE, []).
Proof.
  apply (handler_untagged cfg utc_zone "123:ABC" (event "u_sticker") PNone
           (PDict (ids ++ [("sticker", PDict [])])) []); wit.
Defined.

Lemma handler_help_witness :
  handler cfg utc_zone (event "u_help") PNone [] = (Ok FUNC_RESPONSE, [send HELP_TEXT]).
Proof.
  apply (handler_help cfg utc_zone "123:ABC" (event "u_help") PNone (msg_text "/help")
           (PStr "/help") (PInt 42) (PInt 7) ok []); wit.
Defined.

Lemma handler_start_witness :
  handler cfg utc_zone (event "u_start") PNone [] = (Ok FUNC_RESPONSE, [send START_TEXT]).
Proof.
  apply (handler_start cfg utc_zone "123:ABC" (event "u_start") PNone (msg_text "/start")
           (PStr "/start") (PInt 42) (PInt 7) ok []); wit.
Defined.

Lemma handler_text_not_found_witness :
  handler cfg utc_zone (event "u_atlantis") PNone [] =
    (Ok FUNC_RESPONSE, [Http (weather_text_request (PStr "Atlantis"));
                        send "Я не нашел населенный пункт Atlantis."]).
Proof.
  apply (handler_text_not_found cfg utc_zone "123:ABC" (event "u_atlantis") PNone
           (msg_text "Atlantis") (PStr "Atlantis") (PInt 42) (PInt 7) (resp 404 "") ok []); wit.
Defined.

Lemma handler_text_found_witness :
  handler cfg utc_zone (event "u_moscow") PNone [] =
    (Ok FUNC_RESPONSE, [Http (weather_text_request (PStr "Moscow")); send moscow_report]).
Proof.
  apply (handler_text_found cfg utc_zone "123:ABC" (event "u_moscow") PNone
           (msg_text "Moscow") (PStr "Moscow") (PInt 42) (PInt 7) (resp 200 (body "w_moscow"))
           w_moscow moscow_report ok []); wit.
Defined.

Lemma handler_voice_too_long_witness :
  handler cfg utc_zone (event "u_voice_long") PNone [] =
    (Ok FUNC_RESPONSE, [send TOO_LONG_TEXT]).
Proof.
  apply (handler_voice_too_long cfg utc_zone "123:ABC" (event "u_voice_long") PNone
           (msg_voice 31 "good") (PDict [("duration", PInt 31); ("file_id", PStr "good")])
           (PInt 31) (PInt 42) (PInt 7) ok []); wit.
Defined.

Lemma handler_voice_stt_failed_witness :
  handler cfg utc_zone (event "u_voice_noise") PNone [] =
    (Ok FUNC_RESPONSE, good_audio_calls "noise" ++
                       [Http (stt_request cfg "noise"); send STT_FAILED_TEXT]).
Proof.
  apply (handler_voice_stt_failed cfg utc_zone "123:ABC" (event "u_voice_noise") PNone
           (msg_voice 10 "noise") (PDict [("duration", PInt 10); ("file_id", PStr "noise")])
           (PInt 10) "noise" (good_audio_calls "noise") (resp 500 "") (PInt 42) (PInt 7)
           ok []); wit.
Defined.

Lemma handler_voice_tts_ok_raises_witness :
  handler cfg utc_zone (event "u_voice_moscow") PNone [] =
    (Raise (AttributeError "decode"),
     good_audio_calls "good" ++
     [Http (stt_request cfg "audio_good"); Http (weather_text_request (PStr "Moscow"));
      Http (tts_request cfg moscow_voice_text)]).
Proof.
  rewrite (handler_voice_tts_ok_raises cfg utc_zone "123:ABC" (event "u_voice_moscow") PNone
           (msg_voice 10 "good") (PDict [("duration", PInt 10); ("file_id", PStr "good")])
           (PInt 10) "audio_good" (good_audio_calls "good") (resp 200 (body "stt_good"))
           (PStr "Moscow") (resp 200 (body "w_moscow")) w_moscow moscow_voice_text
           (resp 200 "OggS") []); [|wit..].
  by rewrite (eq_refl : has_surrogate moscow_voice_text = false).
Defined.

Lemma handler_voice_tts_failed_witness :
  handler cfg utc_zone (event "u_voice_atlantis") PNone [] =
    (Ok FUNC_RESPONSE,
     good_audio_calls "good2" ++
     [Http (stt_request cfg "audio_good2"); Http (weather_text_request (PStr "Atlantis"));
      Http (tts_request cfg "Я не нашел населенный пункт Atlantis.");
      Http (send_voice_request cfg (PInt 42) "speech.ogg" (PInt 7))]).
Proof.
  rewrite (handler_voice_tts_failed cfg utc_zone "123:ABC" (event "u_voice_atlantis") PNone
           (msg_voice 10 "good2") (PDict [("duration", PInt 10); ("file_id", PStr "good2")])
           (PInt 10) "audio_good2" (good_audio_calls "good2") (resp 200 (body "stt_good2"))
           (PStr "Atlantis") (resp 404 "") (resp 500 "") (PInt 42) (PInt 7) ok []); [|wit..].
  by rewrite (eq_refl : has_surrogate (not_found_text (PStr "Atlantis")) = false).
Defined.

Lemma handler_location_not_found_witness :
  handler cfg utc_zone (event "u_loc_sea") PNone [] =
    (Ok FUNC_RESPONSE, [Http (weather_loc_request (PFloat (0 # 1)) (PFloat (0 # 1)));
                        send LOCATION_NOT_FOUND_TEXT]).
Proof.
  apply (handler_location_not_found cfg utc_zone "123:ABC" (event "u_loc_sea") PNone
           (msg_loc (0 # 1) (0 # 1)) (PDict [("latitude", PFloat (0 # 1)); ("longitude", PFloat (0 # 1))])
           (PFloat (0 # 1)) (PFloat (0 # 1)) (resp 404 "") (PInt 42) (PInt 7) ok []); wit.
Defined.

Lemma handler_location_found_witness :
  handler cfg utc_zone (event "u_loc_known") PNone [] =
    (Ok FUNC_RESPONSE, [Http (weather_loc_request (PFloat (223 # 4)) (PFloat (to_double (3762 # 100))));
                        send moscow_report]).
Proof.
  apply (handler_location_found cfg utc_zone "123:ABC" (event "u_loc_known") PNone
           (msg_loc (223 # 4) (to_double (3762 # 100)))
           (PDict [("latitude", PFloat (223 # 4)); ("longitude", PFloat (to_double (3762 # 100)))])
           (PFloat (223 # 4)) (PFloat (to_double (3762 # 100))) (resp 200 (body "w_moscow")) w_moscow
           moscow_report (PInt 42) (PInt 7) ok []); wit.
Defined.

Lemma handler_bad_json_raises_witness :
  handler cfg utc_zone (event_raw "{not json") PNone [] = (Raise JSONDecodeError, []).
Proof. apply (handler_bad_json_raises cfg utc_zone "123:ABC" (event_raw "{not json") PNone "{not json" []); wit. Defined.
End Demo.
