(* ===== verification/HandlerInv.v ===== *)
(** * The dispatcher's contract over all inputs

    Where [HandlerProps] runs [handler] on each branch under hypotheses on
    the network's answers, this file proves what holds on every run, for
    every event, network ([Net]), configuration and host: the outbound
    calls, read as replies of the Telegram Bot API by [reply_of], are at
    most one; each is addressed to the chat of the message the update
    carries and threaded to that message; its content is one the contract
    of spec sections 3 and 4.1 assigns to the message's payload tag
    ([reply_spec]); and a normal return of [handler] is always the
    acknowledgement [FUNC_RESPONSE].

    The proofs compose the budget rules of [Trace] along the code: each
    helper of [Http] gets a [spec] (silent calls, one reply), each branch
    of [Handler] is proved from them, and [handler] from the branches.

    The file also shows that [dispatch] is the classification by priority
    [first_tag] of the spec, that a text message is answered exactly once
    on a network that answers, and that a report that cannot be formatted
    propagates its exception instead; the modules [DemoRuns] and
    [DemoNoVisibility] run these theorems on concrete instances. *)

From stdpp Require Import base strings list.
From Stdlib Require Import ZArith String.
From S2P Require Import Prelude Trace Binary64 PyValue FloatRepr UnixTime Http Handler HandlerProps.
Local Open Scope py_scope.
Local Open Scope string_scope.

(** ** Replies as the messaging platform sees them *)

(** [OutboundReply] of the spec (section 3). *)
Inductive reply : Type :=
| TextReply (text : string)
| VoiceReply (url : string).

(** The Bot API reads a POST to [<api>/sendMessage] with a JSON body
    [{chat_id, text, reply_to_message_id}] as a text reply, and one to
    [<api>/sendVoice] with [{chat_id, voice, reply_to_message_id}] as a
    voice reply; every other call is not a reply. *)
Definition reply_of (cfg : Config) (c : call) : option (pyval * pyval * reply) :=
  match c with
  | Http r =>
      match req_body r with
      | JsonBody (PDict [(k1, cid); (k2, PStr v); (k3, mid)]) =>
          if String.eqb k1 "chat_id" && String.eqb k3 "reply_to_message_id" then
            if String.eqb k2 "text" then
              if String.eqb (req_url r) (TELEGRAM_API_URL cfg ++ "/" ++ "sendMessage")
              then Some (cid, mid, TextReply v) else None
            else if String.eqb k2 "voice" then
              if String.eqb (req_url r) (TELEGRAM_API_URL cfg ++ "/" ++ "sendVoice")
              then Some (cid, mid, VoiceReply v) else None
            else None
          else None
      | _ => None
      end
  | PutObject _ _ _ => None
  end.

(** The content the contract assigns to a reply to message [m], by payload
    tag in the priority order text, voice, location (spec section 4.1).
    A weather report is the formatting of whatever data [d] the weather
    service returned. *)
Inductive reply_spec `{PyLib} (host : Zone) (m : pyval) : reply -> Prop :=
| rs_help t :
    py_in "text" m = Ok true -> py_getitem m "text" = Ok t -> py_in "/help" t = Ok true ->
    reply_spec host m (TextReply HELP_TEXT)
| rs_start t :
    py_in "text" m = Ok true -> py_getitem m "text" = Ok t -> py_in "/help" t = Ok false ->
    py_in "/start" t = Ok true ->
    reply_spec host m (TextReply START_TEXT)
| rs_text_not_found t :
    py_in "text" m = Ok true -> py_getitem m "text" = Ok t -> py_in "/help" t = Ok false ->
    py_in "/start" t = Ok false ->
    reply_spec host m (TextReply (not_found_text t))
| rs_text_report t d s :
    py_in "text" m = Ok true -> py_getitem m "text" = Ok t -> py_in "/help" t = Ok false ->
    py_in "/start" t = Ok false -> weather_report host d = Ok s ->
    reply_spec host m (TextReply s)
| rs_too_long v d :
    py_in "text" m = Ok false -> py_in "voice" m = Ok true ->
    py_getitem m "voice" = Ok v -> py_getitem v "duration" = Ok d -> py_gt d 30 = Ok true ->
    reply_spec host m (TextReply TOO_LONG_TEXT)
| rs_stt_failed v d :
    py_in "text" m = Ok false -> py_in "voice" m = Ok true ->
    py_getitem m "voice" = Ok v -> py_getitem v "duration" = Ok d -> py_gt d 30 = Ok false ->
    reply_spec host m (TextReply STT_FAILED_TEXT)
| rs_voice v d key :
    py_in "text" m = Ok false -> py_in "voice" m = Ok true ->
    py_getitem m "voice" = Ok v -> py_getitem v "duration" = Ok d -> py_gt d 30 = Ok false ->
    key = "speech.raw" \/ key = "speech.ogg" ->
    reply_spec host m (VoiceReply (voice_url key))
| rs_location_not_found :
    py_in "text" m = Ok false -> py_in "voice" m = Ok false -> py_in "location" m = Ok true ->
    reply_spec host m (TextReply LOCATION_NOT_FOUND_TEXT)
| rs_location_report d s :
    py_in "text" m = Ok false -> py_in "voice" m = Ok false -> py_in "location" m = Ok true ->
    weather_report host d = Ok s ->
    reply_spec host m (TextReply s).

(** A reply answers [m]: addressed to [m]'s chat, threaded to [m], with
    the content of the contract. *)
Definition answers `{PyLib} (host : Zone) (m : pyval) (b : pyval * pyval * reply) : Prop :=
  reply_target m = Ok (b.1.1, b.1.2) /\ reply_spec host m b.2.

(** [m] is the message of the update [event] carries. *)
Definition message_of `{PyLib} (event m : pyval) : Prop :=
  exists body update, py_getitem event "body" = Ok body /\ py_json_loads body = Ok update /\
                      py_in "message" update = Ok true /\ py_getitem update "message" = Ok m.

(** ** Classification by priority (spec section 4.1) *)

(** The payload tags of spec section 3. *)
Inductive tag : Type := TText | TVoice | TLocation.

(** The priority order of spec section 4.1, step 3. *)
Definition priority : list (string * tag) :=
  [("text", TText); ("voice", TVoice); ("location", TLocation)].

(** The reference classification: the first tag of [tags] present in the
    message, found by Python's [in] (which raises on a non-container). *)
Fixpoint first_tag (m : pyval) (tags : list (string * tag)) : res (option tag) :=
  match tags with
  | [] => Ok None
  | (k, t) :: rest => let? b := py_in k m in if b then Ok (Some t) else first_tag m rest
  end.

(** The branch that handles a tag; no tag is acknowledged without reply. *)
Definition branch_of `{PyLib} `{Net} (cfg : Config) (host : Zone) (t : option tag)
           (m : pyval) : M pyval :=
  match t with
  | Some TText => text_branch cfg host m
  | Some TVoice => voice_branch cfg m
  | Some TLocation => location_branch cfg host m
  | None => sret FUNC_RESPONSE
  end.

(** ** The calls, read as replies *)

Section Calls.
Context (cfg : Config).

Lemma reply_of_send_message cid text mid :
  reply_of cfg (Http (send_message_request cfg cid text mid)) = Some (cid, mid, TextReply text).
Proof. unfold reply_of. cbn. by rewrite String.eqb_refl. Qed.

Lemma reply_of_send_voice cid file mid :
  reply_of cfg (Http (send_voice_request cfg cid file mid)) =
    Some (cid, mid, VoiceReply (voice_url file)).
Proof. unfold reply_of. cbn. by rewrite String.eqb_refl. Qed.

Lemma reply_of_owm params : reply_of cfg (Http (owm_request params)) = None.
Proof. reflexivity. Qed.

Lemma reply_of_get_file fid : reply_of cfg (Http (get_file_request cfg fid)) = None.
Proof. reflexivity. Qed.

Lemma reply_of_download path : reply_of cfg (Http (download_request cfg path)) = None.
Proof. reflexivity. Qed.

Lemma reply_of_stt audio : reply_of cfg (Http (stt_request cfg audio)) = None.
Proof. reflexivity. Qed.

Lemma reply_of_tts text : reply_of cfg (Http (tts_request cfg text)) = None.
Proof. reflexivity. Qed.
End Calls.

#[export] Hint Resolve reply_of_owm reply_of_get_file reply_of_download reply_of_stt
  reply_of_tts : spec.

(** ** Specs of the helpers *)

Section HelperSpecs.
Context `{PyLib} `{Net} (cfg : Config).

Lemma request_spec n G r :
  reply_of cfg (Http r) = None -> spec (reply_of cfg) n G (fun _ => True) (request r).
Proof. intros Hf. unfold request. destruct (http r); by apply spec_silent. Qed.

Lemma put_object_spec n G key body :
  spec (reply_of cfg) n G (fun _ => True) (put_object key body).
Proof. unfold put_object. by apply spec_silent; [|destruct (s3_put _ _ _)]. Qed.

Lemma weather_of_spec n G resp :
  spec (reply_of cfg) n G (fun _ => True) (weather_of resp).
Proof.
  unfold weather_of. destruct (_ =? _)%Z; [|by apply spec_ret].
  eapply spec_weaken; [done..|apply spec_lift].
Qed.

Lemma get_weather_from_text_spec n G city :
  spec (reply_of cfg) n G (fun _ => True) (get_weather_from_text city).
Proof.
  eapply spec_bind0; [by apply request_spec|]. intros resp _. apply weather_of_spec.
Qed.

Lemma get_weather_from_location_spec n G location :
  spec (reply_of cfg) n G (fun _ => True) (get_weather_from_location location).
Proof.
  eapply spec_bind0; [apply spec_lift|]. intros lat _.
  eapply spec_bind0; [apply spec_lift|]. intros lon _.
  eapply spec_bind0; [by apply request_spec|]. intros resp _. apply weather_of_spec.
Qed.

Lemma get_file_spec n G fid :
  spec (reply_of cfg) n G (fun _ => True) (get_file cfg fid).
Proof.
  eapply spec_bind0; [by apply request_spec|]. intros resp _.
  eapply spec_bind0; [apply spec_lift|]. intros j _.
  eapply spec_weaken; [done..|apply spec_lift].
Qed.

(** The one call of [send_message] is a text reply to the target of
    [message]. *)
Lemma send_message_spec n G text message :
  1 <= n ->
  (forall cid mid, reply_target message = Ok (cid, mid) -> G (cid, mid, TextReply text)) ->
  spec (reply_of cfg) n G (fun _ => True) (send_message cfg text message).
Proof.
  intros Hn HG. eapply spec_bind0; [apply spec_lift|]. intros [cid mid] Hrt.
  eapply spec_bind_r; [|intros; by apply spec_ret].
  cbn [fst snd]. unfold request. destruct (http _);
    (eapply spec_item; [apply reply_of_send_message|by apply HG|lia|exact I]).
Qed.

Lemma send_voice_spec n G file message :
  1 <= n ->
  (forall cid mid, reply_target message = Ok (cid, mid) ->
                   G (cid, mid, VoiceReply (voice_url file))) ->
  spec (reply_of cfg) n G (fun _ => True) (send_voice cfg file message).
Proof.
  intros Hn HG. eapply spec_bind0; [apply spec_lift|]. intros [cid mid] Hrt.
  eapply spec_bind_r; [|intros; by apply spec_ret].
  cbn [fst snd]. unfold request. destruct (http _);
    (eapply spec_item; [apply reply_of_send_voice|by apply HG|lia|exact I]).
Qed.
End HelperSpecs.

(** ** Specs of the branches *)

Section BranchSpecs.
Context `{PyLib} `{Net} (cfg : Config) (host : Zone).

(** The acknowledgement the function returns to the platform. *)
Definition ack (v : pyval) : Prop := v = FUNC_RESPONSE.

(** The last two statements of every answering path: one reply, then the
    acknowledgement. *)
Lemma send_message_answers text m :
  reply_spec host m (TextReply text) ->
  spec (reply_of cfg) 1 (answers host m) ack (send_message cfg text m ;; sret FUNC_RESPONSE).
Proof.
  intros Hs. eapply spec_bind_r; [|intros; by apply spec_ret].
  apply send_message_spec; [done|]. intros cid mid Hrt. by split.
Qed.

Lemma send_voice_answers file m :
  reply_spec host m (VoiceReply (voice_url file)) ->
  spec (reply_of cfg) 1 (answers host m) ack (send_voice cfg file m ;; sret FUNC_RESPONSE).
Proof.
  intros Hs. eapply spec_bind_r; [|intros; by apply spec_ret].
  apply send_voice_spec; [done|]. intros cid mid Hrt. by split.
Qed.

(** [result <- (if is_none d then sret a else slift (f d))]: the result is
    [a] or a value [f] computed. *)
Lemma result_spec n G (a : string) (f : pyval -> res string) d :
  spec (reply_of cfg) n G (fun s => s = a \/ exists d', f d' = Ok s)
    (if is_none d then sret a else slift (f d)).
Proof.
  destruct (is_none d); [by apply spec_ret; left|].
  eapply spec_weaken; [done..| |apply spec_lift]. intros s Hs. right. by exists d.
Qed.

Ltac lift_step x H := eapply spec_bind0; [apply spec_lift|]; intros x H; cbv beta in H.
Ltac lift_test H := eapply spec_bind0; [apply spec_lift|]; intros [] H; cbv beta in H.

Lemma text_branch_spec m :
  py_in "text" m = Ok true ->
  spec (reply_of cfg) 1 (answers host m) ack (text_branch cfg host m).
Proof.
  intros Htag. unfold text_branch.
  lift_step t Ht. lift_test Hh.
  { apply send_message_answers. by eapply rs_help. }
  lift_test Hs.
  { apply send_message_answers. by eapply rs_start. }
  eapply spec_bind0; [apply get_weather_from_text_spec|]. intros wd _.
  eapply spec_bind0; [apply result_spec|]. intros s [->|[d Hd]]; apply send_message_answers.
  - by eapply rs_text_not_found.
  - by eapply rs_text_report.
Qed.

Lemma speak_spec result m :
  (forall key, key = "speech.raw" \/ key = "speech.ogg" ->
               reply_spec host m (VoiceReply (voice_url key))) ->
  spec (reply_of cfg) 1 (answers host m) ack (speak cfg result m).
Proof.
  intros Hs. unfold speak.
  lift_step encoded E0.
  eapply spec_bind0; [by apply request_spec, reply_of_tts|]. intros tts _.
  destruct (resp_ok tts).
  - lift_step body E1. eapply spec_bind0; [apply put_object_spec|]. intros _ _.
    apply send_voice_answers. by apply Hs; left.
  - apply send_voice_answers. by apply Hs; right.
Qed.

Lemma voice_branch_spec m :
  py_in "text" m = Ok false -> py_in "voice" m = Ok true ->
  spec (reply_of cfg) 1 (answers host m) ack (voice_branch cfg m).
Proof.
  intros Ht Hv. unfold voice_branch.
  lift_step voice Hvo. lift_step d Hd. lift_test Hgt.
  { apply send_message_answers. by eapply rs_too_long. }
  lift_step fid E2. eapply spec_bind0; [apply get_file_spec|]. intros tg _.
  lift_step path E3.
  eapply spec_bind0; [by apply request_spec, reply_of_download|]. intros file _.
  eapply spec_bind0; [by apply request_spec, reply_of_stt|]. intros stt _.
  destruct (resp_ok stt).
  - lift_step j E4. lift_step city E5.
    eapply spec_bind0; [apply get_weather_from_text_spec|]. intros wd _.
    eapply spec_bind0; [apply result_spec|]. intros s _.
    apply speak_spec. intros key Hkey. by eapply rs_voice.
  - apply send_message_answers. by eapply rs_stt_failed.
Qed.

Lemma location_branch_spec m :
  py_in "text" m = Ok false -> py_in "voice" m = Ok false -> py_in "location" m = Ok true ->
  spec (reply_of cfg) 1 (answers host m) ack (location_branch cfg host m).
Proof.
  intros Ht Hv Hl. unfold location_branch.
  lift_step loc E6. eapply spec_bind0; [apply get_weather_from_location_spec|]. intros wd _.
  eapply spec_bind0; [apply result_spec|]. intros s [->|[d Hd]]; apply send_message_answers.
  - by apply rs_location_not_found.
  - by eapply rs_location_report.
Qed.

Lemma dispatch_spec m :
  spec (reply_of cfg) 1 (answers host m) ack (dispatch cfg host m).
Proof.
  unfold dispatch. lift_test Ht; [by apply text_branch_spec|].
  lift_test Hv; [by apply voice_branch_spec|].
  lift_test Hl; [by apply location_branch_spec|]. by apply spec_ret.
Qed.

(** The whole handler: every reply answers the message of the update. *)
Lemma handler_spec event context :
  spec (reply_of cfg) 1 (fun b => exists m, message_of event m /\ answers host m b) ack
    (handler cfg host event context).
Proof.
  unfold handler. destruct (TELEGRAM_BOT_TOKEN cfg); [|by apply spec_ret].
  lift_step body Hb. lift_step update Hu. lift_test Hin; cbn [negb]; [|by apply spec_ret].
  lift_step m Hm.
  eapply spec_weaken with (G := answers host m) (R := ack); [done| |done|apply dispatch_spec].
  intros b Hans. exists m. split; [|done]. by exists body, update.
Qed.
End BranchSpecs.

(** ** The contract on every run of [handler] *)

Section Contract.
Context `{PyLib} `{Net} (cfg : Config) (host : Zone).

(** [reply_target] reads [message['message_id']] and [message['chat']['id']]. *)
Lemma reply_target_fields m cid mid :
  reply_target m = Ok (cid, mid) ->
  exists chat, py_getitem m "message_id" = Ok mid /\ py_getitem m "chat" = Ok chat /\
               py_getitem chat "id" = Ok cid.
Proof.
  unfold reply_target.
  destruct (py_getitem m "message_id") as [mid'|] eqn:E1; [|done]. cbn [obind].
  destruct (py_getitem m "chat") as [chat|] eqn:E2; [|done]. cbn [obind].
  destruct (py_getitem chat "id") as [cid'|] eqn:E3; [|done]. cbn [obind].
  intros [= <- <-]. eauto.
Qed.

(** A reply among the calls a run appends answers the update's message. *)
Lemma handler_reply_answers event context tr ext b :
  (handler cfg host event context tr).2 = (tr ++ ext)%list -> b ∈ omap (reply_of cfg) ext ->
  exists m, message_of event m /\ answers host m b.
Proof.
  intros Hrun Hb.
  destruct (spec_run _ _ _ _ _ tr (handler_spec cfg host event context))
    as (ext' & Hrun' & _ & HF & _).
  rewrite Hrun in Hrun'. apply app_inv_head in Hrun' as <-.
  by eapply Forall_forall in HF; [|exact Hb].
Qed.

(** C1: every run of [handler], whatever the event, the configuration,
    the host and the network's answers (failures included), appends at
    most one reply (a [sendMessage] or [sendVoice] call) to the calls made
    before, and removes none of them. *)
Theorem handler_at_most_one_reply event context tr :
  exists ext, (handler cfg host event context tr).2 = (tr ++ ext)%list /\
              List.length (omap (reply_of cfg) ext) <= 1.
Proof.
  destruct (spec_run _ _ _ _ _ tr (handler_spec cfg host event context))
    as (ext & Hrun & Hlen & _). eauto.
Qed.

(** C2: every reply the handler sends is addressed to the chat of the
    message carried by the update it handles ([message['chat']['id']]) and
    threaded to that message ([message['message_id']]). *)
Theorem handler_replies_addressed event context tr ext cid mid rp :
  (handler cfg host event context tr).2 = (tr ++ ext)%list ->
  (cid, mid, rp) ∈ omap (reply_of cfg) ext ->
  exists m chat, message_of event m /\ py_getitem m "message_id" = Ok mid /\
                 py_getitem m "chat" = Ok chat /\ py_getitem chat "id" = Ok cid.
Proof.
  intros Hrun Hb. destruct (handler_reply_answers _ _ _ _ _ Hrun Hb) as (m & Hm & Ht & _).
  destruct (reply_target_fields _ _ _ Ht) as (chat & ?). eauto.
Qed.

(** C3: the handler refines the contract of the dispatcher (spec sections
    3 and 4.1): the content of every reply is the one [reply_spec] assigns
    to the message's first payload tag (text, voice, location): the help
    text, the greeting, the place-not-found text or a weather report for a
    text; the too-long text, the not-understood text or a voice file of
    the bucket for a voice message; the location-not-found text or a
    weather report for a location. *)
Theorem handler_refines_reply_spec event context tr ext cid mid rp :
  (handler cfg host event context tr).2 = (tr ++ ext)%list ->
  (cid, mid, rp) ∈ omap (reply_of cfg) ext ->
  exists m, message_of event m /\ reply_spec host m rp.
Proof.
  intros Hrun Hb. destruct (handler_reply_answers _ _ _ _ _ Hrun Hb) as (m & Hm & _ & Hs).
  eauto.
Qed.

(** C4: whenever the handler returns normally, it returns the
    acknowledgement [{'statusCode': 200, 'body': ''}], on every path. *)
Theorem handler_acknowledges event context tr v :
  (handler cfg host event context tr).1 = Ok v -> ack v.
Proof.
  intros Hv. destruct (spec_run _ _ _ _ _ tr (handler_spec cfg host event context))
    as (_ & _ & _ & _ & Hok). by rewrite Hv in Hok.
Qed.
End Contract.

(** ** The classification *)

(** C6: equivalence of [dispatch]'s chain of [if]s (lines 130-239) with
    the reference classification by priority: the message goes to the
    branch of the first tag among text, voice, location that it has, to
    none without a tag, and an exception of a membership test propagates
    in both. *)
Theorem dispatch_by_priority `{PyLib} `{Net} (cfg : Config) (host : Zone) (m : pyval)
        (tr : list call) :
  dispatch cfg host m tr =
    sbind (slift (first_tag m priority)) (fun t => branch_of cfg host t m) tr.
Proof.
  unfold dispatch, priority, sbind, slift. cbn [first_tag].
  destruct (py_in "text" m) as [[]|e]; cbn [obind]; [done| |done].
  destruct (py_in "voice" m) as [[]|e]; cbn [obind]; [done| |done].
  by destruct (py_in "location" m) as [[]|e].
Qed.

(** ** Every text message is answered *)

Section Liveness.
Context `{PyLib} `{Net} (cfg : Config) (host : Zone).

Lemma replies_none (calls : list call) :
  Forall (fun c => reply_of cfg c = None) calls -> omap (reply_of cfg) calls = [].
Proof. induction 1 as [|c calls Hc _ IH]; [done|]. simpl. by rewrite Hc. Qed.

(** Calls that are not replies, then one reply. *)
Lemma replies_last (calls : list call) (c : call) (b : pyval * pyval * reply) :
  Forall (fun c' => reply_of cfg c' = None) calls -> reply_of cfg c = Some b ->
  List.length (omap (reply_of cfg) (calls ++ [c])%list) = 1.
Proof.
  intros Hcalls Hc. rewrite omap_app, length_app, replies_none by done. simpl. by rewrite Hc.
Qed.
(** A run that ends in one reply, after calls that are not replies. *)
Ltac answered :=
  eexists; split;
  [hrun; rewrite ?py_in_str; hrun
  | first [eapply (replies_last []) | eapply (replies_last [_])];
    [repeat constructor | apply reply_of_send_message]].

(** The weather service's answers with status 200 to the bot's queries,
    by place name or by coordinates, are JSON the report is formatted
    from. *)
Definition weather_formats : Prop :=
  forall r wr,
    ((exists city, r = weather_text_request city) \/
     (exists lat lon, r = weather_loc_request lat lon)) ->
    http r = Some wr -> status_code wr = 200%Z ->
    exists data report, json_loads (resp_body wr) = Some data /\ is_none data = false /\
                        weather_report host data = Ok report.

(** A message the bot answers from the weather service: a text, or a
    location with both coordinates. *)
Definition weather_message (m : pyval) : Prop :=
  (exists str, text_of m (PStr str)) \/
  (exists loc lat lon, location_of m loc /\ py_getitem loc "latitude" = Ok lat /\
                       py_getitem loc "longitude" = Ok lon).

Lemma text_message_answered tok event ctx m str cid mid tr :
  net_reliable -> weather_formats ->
  TELEGRAM_BOT_TOKEN cfg = Some tok -> delivers event m -> text_of m (PStr str) ->
  reply_target m = Ok (cid, mid) ->
  exists ext, handler cfg host event ctx tr = (Ok FUNC_RESPONSE, (tr ++ ext)%list) /\
              List.length (omap (reply_of cfg) ext) = 1.
Proof.
  intros Hnet Hw Htok Hd Ht Hrt.
  rewrite (handler_delivers _ _ _ _ _ _ _ Htok Hd), (dispatch_text _ _ _ _ _ Ht).
  destruct Ht as [_ Ht]. unfold text_branch.
  destruct (str_contains "/help" str) eqn:Hh.
  { destruct (Hnet (send_message_request cfg cid HELP_TEXT mid)) as [r Hr]. answered. }
  destruct (str_contains "/start" str) eqn:Hs.
  { destruct (Hnet (send_message_request cfg cid START_TEXT mid)) as [r Hr]. answered. }
  destruct (Hnet (weather_text_request (PStr str))) as [wr Hwr].
  destruct (Z.eq_dec (status_code wr) 200) as [H200|H200].
  - destruct (Hw _ wr (or_introl (ex_intro _ _ eq_refl)) Hwr H200) as (data & report & Hj & Hn & Hrep).
    destruct (Hnet (send_message_request cfg cid report mid)) as [r Hr]. answered.
  - destruct (Hnet (send_message_request cfg cid (not_found_text (PStr str)) mid)) as [r Hr].
    answered.
Qed.

Lemma location_message_answered tok event ctx m loc lat lon cid mid tr :
  net_reliable -> weather_formats ->
  TELEGRAM_BOT_TOKEN cfg = Some tok -> delivers event m -> location_of m loc ->
  py_getitem loc "latitude" = Ok lat -> py_getitem loc "longitude" = Ok lon ->
  reply_target m = Ok (cid, mid) ->
  exists ext, handler cfg host event ctx tr = (Ok FUNC_RESPONSE, (tr ++ ext)%list) /\
              List.length (omap (reply_of cfg) ext) = 1.
Proof.
  intros Hnet Hw Htok Hd Hl Hla Hlo Hrt.
  rewrite (handler_delivers _ _ _ _ _ _ _ Htok Hd), (dispatch_location _ _ _ _ _ Hl).
  destruct Hl as (_ & _ & _ & Hl). unfold location_branch.
  destruct (Hnet (weather_loc_request lat lon)) as [wr Hwr].
  destruct (Z.eq_dec (status_code wr) 200) as [H200|H200].
  - destruct (Hw _ wr (or_intror (ex_intro _ lat (ex_intro _ lon eq_refl))) Hwr H200)
      as (data & report & Hj & Hn & Hrep).
    destruct (Hnet (send_message_request cfg cid report mid)) as [r Hr]. answered.
  - destruct (Hnet (send_message_request cfg cid LOCATION_NOT_FOUND_TEXT mid)) as [r Hr].
    answered.
Qed.

(** C5: liveness of the handler for the messages answered from the weather
    service: on a network that answers every request, and whose weather
    service sends, with status 200, data the report can be formatted
    from, every text message and every location message with a chat and a
    message id gets exactly one reply, and the handler acknowledges it,
    whatever the text ([/help], [/start], a known or an unknown place) or
    the coordinates.  (A voice message is not answered on a successful
    TTS response: C16.) *)
Theorem handler_answered tok event ctx m cid mid tr :
  net_reliable -> weather_formats ->
  TELEGRAM_BOT_TOKEN cfg = Some tok -> delivers event m -> weather_message m ->
  reply_target m = Ok (cid, mid) ->
  exists ext, handler cfg host event ctx tr = (Ok FUNC_RESPONSE, (tr ++ ext)%list) /\
              List.length (omap (reply_of cfg) ext) = 1.
Proof.
  intros Hnet Hw Htok Hd [[str Ht]|(loc & lat & lon & Hl & Hla & Hlo)] Hrt.
  - exact (text_message_answered tok event ctx m str cid mid tr Hnet Hw Htok Hd Ht Hrt).
  - exact (location_message_answered tok event ctx m loc lat lon cid mid tr
             Hnet Hw Htok Hd Hl Hla Hlo Hrt).
Qed.
(** C34: the limit of C5: when the weather service answers 200 with data
    the report cannot be formatted from (a field it reads is missing, e.g.
    [visibility], or [wind.deg] when there is no wind), the exception of
    the formatting propagates out of [handler] after the weather query and
    no reply is sent, against "no exceptions propagate to the caller of
    the handler" (spec section 7). *)
Theorem handler_text_report_raises tok event ctx m text wr data e tr :
  TELEGRAM_BOT_TOKEN cfg = Some tok -> message_of event m -> text_of m text ->
  py_in "/help" text = Ok false -> py_in "/start" text = Ok false ->
  http (weather_text_request text) = Some wr -> status_code wr = 200%Z ->
  json_loads (resp_body wr) = Some data -> is_none data = false ->
  weather_report host data = Raise e ->
  handler cfg host event ctx tr = (Raise e, (tr ++ [Http (weather_text_request text)])%list).
Proof.
  intros Htok Hd Ht Hh Hs Hw Hst Hj Hn Hrep.
  rewrite (handler_delivers _ _ _ _ _ _ _ Htok Hd), (dispatch_text _ _ _ _ _ Ht).
  destruct Ht as [_ Ht]. unfold text_branch. hrun. rewrite Hrep. hrun.
Qed.
End Liveness.

(** ** Runs on the test instances of [HandlerProps.Demo] *)

Module DemoRuns.
Import HandlerProps.Demo.
#[local] Existing Instances demo_lib demo_net.

Lemma handler_replies_addressed_witness :
  (handler cfg utc_zone (event "u_moscow") PNone []).2 =
    ([] ++ (handler cfg utc_zone (event "u_moscow") PNone []).2)%list /\
  (PInt 42, PInt 7, TextReply moscow_report) ∈
    omap (reply_of cfg) (handler cfg utc_zone (event "u_moscow") PNone []).2 /\
  exists m chat, message_of (event "u_moscow") m /\ py_getitem m "message_id" = Ok (PInt 7) /\
                 py_getitem m "chat" = Ok chat /\ py_getitem chat "id" = Ok (PInt 42).
Proof.
  assert (Hin : (PInt 42, PInt 7, TextReply moscow_report) ∈
    omap (reply_of cfg) (handler cfg utc_zone (event "u_moscow") PNone []).2).
  { vm_compute. left. }
  split; [reflexivity|]. split; [exact Hin|].
  exact (handler_replies_addressed cfg utc_zone _ _ [] _ _ _ _ eq_refl Hin).
Defined.
Lemma handler_refines_reply_spec_witness :
  (handler cfg utc_zone (event "u_voice_atlantis") PNone []).2 =
    ([] ++ (handler cfg utc_zone (event "u_voice_atlantis") PNone []).2)%list /\
  (PInt 42, PInt 7, VoiceReply (voice_url "speech.ogg")) ∈
    omap (reply_of cfg) (handler cfg utc_zone (event "u_voice_atlantis") PNone []).2 /\
  exists m, message_of (event "u_voice_atlantis") m /\
            reply_spec utc_zone m (VoiceReply (voice_url "speech.ogg")).
Proof.
  assert (Hin : (PInt 42, PInt 7, VoiceReply (voice_url "speech.ogg")) ∈
    omap (reply_of cfg) (handler cfg utc_zone (event "u_voice_atlantis") PNone []).2).
  { vm_compute. left. }
  split; [reflexivity|]. split; [exact Hin|].
  exact (handler_refines_reply_spec cfg utc_zone _ _ [] _ _ _ _ eq_refl Hin).
Defined.

Lemma handler_acknowledges_witness :
  (handler cfg utc_zone (event "u_loc_sea") PNone []).1 = Ok FUNC_RESPONSE /\
  FUNC_RESPONSE = FUNC_RESPONSE.
Proof.
  assert (Hv : (handler cfg utc_zone (event "u_loc_sea") PNone []).1 = Ok FUNC_RESPONSE)
    by (vm_compute; reflexivity).
  split; [exact Hv|]. exact (handler_acknowledges cfg utc_zone _ _ [] _ Hv).
Defined.
(** Every weather answer of the test network formats. *)
Lemma demo_weather_formats : weather_formats utc_zone.
Proof.
  assert (Hfmt : exists data report, json_loads (resp_body (resp 200 (body "w_moscow"))) = Some data /\
                   is_none data = false /\ weather_report utc_zone data = Ok report).
  { exists w_moscow, moscow_report. split_and!; vm_compute; reflexivity. }
  intros r wr [[c ->]|(la & lo & ->)] Hr H200.
  - change (Some (owm [("q", c)]) = Some wr) in Hr. injection Hr as <-.
    destruct c; try discriminate H200. cbn [owm] in *.
    destruct (String.eqb s "Moscow"); [exact Hfmt|discriminate H200].
  - change (Some (owm [("lat", la); ("lon", lo)]) = Some wr) in Hr. injection Hr as <-.
    destruct la; try discriminate H200. cbn [owm] in *.
    destruct (QArith_base.Qeq_bool q _); [exact Hfmt|discriminate H200].
Qed.

Definition loc_known : pyval :=
  msg_loc (QArith_base.Qmake 223 4) (to_double (QArith_base.Qmake 3762 100)).

Lemma handler_answered_witness :
  net_reliable /\ weather_formats utc_zone /\
  TELEGRAM_BOT_TOKEN cfg = Some "123:ABC" /\
  delivers (event "u_loc_known") loc_known /\ weather_message loc_known /\
  reply_target loc_known = Ok (PInt 42, PInt 7) /\
  exists ext, handler cfg utc_zone (event "u_loc_known") PNone [] =
                (Ok FUNC_RESPONSE, ([] ++ ext)%list) /\
              List.length (omap (reply_of cfg) ext) = 1.
Proof.
  assert (Hnet : net_reliable) by (intros r; eexists; reflexivity).
  assert (Hd : delivers (event "u_loc_known") loc_known) by deliv.
  assert (Hm : weather_message loc_known)
    by (right; do 3 eexists; unfold location_of; split_and!; eval_eq).
  assert (Hrt : reply_target loc_known = Ok (PInt 42, PInt 7)) by (vm_compute; reflexivity).
  split_and!; try assumption; [exact demo_weather_formats|reflexivity|].
  exact (handler_answered cfg utc_zone "123:ABC" _ PNone _ _ _ []
           Hnet demo_weather_formats eq_refl Hd Hm Hrt).
Defined.
End DemoRuns.

(** A weather service whose answer has no [visibility]. *)
Module DemoNoVisibility.
Import HandlerProps.Demo.

Definition w_novis : pyval :=
  PDict [("weather", PList [PDict [("description", PStr "ясно")]]);
         ("main", PDict [("temp", PInt 20); ("feels_like", PInt 19);
                         ("pressure", PInt 1015); ("humidity", PInt 40)]);
         ("wind", PDict [("speed", PInt 1); ("deg", PInt 90)]);
         ("sys", PDict [("sunrise", PInt 1700000000); ("sunset", PInt 1700030000)]);
         ("name", PStr "Москва")].

#[local] Instance novis_lib : PyLib := cpython.

#[local] Instance novis_net : Net :=
  {| http := fun r => if String.eqb (req_url r) OWM_URL then Some (resp 200 (dumps w_novis))
                      else demo_http r;
     s3_put := fun _ _ _ => true |}.

Lemma handler_text_report_raises_witness :
  TELEGRAM_BOT_TOKEN cfg = Some "123:ABC" /\
  delivers (event "u_moscow") (msg_text "Moscow") /\
  text_of (msg_text "Moscow") (PStr "Moscow") /\
  py_in "/help" (PStr "Moscow") = Ok false /\ py_in "/start" (PStr "Moscow") = Ok false /\
  http (weather_text_request (PStr "Moscow")) = Some (resp 200 (dumps w_novis)) /\
  status_code (resp 200 (dumps w_novis)) = 200%Z /\
  json_loads (resp_body (resp 200 (dumps w_novis))) = Some w_novis /\ is_none w_novis = false /\
  weather_report utc_zone w_novis = Raise (KeyError (PStr "visibility")) /\
  handler cfg utc_zone (event "u_moscow") PNone [] =
    (Raise (KeyError (PStr "visibility")), ([] ++ [Http (weather_text_request (PStr "Moscow"))])%list).
Proof.
  assert (Hd : delivers (event "u_moscow") (msg_text "Moscow")) by wit.
  assert (Ht : text_of (msg_text "Moscow") (PStr "Moscow")) by wit.
  assert (Hrep : weather_report utc_zone w_novis = Raise (KeyError (PStr "visibility")))
    by (vm_compute; reflexivity).
  pose proof (handler_text_report_raises cfg utc_zone "123:ABC" _ PNone _ _ (resp 200 (dumps w_novis))
           w_novis _ [] eq_refl Hd Ht eq_refl eq_refl eq_refl eq_refl eq_refl eq_refl Hrep) as Hrun.
  split_and!; try assumption; reflexivity.
Defined.
End DemoNoVisibility.
