(* ===== verification/UrlQuote.v ===== *)
(** * Object URLs: [urllib.parse.quote] and its inverse

    [src/task.py] lines 60-63 and 73-76 print the URL of an object as
    [f"https://storage.yandexcloud.net/{bucket}/{urllib.parse.quote(key)}"].
    [quote(s)] (default [safe='/']) encodes [s] as UTF-8 and keeps the
    bytes that are ASCII letters, digits, [_.-~] or [/]; every other byte
    becomes [%XX] with two upper-case hex digits.  [unquote] reverses it.
    The bot's [send_voice] (line 90) builds the same kind of URL without
    quoting; for the two keys it uses, quoting changes nothing. *)

From stdpp Require Import base strings list.
From Stdlib Require Import Arith ZArith String Ascii.
From S2P Require Import Prelude PyValue Http.
Local Open Scope string_scope.
Local Open Scope nat_scope.

Definition in_str (c : ascii) (s : string) : bool :=
  existsb (Ascii.eqb c) (list_ascii_of_string s).

(** [_ALWAYS_SAFE]: ASCII letters, digits and [_.-~]. *)
Definition always_safe (c : ascii) : bool :=
  let n := nat_of_ascii c in
  ((65 <=? n) && (n <=? 90)) || ((97 <=? n) && (n <=? 122)) ||
  ((48 <=? n) && (n <=? 57)) || in_str c "_.-~".

Definition hex_upper (d : nat) : ascii :=
  ascii_of_nat (if d <? 10 then 48 + d else 55 + d).

Definition percent (c : ascii) : string :=
  let n := nat_of_ascii c in
  String "%" (String (hex_upper (n / 16)) (String (hex_upper (n mod 16)) EmptyString)).

Fixpoint quote_with (safe : string) (s : string) : string :=
  match s with
  | EmptyString => EmptyString
  | String c s' =>
      (if always_safe c || in_str c safe then String c EmptyString else percent c)
        ++ quote_with safe s'
  end.

(** [urllib.parse.quote(s)] *)
Definition quote (s : string) : string := quote_with "/" s.

(** A hex digit, upper or lower case. *)
Definition hex_val (c : ascii) : option nat :=
  let n := nat_of_ascii c in
  if (48 <=? n) && (n <=? 57) then Some (n - 48)
  else if (65 <=? n) && (n <=? 70) then Some (n - 55)
  else if (97 <=? n) && (n <=? 102) then Some (n - 87)
  else None.

(** [urllib.parse.unquote] on bytes: [%XX] with two hex digits is the byte
    [XX]; any other [%] is kept. *)
Fixpoint unquote (s : string) : string :=
  match s with
  | EmptyString => EmptyString
  | String c rest =>
      if Ascii.eqb c "%" then
        match rest with
        | String h1 (String h2 rest') =>
            match hex_val h1, hex_val h2 with
            | Some a, Some b => String (ascii_of_nat (16 * a + b)) (unquote rest')
            | _, _ => String c (unquote rest)
            end
        | _ => String c (unquote rest)
        end
      else String c (unquote rest)
  end.

Definition STORAGE_HOST : string := "https://storage.yandexcloud.net/".

(** Lines 63 and 76. *)
Definition object_url (bucket key : string) : string :=
  STORAGE_HOST ++ bucket ++ "/" ++ quote key.

(** No byte outside ASCII and no space. *)
Definition url_clean (s : string) : bool :=
  forallb (fun c => (nat_of_ascii c <? 128) && negb (Ascii.eqb c " "))
          (list_ascii_of_string s).

(** ** Lemmas *)

Lemma hex_val_upper (d : nat) : d < 16 -> hex_val (hex_upper d) = Some d.
Proof.
  intros Hd.
  do 16 (destruct d as [|d]; [reflexivity|]). lia.
Qed.

Lemma percent_decodes (c : ascii) (t : string) :
  unquote (percent c ++ t) = String c (unquote t).
Proof.
  unfold percent. rewrite !str_app_cons, str_app_nil_l. cbn [unquote Ascii.eqb Bool.eqb andb].
  pose proof (nat_ascii_bounded c) as Hc.
  rewrite !hex_val_upper by (apply Nat.mod_upper_bound || apply Nat.Div0.div_lt_upper_bound; lia).
  f_equal. rewrite <- (Nat.div_mod_eq (nat_of_ascii c) 16). apply ascii_nat_embedding.
Qed.

Lemma percent_not_safe_slash (c : ascii) :
  always_safe c || in_str c "/" = true -> Ascii.eqb c "%" = false.
Proof.
  destruct (Ascii.eqb_spec c "%") as [->|]; [|done]. by vm_compute.
Qed.

Lemma url_clean_app (a b : string) :
  url_clean (a ++ b) = url_clean a && url_clean b.
Proof.
  unfold url_clean. induction a as [|c a IH]; [done|].
  rewrite str_app_cons. simpl. rewrite IH. apply andb_assoc.
Qed.

Lemma hex_upper_clean (d : nat) :
  d < 16 -> (nat_of_ascii (hex_upper d) <? 128) && negb (Ascii.eqb (hex_upper d) " ") = true.
Proof. intros Hd. do 16 (destruct d as [|d]; [reflexivity|]). lia. Qed.

(** A byte kept by [quote] is ASCII and not a space (checked on all 256
    bytes). *)
Lemma safe_byte_clean (c : ascii) :
  implb (always_safe c || in_str c "/")
        ((nat_of_ascii c <? 128) && negb (Ascii.eqb c " ")) = true.
Proof. destruct c as [[] [] [] [] [] [] [] []]; reflexivity. Qed.

(** ** Properties *)

(** C28: round trip: [unquote] recovers every key from [quote(key)],
    whatever bytes (non-ASCII, spaces, [%]) the key holds. *)
Theorem unquote_quote (s : string) : unquote (quote s) = s.
Proof.
  unfold quote. induction s as [|c s IH]; [done|]. cbn [quote_with].
  destruct (always_safe c || in_str c "/") eqn:Hs.
  - rewrite str_app_cons, str_app_nil_l. cbn [unquote].
    rewrite (percent_not_safe_slash c Hs). by rewrite IH.
  - by rewrite percent_decodes, IH.
Qed.

(** C29: a quoted key holds no space and no byte outside ASCII, so the
    URLs printed by [src/task.py] are plain ASCII. *)
Theorem quote_url_clean (s : string) : url_clean (quote s) = true.
Proof.
  unfold quote. induction s as [|c s IH]; [done|]. cbn [quote_with].
  rewrite url_clean_app, IH, andb_true_r.
  destruct (always_safe c || in_str c "/") eqn:Hs.
  - unfold url_clean. simpl. rewrite andb_true_r.
    pose proof (safe_byte_clean c) as Hc. by rewrite Hs in Hc.
  - unfold percent, url_clean. cbn [list_ascii_of_string forallb].
    pose proof (nat_ascii_bounded c).
    rewrite (hex_upper_clean (nat_of_ascii c / 16)) by (apply Nat.Div0.div_lt_upper_bound; lia).
    by rewrite (hex_upper_clean (nat_of_ascii c mod 16)) by (apply Nat.mod_upper_bound; lia).
Qed.

(** The URLs [src/task.py] prints for its two keys (lines 63 and 76):
    the Cyrillic key with spaces is percent-encoded byte by byte, as
    CPython's [quote] does. *)
Theorem task_object_urls :
  object_url BUCKET "guido_van_rossum_obj.jpg" =
    "https://storage.yandexcloud.net/itiscl-spr23-21-public/guido_van_rossum_obj.jpg" /\
  object_url BUCKET "это простой текст.txt" =
    "https://storage.yandexcloud.net/itiscl-spr23-21-public/%D1%8D%D1%82%D0%BE%20%D0%BF%D1%80%D0%BE%D1%81%D1%82%D0%BE%D0%B9%20%D1%82%D0%B5%D0%BA%D1%81%D1%82.txt".
Proof. split; vm_compute; reflexivity. Qed.

(** The bot's [send_voice] builds the voice URL without quoting the
    key (line 90); for the only keys it uses, [speech.raw] and
    [speech.ogg], that URL is the quoted one. *)
Theorem send_voice_keys_need_no_quoting :
  voice_url "speech.raw" = object_url BUCKET "speech.raw" /\
  voice_url "speech.ogg" = object_url BUCKET "speech.ogg".
Proof. split; vm_compute; reflexivity. Qed.

