(* ===== verification/Provision.v ===== *)
(** * [src/task.py]: provisioning an Object Storage bucket

    The script is a fixed sequence of operations on Yandex Object Storage
    through boto3, with a download and a local file in between.  Its state
    is [world]: the buckets of the account (each a [gmap] from keys to
    objects, with an optional web-site configuration), the local files, and
    the lines printed.  [exec_op] is one operation, with the error boto3
    raises ([ClientError] when the bucket exists already or is missing,
    [FileNotFoundError] for a missing local file); [task_script] is the
    script, run in the state-and-exception monad of [Prelude], which keeps
    the effects made before an error.

    [shows] states what must hold when the script prints a URL.

    The download of line 15 is a parameter [photo]: the body of the HTTP
    response, or [None] when [requests.get] raises ([ConnectionError]; a
    response with an error status still has a body, which is saved).  The
    two boto3 profiles ([admin], [uploader]) are not distinguished: access
    rights, bucket names taken by other accounts and failures of the
    storage service itself are not modelled; the S3 operations fail only
    on the presence or absence of the bucket. *)

From stdpp Require Import base strings list gmap sorting.
From Stdlib Require Import ZArith String.
From S2P Require Import Prelude PyValue Http UrlQuote.
Local Open Scope py_scope.
Local Open Scope string_scope.

Record obj : Type := { body : string; content_type : option string }.

Record bucket : Type := {
  objects : gmap string obj;
  website : option (string * string)   (** index suffix, error document key *)
}.

Record world : Type := {
  buckets : gmap string bucket;
  files : gmap string string;
  out : list string
}.

Inductive op : Type :=
| Download (url filename : string)
| PrintBuckets
| CreateBucket (b : string)
| UploadFile (b key filename : string)
| PrintUrl (b key : string)
| PutObj (b key : string) (data : string) (ct : option string)
| PrintObjects (b : string)
| PutWebsite (b index_suffix error_key : string)
| PrintWebsite (b : string).

Section Script.
Variable photo : option string.

Definition set_buckets (w : world) (m : gmap string bucket) : world :=
  {| buckets := m; files := files w; out := out w |}.
Definition set_files (w : world) (m : gmap string string) : world :=
  {| buckets := buckets w; files := m; out := out w |}.
Definition print (w : world) (lines : list string) : world :=
  {| buckets := buckets w; files := files w; out := (out w ++ lines)%list |}.

Definition put_in (w : world) (b key : string) (o : obj) : outcome exc world :=
  match buckets w !! b with
  | Some bk => Ok (set_buckets w (<[b := {| objects := <[key := o]> (objects bk);
                                            website := website bk |}]> (buckets w)))
  | None => Raise ClientError
  end.

(** Keys in the byte order of their UTF-8 encoding, as S3 lists them. *)
Definition key_le (a b : string) : Prop := String.leb a b = true.
#[local] Instance key_le_dec : RelDecision key_le :=
  fun a b => decide (String.leb a b = true).

Definition sorted_keys {A} (m : gmap string A) : list string :=
  merge_sort key_le (map fst (map_to_list m)).

(** [print(bucket)] of a boto3 [Bucket] resource. *)
Definition bucket_line (b : string) : string := "s3.Bucket(name='" ++ b ++ "')".
Definition website_url (b : string) : string := "https://" ++ b ++ ".website.yandexcloud.net".

Definition size_str (o : obj) : string := z_str (Z.of_nat (String.length (body o))).

(** [for obj in bucket.objects.all(): print(obj.key, obj.size)] *)
Definition listing_of (objs : gmap string obj) : list string :=
  map (fun k => k ++ " " ++ match objs !! k with
                           | Some o => size_str o
                           | None => ""
                           end) (sorted_keys objs).

Definition exec_op (w : world) (o : op) : outcome exc world :=
  match o with
  | Download _ filename =>
      match photo with
      | Some data => Ok (set_files w (<[filename := data]> (files w)))
      | None => Raise ConnectionError
      end
  | PrintBuckets =>
      Ok (print w (map bucket_line (sorted_keys (buckets w))))
  | CreateBucket b =>
      match buckets w !! b with
      | Some _ => Raise ClientError
      | None => Ok (set_buckets w (<[b := {| objects := ∅; website := None |}]> (buckets w)))
      end
  | UploadFile b key filename =>
      match files w !! filename with
      | Some data => put_in w b key {| body := data; content_type := None |}
      | None => Raise FileNotFoundError
      end
  | PrintUrl b key => Ok (print w [object_url b key])
  | PutObj b key data ct => put_in w b key {| body := data; content_type := ct |}
  | PrintObjects b =>
      match buckets w !! b with
      | Some bk => Ok (print w (listing_of (objects bk)))
      | None => Raise ClientError
      end
  | PutWebsite b idx err =>
      match buckets w !! b with
      | Some bk => Ok (set_buckets w (<[b := {| objects := objects bk;
                                                website := Some (idx, err) |}]> (buckets w)))
      | None => Raise ClientError
      end
  | PrintWebsite b => Ok (print w [website_url b])
  end.

Fixpoint run (ops : list op) : stm world exc unit :=
  match ops with
  | [] => sret tt
  | o :: ops' => fun w => match exec_op w o with
                          | Ok w' => run ops' w'
                          | Raise e => (Raise e, w)
                          end
  end.

Definition HELLO : string := "Hello, World!".
Definition HTML : string :=
  "<!DOCTYPE><html><head><title>Test page</title></head><body><h1>Test page</h1></body></html>".
Definition PHOTO_URL : string := "https://farm1.staticflickr.com/76/199907296_a602917e6d_o.jpg".
Definition CYR_KEY : string := "это простой текст.txt".

(** Lines 15-115, in order. *)
Definition task_script : list op :=
  [Download PHOTO_URL "Guido_van_Rossum.jpg";
   PrintBuckets;
   CreateBucket BUCKET;
   UploadFile BUCKET "guido_van_rossum_obj.jpg" "Guido_van_Rossum.jpg";
   PrintUrl BUCKET "guido_van_rossum_obj.jpg";
   PutObj BUCKET CYR_KEY HELLO None;
   PrintUrl BUCKET CYR_KEY;
   PutObj BUCKET "dir1/file11.txt" HELLO None;
   PutObj BUCKET "dir1/file12.txt" HELLO None;
   PutObj BUCKET "dir1/file13.txt" HELLO None;
   PutObj BUCKET "dir2/file21.txt" HELLO None;
   PutObj BUCKET "dir2/file22.txt" HELLO None;
   PutObj BUCKET "dir3/file31.txt" HELLO None;
   PrintObjects BUCKET;
   PutWebsite BUCKET "index.html" "error.html";
   PutObj BUCKET "index.html" HTML (Some "text/html");
   PrintWebsite BUCKET].
End Script.

(** ** What the script prints *)

(** What must hold when the script prints: an object URL is printed once
    the object is stored, the web-site URL once the bucket is configured
    as a web site and its index document is stored. *)
Definition shows (w : world) (o : op) : Prop :=
  match o with
  | PrintUrl b k => exists bk, buckets w !! b = Some bk /\ is_Some (objects bk !! k)
  | PrintWebsite b =>
      exists bk idx err, buckets w !! b = Some bk /\ website bk = Some (idx, err) /\
                         is_Some (objects bk !! idx)
  | _ => True
  end.

(** ** Properties *)

Definition listing (photo : string) : list string :=
  ["dir1/file11.txt 13"; "dir1/file12.txt 13"; "dir1/file13.txt 13";
   "dir2/file21.txt 13"; "dir2/file22.txt 13"; "dir3/file31.txt 13";
   "guido_van_rossum_obj.jpg " ++ z_str (Z.of_nat (String.length photo));
   CYR_KEY ++ " 13"].

Definition listed_objects (photo : string) : gmap string obj :=
  <["dir3/file31.txt" := {| body := HELLO; content_type := None |}]>
  (<["dir2/file22.txt" := {| body := HELLO; content_type := None |}]>
  (<["dir2/file21.txt" := {| body := HELLO; content_type := None |}]>
  (<["dir1/file13.txt" := {| body := HELLO; content_type := None |}]>
  (<["dir1/file12.txt" := {| body := HELLO; content_type := None |}]>
  (<["dir1/file11.txt" := {| body := HELLO; content_type := None |}]>
  (<[CYR_KEY := {| body := HELLO; content_type := None |}]>
  (<["guido_van_rossum_obj.jpg" := {| body := photo; content_type := None |}]> ∅))))))).

Definition final_objects (photo : string) : gmap string obj :=
  <["index.html" := {| body := HTML; content_type := Some "text/html" |}]> (listed_objects photo).

Ltac run_step :=
  repeat (unfold put_in; cbn [run exec_op set_buckets set_files print buckets files out
                              objects website sret fst snd];
          rewrite ?lookup_insert_eq, ?insert_insert_eq);
  unfold sret, print, set_buckets, set_files;
  cbn [buckets files out objects website].

Lemma listing_of_listed (photo : string) : listing_of (listed_objects photo) = listing photo.
Proof. vm_compute. reflexivity. Qed.


(** C30: on an account without the bucket, the script runs to the end: the
    bucket holds the nine objects with their bodies and content types and
    is configured as a web site; the photograph is saved locally; the
    script prints the existing buckets, the two object URLs (the second
    key percent-encoded), the eight objects present before [index.html]
    in S3's key order with their sizes, and the web-site URL. *)
Theorem task_script_run (photo : string) (w : world) :
  buckets w !! BUCKET = None ->
  run (Some photo) task_script w =
    (Ok tt, {| buckets := <[BUCKET := {| objects := final_objects photo;
                                         website := Some ("index.html", "error.html") |}]>
                          (buckets w);
               files := <["Guido_van_Rossum.jpg" := photo]> (files w);
               out := (out w ++ map bucket_line (sorted_keys (buckets w))
                       ++ [object_url BUCKET "guido_van_rossum_obj.jpg"; object_url BUCKET CYR_KEY]
                       ++ listing photo ++ [website_url BUCKET])%list |}).
Proof.
  intros Hb. unfold task_script. run_step. rewrite Hb. run_step.
  fold (listed_objects photo). rewrite listing_of_listed, <- ?app_assoc. reflexivity.
Qed.

Definition empty_account : world := {| buckets := ∅; files := ∅; out := [] |}.

Lemma task_script_run_witness :
  buckets empty_account !! BUCKET = None /\
  out (snd (run (Some "JPEG") task_script empty_account)) =
    (["https://storage.yandexcloud.net/itiscl-spr23-21-public/guido_van_rossum_obj.jpg";
     "https://storage.yandexcloud.net/itiscl-spr23-21-public/%D1%8D%D1%82%D0%BE%20%D0%BF%D1%80%D0%BE%D1%81%D1%82%D0%BE%D0%B9%20%D1%82%D0%B5%D0%BA%D1%81%D1%82.txt";
     "dir1/file11.txt 13"; "dir1/file12.txt 13"; "dir1/file13.txt 13";
     "dir2/file21.txt 13"; "dir2/file22.txt 13"; "dir3/file31.txt 13";
     "guido_van_rossum_obj.jpg 4"; "это простой текст.txt 13";
     "https://itiscl-spr23-21-public.website.yandexcloud.net"])%list.
Proof.
  split; [reflexivity|]. rewrite (task_script_run "JPEG" empty_account); [|reflexivity].
  vm_compute. reflexivity.
Defined.

(** C31: the script cannot be run twice: when the bucket exists already,
    [create()] raises [ClientError] after the photograph was downloaded
    and the buckets listed; the buckets are left as they were. *)
Theorem task_script_rerun_fails (photo : string) (w : world) (bk : bucket) :
  buckets w !! BUCKET = Some bk ->
  run (Some photo) task_script w =
    (Raise ClientError,
     {| buckets := buckets w;
        files := <["Guido_van_Rossum.jpg" := photo]> (files w);
        out := (out w ++ map bucket_line (sorted_keys (buckets w)))%list |}).
Proof. intros Hb. unfold task_script. run_step. rewrite Hb. reflexivity. Qed.

Lemma task_script_rerun_fails_witness :
  buckets (snd (run (Some "JPEG") task_script empty_account)) !! BUCKET =
    Some {| objects := final_objects "JPEG"; website := Some ("index.html", "error.html") |} /\
  fst (run (Some "JPEG") task_script (snd (run (Some "JPEG") task_script empty_account))) = Raise ClientError.
Proof.
  assert (Hb : buckets (snd (run (Some "JPEG") task_script empty_account)) !! BUCKET =
    Some {| objects := final_objects "JPEG"; website := Some ("index.html", "error.html") |}).
  { rewrite (task_script_run "JPEG" empty_account); [|reflexivity]. apply lookup_insert_eq. }
  split; [exact Hb|]. by rewrite (task_script_rerun_fails "JPEG" _ _ Hb).
Defined.

Ltac live_case w :=
  let Hb := fresh "Hb" in
  match goal with Hi : _ !! _ = Some _ |- _ => cbn in Hi; injection Hi as <- end;
  cbn [shows];
  first
  [ exact I
  | match goal with Hrun : run _ _ _ = _ |- _ => revert Hrun end;
    unfold task_script; cbn [take]; run_step;
    destruct (buckets w !! BUCKET) eqn:Hb; run_step; [by intros [=]|];
    intros [= <-]; cbn [buckets];
    lazymatch goal with
    | |- exists bk idx err, _ => do 3 eexists
    | |- exists bk, _ => eexists
    end;
    split_and!; [by rewrite lookup_insert_eq|..]; cbn [objects website];
    try reflexivity; simplify_map_eq; eauto ].

(** C32: the script prints every URL when it is live: an object's URL once
    the object is stored (lines 60 and 73, after the uploads of lines 59
    and 72), the web site's URL once the bucket is configured as a web site
    and its index document is stored (line 115, after lines 105-113); on
    an account where the bucket exists the run stops before any URL. *)
Theorem task_script_prints_live (photo : option string) (w w1 : world) (i : nat) (o : op) :
  task_script !! i = Some o ->
  run photo (take i task_script) w = (Ok tt, w1) ->
  shows w1 o.
Proof.
  intros Hi Hrun. destruct photo as [photo|].
  - do 17 (destruct i as [|i]; [live_case w|]). done.
  - destruct i as [|i]; [by injection Hi as <-|]. by cbn in Hrun.
Qed.

Lemma task_script_prints_live_witness :
  task_script !! 16 = Some (PrintWebsite BUCKET) /\
  run (Some "JPEG") (take 16 task_script) empty_account =
    (Ok tt, (run (Some "JPEG") (take 16 task_script) empty_account).2) /\
  shows (run (Some "JPEG") (take 16 task_script) empty_account).2 (PrintWebsite BUCKET).
Proof.
  assert (H1 : task_script !! 16 = Some (PrintWebsite BUCKET)) by reflexivity.
  assert (H2 : run (Some "JPEG") (take 16 task_script) empty_account =
                 (Ok tt, (run (Some "JPEG") (take 16 task_script) empty_account).2))
    by (vm_compute; reflexivity).
  split; [exact H1|]. split; [exact H2|].
  exact (task_script_prints_live (Some "JPEG") _ _ 16 _ H1 H2).
Defined.
